(** * dashboard-kolas: batch allocation, batch lifecycle and harvest ledger

    A shallow embedding of the business logic of the batches page
    (strain allocation, batch codes, status changes, harvest recording,
    cost to grow) and of the facility page (room deletion), followed by
    the properties proved about it.

    Modelling conventions.
    - A JavaScript [number] holding a count (lights, days, milliseconds)
      is a [Z].  One holding a measure (percentage, weight, price,
      money) is a [Js.number]: an IEEE 754 binary64 value in the
      representation of the standard library's [SpecFloat], with its
      zeros, infinities and NaN.  Sums, products and quotients of
      measures are the correctly rounded operations of that format, in
      the order the code performs them; a count enters such an
      operation as the nearest double ([Js.int]), and a decimal literal
      is the double nearest to it ([Js.lit]).  The result of a division
      is tagged ([Js.quotient]): [Finite q] when the divisor is not
      zero, [NotFinite] when it is.
    - A date column or ["YYYY-MM-DD"] string is its day number ([Z],
      days since the epoch); [new Date(s).getTime()] of such a string is
      that day number times the milliseconds of a day.
    - A numeric form field is the number [parseInt]/[parseFloat] reads
      from its text, [None] for the empty text.
    - The hosted store is a record of tables, each a list of rows.  A
      call to the store answers through its [error] field: every call
      site takes an [outcome] saying whether that call is refused, and a
      refused call leaves the tables as they were.  Exceptions thrown by
      the client library and console logging are not modelled.
    - React state is a record; a handler maps the state it was invoked
      with to the state after it. *)

From Stdlib Require Import ZArith QArith Qround String Ascii List Bool Lia.
From Stdlib Require Import DecimalString SpecFloat.
Import ListNotations.
Local Open Scope string_scope.

(** ** JavaScript primitives *)

Module Js.

(** [String(n)] for an integer. *)
Definition String_of_Z (n : Z) : string :=
  NilZero.string_of_int (Z.to_int n).

Definition String_of_nat (n : nat) : string :=
  String_of_Z (Z.of_nat n).

(** A template slot [${v}] holding a nullable integer. *)
Definition show_nullable (v : option Z) : string :=
  match v with
  | Some n => String_of_Z n
  | None => "null"
  end.

Fixpoint zeros (k : nat) : string :=
  match k with
  | O => EmptyString
  | S k' => String "0" (zeros k')
  end.

(** [s.padStart(len, "0")]. *)
Definition padStart0 (len : nat) (s : string) : string :=
  zeros (len - String.length s) ++ s.

(** The character class [\d]. *)
Definition is_digit (c : ascii) : bool :=
  (48 <=? nat_of_ascii c)%nat && (nat_of_ascii c <=? 57)%nat.

Fixpoint take_digits (s : string) : string :=
  match s with
  | EmptyString => EmptyString
  | String c rest =>
      if is_digit c then String c (take_digits rest) else EmptyString
  end.

(** [s.match(/(\d+)/)]: the capture of the leftmost match, which is
    greedy, or [None] when nothing matches. *)
Fixpoint match_digits (s : string) : option string :=
  match s with
  | EmptyString => None
  | String c rest =>
      if is_digit c then Some (String c (take_digits rest))
      else match_digits rest
  end.

Fixpoint all_chars (p : ascii -> bool) (s : string) : bool :=
  match s with
  | EmptyString => true
  | String c rest => p c && all_chars p rest
  end.

(** [x || d] on a nullable integer: [d] replaces null and zero. *)
Definition or_Z (x : option Z) (d : Z) : Z :=
  match x with
  | Some v => if (v =? 0)%Z then d else v
  | None => d
  end.

(** [x || d] on a nullable string: [d] replaces null and the empty text. *)
Definition or_string (x : option string) (d : string) : string :=
  match x with
  | Some s => if String.eqb s "" then d else s
  | None => d
  end.

(** *** Numbers

    A measure is a binary64 value: 53 bits of precision, exponents up
    to 1024. *)
Definition number : Type := spec_float.

Definition prec : Z := 53.
Definition emax : Z := 1024.

(** The double nearest to an integer. *)
Definition int (z : Z) : number := binary_normalize prec emax z 0 false.

(** [a + b], [a - b], [a * b] and [a / b] on doubles. *)
Definition add (a b : number) : number := SFadd prec emax a b.
Definition sub (a b : number) : number := SFsub prec emax a b.
Definition mul (a b : number) : number := SFmul prec emax a b.
Definition quot (a b : number) : number := SFdiv prec emax a b.

(** The decimal literal [m * 10^-k], as the double nearest to it: the
    quotient of two integers that are doubles themselves. *)
Definition lit (m : Z) (k : nat) : number :=
  quot (int m) (int (10 ^ Z.of_nat k)).

(** [a > b]; false when either is NaN. *)
Definition gtb (a b : number) : bool := SFltb b a.

Definition is_zero (x : number) : bool :=
  match x with
  | S754_zero _ => true
  | _ => false
  end.

Definition is_finite (x : number) : bool :=
  match x with
  | S754_zero _ | S754_finite _ _ _ => true
  | _ => false
  end.

(** A number is falsy when it is a zero or NaN. *)
Definition falsy (x : number) : bool :=
  match x with
  | S754_zero _ | S754_nan => true
  | _ => false
  end.

(** [x || d] on a number. *)
Definition or_num (x d : number) : number :=
  if falsy x then d else x.

(** The exact value of a finite double. *)
Definition to_Q (x : number) : Q :=
  match x with
  | S754_finite s m e =>
      let v := match e with
               | Zpos p => inject_Z (Zpos m * 2 ^ Zpos p)
               | Z0 => inject_Z (Zpos m)
               | Zneg p => Zpos m # (2 ^ p)
               end in
      if s then - v else v
  | _ => 0
  end.

(** The double nearest to the fraction [p / q]. *)
Definition nearest (p : Z) (q : positive) : number :=
  let rounded (s : bool) (m : positive) :=
    let '(mz, ez, lz) := SFdiv_core_binary prec emax (Zpos m) 0 (Zpos q) 0 in
    binary_round_aux prec emax s mz ez lz in
  match p with
  | Z0 => S754_zero false
  | Zpos m => rounded false m
  | Zneg m => rounded true m
  end.

(** [parseFloat(x.toFixed(1))].  [toFixed] works on the exact value of
    the magnitude: it takes the integer [n] with [n / 10] nearest to
    it, the larger one on a tie, and prints [n / 10] with the sign in
    front (a magnitude of [1e21] or more prints as the number itself,
    as NaN and the infinities do); [parseFloat] reads the text back as
    the nearest double. *)
Definition toFixed1 (x : number) : number :=
  match x with
  | S754_finite s m e =>
      let v := to_Q (S754_finite false m e) in
      if Qle_bool (inject_Z (10 ^ 21)) v then x
      else
        let n := Qfloor (v * 10 + (1 # 2)) in
        match nearest n 10 with
        | S754_zero _ => S754_zero s
        | S754_finite _ m' e' => S754_finite s m' e'
        | other => other
        end
  | S754_zero _ => S754_zero false
  | _ => x
  end.

(** A quotient, tagged with whether its divisor was zero. *)
Inductive quotient : Type :=
  | Finite (q : number)
  | NotFinite.

(** [a / b] by a measure and by a count. *)
Definition div (a b : number) : quotient :=
  if is_zero b then NotFinite else Finite (quot a b).

Definition div_count (a : number) (n : Z) : quotient :=
  if (n =? 0)%Z then NotFinite else Finite (quot a (int n)).

(** [q * k] on a quotient. *)
Definition scale (k : number) (n : quotient) : quotient :=
  match n with
  | Finite q => Finite (mul q k)
  | NotFinite => NotFinite
  end.

Definition ms_per_day : Z := 1000 * 60 * 60 * 24.

(** What [new Date()] shows: [getTime()] and [getFullYear()]. *)
Record Clock : Type := mkClock {
  getTime : Z;
  getFullYear : Z
}.

(** [today.toISOString().split("T")[0]] as a day number. *)
Definition iso_day (c : Clock) : Z := (getTime c / ms_per_day)%Z.

(** [Array.prototype.find]. *)
Definition find {A : Type} (p : A -> bool) (l : list A) : option A :=
  List.find p l.

(** [Array.prototype.some]. *)
Definition some {A : Type} (p : A -> bool) (l : list A) : bool :=
  existsb p l.

(** [Array.prototype.filter] with the two-argument callback
    [(x, i) => p i], counting positions from [i]. *)
Fixpoint filter_at {A : Type} (p : nat -> bool) (i : nat) (l : list A)
  : list A :=
  match l with
  | [] => []
  | x :: rest =>
      if p i then x :: filter_at p (S i) rest else filter_at p (S i) rest
  end.

(** [l.reduce((sum, x) => sum + f x, 0)] on counts and on measures. *)
Definition reduce_Z {A : Type} (f : A -> Z) (l : list A) : Z :=
  fold_left (fun sum x => (sum + f x)%Z) l 0%Z.

Definition reduce_num {A : Type} (f : A -> number) (l : list A) : number :=
  fold_left (fun sum x => add sum (f x)) l (int 0).

Arguments int : simpl never.
Arguments lit : simpl never.
Arguments add : simpl never.
Arguments sub : simpl never.
Arguments mul : simpl never.
Arguments quot : simpl never.
Arguments gtb : simpl never.
Arguments nearest : simpl never.
Arguments toFixed1 : simpl never.

End Js.

(** ** A state monad for the handlers *)

Module Eff.

Definition M (S A : Type) : Type := S -> A * S.

Definition ret {S A : Type} (a : A) : M S A := fun s => (a, s).

Definition bind {S A B : Type} (c : M S A) (k : A -> M S B) : M S B :=
  fun s => let (a, s') := c s in k a s'.

Definition get {S : Type} : M S S := fun s => (s, s).

Definition modify {S : Type} (f : S -> S) : M S unit := fun s => (tt, f s).

Definition exec {S A : Type} (c : M S A) (s : S) : S := snd (c s).
Definition eval {S A : Type} (c : M S A) (s : S) : A := fst (c s).

End Eff.

Declare Scope eff_scope.
Delimit Scope eff_scope with eff.
Notation "x <- c ;; k" := (Eff.bind c (fun x => k))
  (at level 61, c at next level, right associativity) : eff_scope.
Notation "c ;; k" := (Eff.bind c (fun _ => k))
  (at level 61, right associativity) : eff_scope.

(** ** The hosted store *)

Module Store.

(** The [status] column of a batch. *)
Inductive Status : Type := planned | active | harvested | archived.

Definition Status_eqb (a b : Status) : bool :=
  match a, b with
  | planned, planned | active, active
  | harvested, harvested | archived, archived => true
  | _, _ => false
  end.

(** Whether the store accepts a call or answers it with an error (a
    failed request, a violated constraint, a [single()] that does not
    find exactly one row). *)
Inductive outcome : Type := Accepted | Refused.

(** The [{ data, error }] pair a call resolves to. *)
Inductive response (A : Type) : Type :=
  | Data (data : A)
  | Error.
Arguments Data {A} data.
Arguments Error {A}.

(** Rows.  Columns no modelled handler reads or writes (area, category,
    timestamps, the key of an assignment or detail row) are left out. *)

Module RoomRow.
Record t : Type := mk {
  id : string;
  name : string;
  lights : option Z
}.
End RoomRow.

Module StrainRow.
Record t : Type := mk {
  id : string;
  name : string
}.
End StrainRow.

Module BatchRow.
Record t : Type := mk {
  id : string;
  room_id : option string;
  strain_id : option string;
  batch_code : option string;
  start_date : Z;
  expected_harvest : option Z;
  status : Status
}.
End BatchRow.

Module BatchStrainRow.
Record t : Type := mk {
  batch_id : string;
  strain_id : string;
  lights_assigned : Z;
  percentage : Js.number
}.
End BatchStrainRow.

Module CostEntryRow.
Record t : Type := mk {
  batch_id : option string;
  room_id : option string;
  date : Z;
  amount : Js.number
}.
End CostEntryRow.

Module HarvestSummaryRow.
Record t : Type := mk {
  id : nat;
  batch_id : string;
  total_harvest_lbs : Js.number;
  yield_per_light : Js.quotient;
  total_lights : Z;
  harvest_date : Z
}.
End HarvestSummaryRow.

Module HarvestDetailRow.
Record t : Type := mk {
  harvest_summary_id : nat;
  strain_id : string;
  strain_name : string;
  bigs_lbs : Js.number;
  smalls_lbs : Js.number;
  micros_lbs : Js.number
}.
End HarvestDetailRow.

(** The tables.  [next_summary_id] is the serial key the store gives to
    the next row of [harvest_summaries]. *)
Record Db : Type := mkDb {
  rooms : list RoomRow.t;
  strains : list StrainRow.t;
  batches : list BatchRow.t;
  batch_strains : list BatchStrainRow.t;
  cost_entries : list CostEntryRow.t;
  harvest_summaries : list HarvestSummaryRow.t;
  harvest_details : list HarvestDetailRow.t;
  next_summary_id : nat
}.

Definition empty : Db := mkDb [] [] [] [] [] [] [] 0.

Definition set_rooms (v : list RoomRow.t) (d : Db) : Db :=
  mkDb v (strains d) (batches d) (batch_strains d) (cost_entries d)
       (harvest_summaries d) (harvest_details d) (next_summary_id d).

Definition set_batches (v : list BatchRow.t) (d : Db) : Db :=
  mkDb (rooms d) (strains d) v (batch_strains d) (cost_entries d)
       (harvest_summaries d) (harvest_details d) (next_summary_id d).

Definition set_batch_strains (v : list BatchStrainRow.t) (d : Db) : Db :=
  mkDb (rooms d) (strains d) (batches d) v (cost_entries d)
       (harvest_summaries d) (harvest_details d) (next_summary_id d).

Definition set_harvest_details (v : list HarvestDetailRow.t) (d : Db) : Db :=
  mkDb (rooms d) (strains d) (batches d) (batch_strains d) (cost_entries d)
       (harvest_summaries d) v (next_summary_id d).

Definition set_harvest_summaries (v : list HarvestSummaryRow.t) (k : nat)
  (d : Db) : Db :=
  mkDb (rooms d) (strains d) (batches d) (batch_strains d) (cost_entries d)
       v (harvest_details d) k.

Definition opt_eqb (x : option string) (y : string) : bool :=
  match x with
  | Some s => String.eqb s y
  | None => false
  end.

(** [column LIKE 'prefix%'] where the prefix holds no wildcard; a null
    column matches nothing. *)
Definition like_prefix (column : option string) (prefix : string) : bool :=
  match column with
  | Some s => String.prefix prefix s
  | None => false
  end.

Definition mem_nat (k : nat) (l : list nat) : bool :=
  existsb (Nat.eqb k) l.

(** *** Queries *)

(** [from("batches").select("batch_code").eq("room_id", roomId)
    .like("batch_code", prefix + "%")]. *)
Definition select_batch_codes (roomId prefix : string) (d : Db)
  : list (option string) :=
  map BatchRow.batch_code
    (filter (fun b => opt_eqb (BatchRow.room_id b) roomId
                      && like_prefix (BatchRow.batch_code b) prefix)
            (batches d)).

(** [from("cost_entries").select(...)
    .or("batch_id.eq.B,room_id.eq.R").gte("date", lo).lte("date", hi)]. *)
Definition select_cost_entries (batchId roomId : string) (lo hi : Z) (d : Db)
  : list CostEntryRow.t :=
  filter (fun e => (opt_eqb (CostEntryRow.batch_id e) batchId
                    || opt_eqb (CostEntryRow.room_id e) roomId)
                   && (lo <=? CostEntryRow.date e)%Z
                   && (CostEntryRow.date e <=? hi)%Z)
         (cost_entries d).

(** [from("harvest_summaries").select("id").eq("batch_id", batchId)]. *)
Definition select_summary_ids (batchId : string) (d : Db) : list nat :=
  map HarvestSummaryRow.id
    (filter (fun s => String.eqb (HarvestSummaryRow.batch_id s) batchId)
            (harvest_summaries d)).

(** [from("harvest_details").delete().in("harvest_summary_id", ids)]. *)
Definition delete_details_in (ids : list nat) (d : Db) : Db :=
  set_harvest_details
    (filter (fun r => negb (mem_nat (HarvestDetailRow.harvest_summary_id r) ids))
            (harvest_details d)) d.

(** [from("harvest_summaries").delete().eq("batch_id", batchId)]. *)
Definition delete_summaries_of (batchId : string) (d : Db) : Db :=
  set_harvest_summaries
    (filter (fun s => negb (String.eqb (HarvestSummaryRow.batch_id s) batchId))
            (harvest_summaries d))
    (next_summary_id d) d.

(** [from("harvest_summaries").insert(row).select().single()]: the row
    is stored under the next serial key and handed back. *)
Definition insert_summary (batchId : string) (total : Js.number) (ypl : Js.quotient)
  (lights day : Z) (d : Db) : HarvestSummaryRow.t * Db :=
  let row := HarvestSummaryRow.mk (next_summary_id d) batchId total ypl
                                  lights day in
  (row, set_harvest_summaries (harvest_summaries d ++ [row])
          (S (next_summary_id d)) d).

(** [from("harvest_details").insert(rows)]. *)
Definition insert_details (rows : list HarvestDetailRow.t) (d : Db) : Db :=
  set_harvest_details (harvest_details d ++ rows) d.

Definition with_status (s : Status) (b : BatchRow.t) : BatchRow.t :=
  BatchRow.mk (BatchRow.id b) (BatchRow.room_id b) (BatchRow.strain_id b)
              (BatchRow.batch_code b) (BatchRow.start_date b)
              (BatchRow.expected_harvest b) s.

(** [from("batches").update({ status }).eq("id", batchId)]. *)
Definition update_batch_status (batchId : string) (s : Status) (d : Db) : Db :=
  set_batches
    (map (fun b => if String.eqb (BatchRow.id b) batchId
                   then with_status s b else b)
         (batches d)) d.

(** [from("batches").insert(row).select().single()]. *)
Definition insert_batch (row : BatchRow.t) (d : Db) : Db :=
  set_batches (batches d ++ [row]) d.

(** [from("batch_strains").insert(rows)]. *)
Definition insert_batch_strains (rows : list BatchStrainRow.t) (d : Db) : Db :=
  set_batch_strains (batch_strains d ++ rows) d.

(** [from("rooms").delete().eq("id", roomId)]. *)
Definition delete_room (roomId : string) (d : Db) : Db :=
  set_rooms (filter (fun r => negb (String.eqb (RoomRow.id r) roomId))
                    (rooms d)) d.

(** The status a batch is stored with, when the batch exists. *)
Definition stored_status (batchId : string) (d : Db) : option Status :=
  option_map BatchRow.status
    (List.find (fun b => String.eqb (BatchRow.id b) batchId) (batches d)).

(** *** The world a handler runs in: component state, store, clock and
    the messages shown through [alert]. *)
Record World (U : Type) : Type := mkWorld {
  ui : U;
  db : Db;
  clock : Js.Clock;
  alerts : list string
}.
Arguments mkWorld {U} ui db clock alerts.
Arguments ui {U} w.
Arguments db {U} w.
Arguments clock {U} w.
Arguments alerts {U} w.

Definition set_ui {U : Type} (f : U -> U) (w : World U) : World U :=
  mkWorld (f (ui w)) (db w) (clock w) (alerts w).

Definition set_db {U : Type} (d : Db) (w : World U) : World U :=
  mkWorld (ui w) d (clock w) (alerts w).

(** [alert(msg)]. *)
Definition alert {U : Type} (msg : string) : Eff.M (World U) unit :=
  fun w => (tt, mkWorld (ui w) (db w) (clock w) (alerts w ++ [msg])).

(** A read: refused, or answered from the tables. *)
Definition query {U A : Type} (o : outcome) (q : Db -> A)
  : Eff.M (World U) (response A) :=
  fun w =>
    match o with
    | Accepted => (Data (q (db w)), w)
    | Refused => (Error, w)
    end.

(** A write: refused with the tables untouched, or applied. *)
Definition command {U A : Type} (o : outcome) (c : Db -> A * Db)
  : Eff.M (World U) (response A) :=
  fun w =>
    match o with
    | Accepted => let (a, d) := c (db w) in (Data a, set_db d w)
    | Refused => (Error, w)
    end.

Definition command_ {U : Type} (o : outcome) (c : Db -> Db)
  : Eff.M (World U) (response unit) :=
  command o (fun d => (tt, c d)).

End Store.

(** ** The batches page *)

Module Batches.
Import Store.
Local Open Scope eff_scope.

(** An entry of the in-progress strain list of the add-batch form. *)
Module BatchStrain.
Record t : Type := mk {
  strain_id : string;
  strain_name : string;
  lights_assigned : Z;
  percentage : Js.number
}.
End BatchStrain.

(** A [batch_strains] row as [loadBatches] receives it, nested in its
    batch, with the name of its strain joined in. *)
Module Assignment.
Record t : Type := mk {
  strain_id : string;
  lights_assigned : Z;
  percentage : Js.number;
  strains_name : option string;
  strain_name : option string
}.
End Assignment.

(** A batch row with its joined room, strain and assignments; the
    fallback select has no [batch_strains]. *)
Module BatchJoin.
Record t : Type := mk {
  row : BatchRow.t;
  rooms : option RoomRow.t;
  strains : option StrainRow.t;
  batch_strains : option (list Assignment.t)
}.
End BatchJoin.

(** A batch of the page state: the row and the fields derived at load
    time.  The flip date, only displayed, is left out. *)
Module Batch.
Record t : Type := mk {
  id : string;
  room_id : option string;
  strain_id : option string;
  batch_code : option string;
  start_date : Z;
  expected_harvest : option Z;
  status : Status;
  room_name : option string;
  strain_name : option string;
  lights_assigned : option Z;
  strain_percentage : option Js.number;
  batch_strains : option (list Assignment.t)
}.

Definition with_status (s : Status) (b : t) : t :=
  mk (id b) (room_id b) (strain_id b) (batch_code b) (start_date b)
     (expected_harvest b) s (room_name b) (strain_name b)
     (lights_assigned b) (strain_percentage b) (batch_strains b).
End Batch.

(** The fields of the add-batch form; an empty text is [""] or [None]. *)
Module NewBatch.
Record t : Type := mk {
  room_id : string;
  batch_code : string;
  start_date : option Z;
  expected_harvest : option Z;
  status : Status
}.

Definition blank : t := mk "" "" None None planned.
End NewBatch.

Module HarvestData.
Record t : Type := mk {
  strain_id : string;
  strain_name : string;
  bigs_lbs : Js.number;
  smalls_lbs : Js.number;
  micros_lbs : Js.number;
  bigs_price_per_lb : Js.number;
  smalls_price_per_lb : Js.number;
  micros_price_per_lb : Js.number
}.
End HarvestData.

Module HarvestSummary.
Record t : Type := mk {
  total_harvest_lbs : Js.number;
  yield_per_light : Js.quotient;
  total_revenue : Js.number;
  revenue_per_light : Js.quotient;
  cost_to_grow : Js.number;
  profit_loss : Js.number;
  cost_per_lb : Js.quotient;
  net_income_per_lb : Js.quotient;
  net_income_sales_ratio : Js.quotient;
  harvest_data : list HarvestData.t
}.
End HarvestSummary.

(** The state variables of the component.  The visibility flags of the
    add-batch dialog, [loading], [editingId] and [activeFilter] drive
    rendering only and are left out. *)
Record Ui : Type := mkUi {
  batches : list Batch.t;
  rooms : list RoomRow.t;
  strains : list StrainRow.t;
  newBatch : NewBatch.t;
  batchStrains : list BatchStrain.t;
  selectedStrain : string;
  lightsForStrain : option Z;
  percentageForStrain : option Js.number;
  showHarvestModal : bool;
  selectedBatchForHarvest : option Batch.t;
  harvestData : list HarvestData.t;
  harvestSummary : option HarvestSummary.t;
  harvestDataSaved : bool;
  viewingExistingHarvest : bool
}.

Definition initial : Ui :=
  mkUi [] [] [] NewBatch.blank [] "" None None false None [] None false false.

Definition setBatches (v : list Batch.t) (u : Ui) : Ui :=
  mkUi v (rooms u) (strains u) (newBatch u) (batchStrains u)
       (selectedStrain u) (lightsForStrain u) (percentageForStrain u)
       (showHarvestModal u) (selectedBatchForHarvest u) (harvestData u)
       (harvestSummary u) (harvestDataSaved u) (viewingExistingHarvest u).

Definition setNewBatch (v : NewBatch.t) (u : Ui) : Ui :=
  mkUi (batches u) (rooms u) (strains u) v (batchStrains u)
       (selectedStrain u) (lightsForStrain u) (percentageForStrain u)
       (showHarvestModal u) (selectedBatchForHarvest u) (harvestData u)
       (harvestSummary u) (harvestDataSaved u) (viewingExistingHarvest u).

Definition setBatchStrains (v : list BatchStrain.t) (u : Ui) : Ui :=
  mkUi (batches u) (rooms u) (strains u) (newBatch u) v
       (selectedStrain u) (lightsForStrain u) (percentageForStrain u)
       (showHarvestModal u) (selectedBatchForHarvest u) (harvestData u)
       (harvestSummary u) (harvestDataSaved u) (viewingExistingHarvest u).

Definition setSelectedStrain (v : string) (u : Ui) : Ui :=
  mkUi (batches u) (rooms u) (strains u) (newBatch u) (batchStrains u)
       v (lightsForStrain u) (percentageForStrain u)
       (showHarvestModal u) (selectedBatchForHarvest u) (harvestData u)
       (harvestSummary u) (harvestDataSaved u) (viewingExistingHarvest u).

Definition setLightsForStrain (v : option Z) (u : Ui) : Ui :=
  mkUi (batches u) (rooms u) (strains u) (newBatch u) (batchStrains u)
       (selectedStrain u) v (percentageForStrain u)
       (showHarvestModal u) (selectedBatchForHarvest u) (harvestData u)
       (harvestSummary u) (harvestDataSaved u) (viewingExistingHarvest u).

Definition setPercentageForStrain (v : option Js.number) (u : Ui) : Ui :=
  mkUi (batches u) (rooms u) (strains u) (newBatch u) (batchStrains u)
       (selectedStrain u) (lightsForStrain u) v
       (showHarvestModal u) (selectedBatchForHarvest u) (harvestData u)
       (harvestSummary u) (harvestDataSaved u) (viewingExistingHarvest u).

Definition setShowHarvestModal (v : bool) (u : Ui) : Ui :=
  mkUi (batches u) (rooms u) (strains u) (newBatch u) (batchStrains u)
       (selectedStrain u) (lightsForStrain u) (percentageForStrain u)
       v (selectedBatchForHarvest u) (harvestData u)
       (harvestSummary u) (harvestDataSaved u) (viewingExistingHarvest u).

Definition setSelectedBatchForHarvest (v : option Batch.t) (u : Ui) : Ui :=
  mkUi (batches u) (rooms u) (strains u) (newBatch u) (batchStrains u)
       (selectedStrain u) (lightsForStrain u) (percentageForStrain u)
       (showHarvestModal u) v (harvestData u)
       (harvestSummary u) (harvestDataSaved u) (viewingExistingHarvest u).

Definition setHarvestData (v : list HarvestData.t) (u : Ui) : Ui :=
  mkUi (batches u) (rooms u) (strains u) (newBatch u) (batchStrains u)
       (selectedStrain u) (lightsForStrain u) (percentageForStrain u)
       (showHarvestModal u) (selectedBatchForHarvest u) v
       (harvestSummary u) (harvestDataSaved u) (viewingExistingHarvest u).

Definition setHarvestSummary (v : option HarvestSummary.t) (u : Ui) : Ui :=
  mkUi (batches u) (rooms u) (strains u) (newBatch u) (batchStrains u)
       (selectedStrain u) (lightsForStrain u) (percentageForStrain u)
       (showHarvestModal u) (selectedBatchForHarvest u) (harvestData u)
       v (harvestDataSaved u) (viewingExistingHarvest u).

Definition setHarvestDataSaved (v : bool) (u : Ui) : Ui :=
  mkUi (batches u) (rooms u) (strains u) (newBatch u) (batchStrains u)
       (selectedStrain u) (lightsForStrain u) (percentageForStrain u)
       (showHarvestModal u) (selectedBatchForHarvest u) (harvestData u)
       (harvestSummary u) v (viewingExistingHarvest u).

Definition setViewingExistingHarvest (v : bool) (u : Ui) : Ui :=
  mkUi (batches u) (rooms u) (strains u) (newBatch u) (batchStrains u)
       (selectedStrain u) (lightsForStrain u) (percentageForStrain u)
       (showHarvestModal u) (selectedBatchForHarvest u) (harvestData u)
       (harvestSummary u) (harvestDataSaved u) v.

Definition W : Type := World Ui.
Definition Act (A : Type) : Type := Eff.M W A.

Definition set (f : Ui -> Ui) : Act unit := Eff.modify (set_ui f).
Definition state : Act Ui := fun w => (ui w, w).
Definition now : Act Js.Clock := fun w => (clock w, w).

(** *** loadBatches *)

Definition strain_name_of (d : Db) (strainId : string) : option string :=
  option_map StrainRow.name
    (List.find (fun s => String.eqb (StrainRow.id s) strainId) (Store.strains d)).

Definition join_room (d : Db) (b : BatchRow.t) : option RoomRow.t :=
  match BatchRow.room_id b with
  | Some r => List.find (fun x => String.eqb (RoomRow.id x) r) (Store.rooms d)
  | None => None
  end.

Definition join_strain (d : Db) (b : BatchRow.t) : option StrainRow.t :=
  match BatchRow.strain_id b with
  | Some s => List.find (fun x => String.eqb (StrainRow.id x) s) (Store.strains d)
  | None => None
  end.

Definition join_assignments (d : Db) (b : BatchRow.t) : list Assignment.t :=
  map (fun r => Assignment.mk (BatchStrainRow.strain_id r)
                              (BatchStrainRow.lights_assigned r)
                              (BatchStrainRow.percentage r)
                              (strain_name_of d (BatchStrainRow.strain_id r))
                              None)
      (filter (fun r => String.eqb (BatchStrainRow.batch_id r) (BatchRow.id b))
              (Store.batch_strains d)).

(** The select with [rooms(name, lights)], [strains(name)] and
    [batch_strains(..., strains(name))] embedded.  The [order] clauses
    are not modelled: rows come in table order. *)
Definition select_batches_full (d : Db) : list BatchJoin.t :=
  map (fun b => BatchJoin.mk b (join_room d b) (join_strain d b)
                             (Some (join_assignments d b)))
      (Store.batches d).

(** The fallback select, without [batch_strains]. *)
Definition select_batches_basic (d : Db) : list BatchJoin.t :=
  map (fun b => BatchJoin.mk b (join_room d b) (join_strain d b) None)
      (Store.batches d).

Definition truthy_name (n : option string) : bool :=
  match n with
  | Some s => negb (String.eqb s "")
  | None => false
  end.

(** The per-batch callback of [data.map] in [loadBatches]. *)
Definition process_batch (j : BatchJoin.t) : Batch.t :=
  let b := BatchJoin.row j in
  let derived :=
    match BatchJoin.batch_strains j with
    | Some (a :: rest) =>
        let l := a :: rest in
        (Js.reduce_Z (fun x => Js.or_Z (Some (Assignment.lights_assigned x)) 0) l,
         Js.reduce_num (fun x => Js.or_num (Assignment.percentage x) (Js.int 0)) l,
         flat_map (fun x => match Assignment.strains_name x with
                            | Some n => if String.eqb n "" then [] else [n]
                            | None => []
                            end) l)
    | _ =>
        (Js.or_Z (match BatchJoin.rooms j with
                  | Some r => RoomRow.lights r
                  | None => None
                  end) 0,
         Js.int 100,
         [Js.or_string (option_map StrainRow.name (BatchJoin.strains j)) ""])
    end in
  let '(totalLights, totalPercentage, strainNames) := derived in
  Batch.mk (BatchRow.id b) (BatchRow.room_id b) (BatchRow.strain_id b)
           (BatchRow.batch_code b) (BatchRow.start_date b)
           (BatchRow.expected_harvest b) (BatchRow.status b)
           (option_map RoomRow.name (BatchJoin.rooms j))
           (Some (String.concat ", " strainNames))
           (Some totalLights) (Some totalPercentage)
           (BatchJoin.batch_strains j).

(** The two reads of [loadBatches]. *)
Record LoadCalls : Type := mkLoadCalls {
  load_full : outcome;
  load_basic : outcome
}.

Definition loadBatches (o : LoadCalls) : Act unit :=
  r <- query (load_full o) select_batches_full ;;
  match r with
  | Data data => set (setBatches (map process_batch data))
  | Error =>
      r' <- query (load_basic o) select_batches_basic ;;
      match r' with
      | Data data => set (setBatches (map process_batch data))
      | Error => Eff.ret tt
      end
  end.

(** *** generateBatchCode *)

Definition generateBatchCode (o : outcome) (roomName roomId : string)
  : Act string :=
  date <- now ;;
  let year := Js.String_of_Z (Js.getFullYear date) in
  let roomNumber :=
    match Js.match_digits roomName with
    | Some digits => digits
    | None => "1"
    end in
  let roomCode := "R" ++ roomNumber in
  r <- query o (select_batch_codes roomId (roomCode ++ "-" ++ year ++ "-")) ;;
  match r with
  | Error => Eff.ret (roomCode ++ "-" ++ year ++ "-01")
  | Data existingBatches =>
      let batchCount := (List.length existingBatches + 1)%nat in
      let batchNumber := Js.padStart0 2 (Js.String_of_nat batchCount) in
      Eff.ret (roomCode ++ "-" ++ year ++ "-" ++ batchNumber)
  end.

(** *** The strain list of the add-batch form *)

Definition usedLights (l : list BatchStrain.t) : Z :=
  Js.reduce_Z BatchStrain.lights_assigned l.

Definition totalPercentage (l : list BatchStrain.t) : Js.number :=
  Js.reduce_num BatchStrain.percentage l.

Definition find_room (u : Ui) (roomId : string) : option RoomRow.t :=
  Js.find (fun r => String.eqb (RoomRow.id r) roomId) (rooms u).

(** The first guard of [handleAddStrainToBatch] after the empty-field
    test: with a room chosen whose capacity is neither null nor zero,
    no light may be left. *)
Definition no_lights_left (u : Ui) : bool :=
  if String.eqb (NewBatch.room_id (newBatch u)) "" then false
  else
    match find_room u (NewBatch.room_id (newBatch u)) with
    | Some room =>
        match RoomRow.lights room with
        | Some lights =>
            if (lights =? 0)%Z then false
            else (lights - usedLights (batchStrains u) <=? 0)%Z
        | None => false
        end
    | None => false
    end.

Definition handleAddStrainToBatch : Act unit :=
  u <- state ;;
  match lightsForStrain u, percentageForStrain u with
  | Some lights, Some percentage =>
      if String.eqb (selectedStrain u) "" then
        alert "Please fill in all strain details"
      else if no_lights_left u then
        alert "No lights available. All lights have been assigned to strains."
      else
        match Js.find (fun s => String.eqb (StrainRow.id s) (selectedStrain u))
                      (strains u) with
        | None => Eff.ret tt
        | Some strain =>
            if Js.some (fun s => String.eqb (BatchStrain.strain_id s)
                                            (selectedStrain u))
                       (batchStrains u)
            then alert "This strain is already added to the batch"
            else
              let newStrain :=
                BatchStrain.mk (selectedStrain u) (StrainRow.name strain)
                               lights percentage in
              set (setBatchStrains (batchStrains u ++ [newStrain])) ;;
              set (setSelectedStrain "") ;;
              set (setLightsForStrain None) ;;
              set (setPercentageForStrain None)
        end
  | _, _ => alert "Please fill in all strain details"
  end.

Definition removeStrainFromBatch (index : nat) : Act unit :=
  u <- state ;;
  set (setBatchStrains
         (Js.filter_at (fun i => negb (Nat.eqb i index)) 0 (batchStrains u))).

Definition validateBatchStrains : Act bool :=
  u <- state ;;
  match batchStrains u with
  | [] =>
      alert "Please add at least one strain to the batch" ;;
      Eff.ret false
  | _ :: _ =>
      match find_room u (NewBatch.room_id (newBatch u)) with
      | Some room =>
          let totalLights := usedLights (batchStrains u) in
          if (totalLights >? Js.or_Z (RoomRow.lights room) 0)%Z then
            alert ("Total lights assigned (" ++ Js.String_of_Z totalLights
                   ++ ") cannot exceed room capacity ("
                   ++ Js.show_nullable (RoomRow.lights room) ++ ")") ;;
            Eff.ret false
          else if Js.gtb (totalPercentage (batchStrains u)) (Js.lit 1001 1) then
            alert "Total percentage cannot exceed 100%" ;;
            Eff.ret false
          else Eff.ret true
      | None => Eff.ret true
      end
  end.

(** *** handleAddBatch *)

(** The calls of [handleAddBatch]: the batch insert is refused or
    answered with the key the store gave the new row. *)
Record AddCalls : Type := mkAddCalls {
  add_codes : outcome;
  add_batch : option string;
  add_strains : outcome;
  add_reload : LoadCalls
}.

Definition strainAssignments (batchId : string) (l : list BatchStrain.t)
  : list BatchStrainRow.t :=
  map (fun strain =>
         BatchStrainRow.mk batchId (BatchStrain.strain_id strain)
                           (BatchStrain.lights_assigned strain)
                           (BatchStrain.percentage strain)) l.

Definition handleAddBatch (o : AddCalls) : Act unit :=
  u <- state ;;
  let form := newBatch u in
  match NewBatch.start_date form with
  | None => alert "Please fill in required fields"
  | Some start_date =>
      if String.eqb (NewBatch.room_id form) "" then
        alert "Please fill in required fields"
      else
        valid <- validateBatchStrains ;;
        if negb valid then Eff.ret tt
        else
          batchCode <-
            (if negb (String.eqb (NewBatch.batch_code form) "") then
               Eff.ret (NewBatch.batch_code form)
             else
               match find_room u (NewBatch.room_id form) with
               | Some room =>
                   generateBatchCode (add_codes o) (RoomRow.name room)
                                     (RoomRow.id room)
               | None => Eff.ret ""
               end) ;;
          match batchStrains u with
          | [] => alert "Error adding batch. Please try again."
          | first :: _ =>
              match add_batch o with
              | None => alert "Error adding batch. Please try again."
              | Some key =>
                  let row :=
                    BatchRow.mk key (Some (NewBatch.room_id form))
                                (Some (BatchStrain.strain_id first))
                                (Some batchCode) start_date
                                (NewBatch.expected_harvest form)
                                (NewBatch.status form) in
                  command_ Accepted (insert_batch row) ;;
                  command_ (add_strains o)
                    (insert_batch_strains
                       (strainAssignments key (batchStrains u))) ;;
                  loadBatches (add_reload o) ;;
                  set (setNewBatch NewBatch.blank) ;;
                  set (setBatchStrains [])
              end
          end
  end.

(** *** Harvest recording *)

Definition blank_harvest (strainId strainName : string) : HarvestData.t :=
  HarvestData.mk strainId strainName (Js.int 0) (Js.int 0) (Js.int 0)
                 (Js.int 0) (Js.int 0) (Js.int 0).

Definition initialData (batch : Batch.t) : list HarvestData.t :=
  match Batch.batch_strains batch with
  | Some (a :: rest) =>
      map (fun assignment =>
             let strainName :=
               Js.or_string (Assignment.strains_name assignment)
                 (Js.or_string (Assignment.strain_name assignment)
                               "Unknown Strain") in
             blank_harvest (Assignment.strain_id assignment) strainName)
          (a :: rest)
  | _ =>
      if truthy_name (Batch.strain_name batch) then
        [blank_harvest (Js.or_string (Batch.strain_id batch) "")
                       (Js.or_string (Batch.strain_name batch) "")]
      else []
  end.

Definition initializeHarvestData (batch : Batch.t) : Act unit :=
  set (setHarvestData (initialData batch)) ;;
  set (setHarvestSummary None) ;;
  set (setHarvestDataSaved false) ;;
  set (setViewingExistingHarvest false).

Definition find_batch (u : Ui) (batchId : string) : option Batch.t :=
  Js.find (fun b => String.eqb (Batch.id b) batchId) (batches u).

(** The calls of [handleUpdateBatchStatus]. *)
Record UpdateCalls : Type := mkUpdateCalls {
  upd_status : outcome;
  upd_reload : LoadCalls
}.

Definition update_status_directly (o : UpdateCalls) (batchId : string)
  (newStatus : Status) : Act unit :=
  r <- command_ (upd_status o) (update_batch_status batchId newStatus) ;;
  match r with
  | Error => alert "Error updating batch status. Please try again."
  | Data _ => loadBatches (upd_reload o)
  end.

Definition handleUpdateBatchStatus (o : UpdateCalls) (batchId : string)
  (newStatus : Status) : Act unit :=
  u <- state ;;
  match newStatus, find_batch u batchId with
  | harvested, Some batch =>
      set (setSelectedBatchForHarvest (Some batch)) ;;
      initializeHarvestData batch ;;
      set (setShowHarvestModal true)
  | _, _ => update_status_directly o batchId newStatus
  end.

(** [Math.ceil((today.getTime() - start.getTime()) / (1000*60*60*24))]. *)
Definition daysActive (today : Js.Clock) (startDate : Z) : Z :=
  Qceiling (inject_Z (Js.getTime today - startDate * Js.ms_per_day)
            / inject_Z Js.ms_per_day).

(** [0.15 * 1 * 18]. *)
Definition electricityCostPerLightPerDay : Js.number :=
  Js.mul (Js.mul (Js.lit 15 2) (Js.int 1)) (Js.int 18).

Definition calculateCostToGrow (o : outcome) (batchId roomId : string)
  (startDate : Z) : Act Js.number :=
  u <- state ;;
  today <- now ;;
  let days := daysActive today startDate in
  let totalLights :=
    Js.or_Z (match find_room u roomId with
             | Some room => RoomRow.lights room
             | None => None
             end) 0 in
  r <- query o (select_cost_entries batchId roomId startDate
                                    (Js.iso_day today)) ;;
  match r with
  | Error => Eff.ret (Js.int 0)
  | Data costEntries =>
      let totalCosts :=
        Js.or_num (Js.reduce_num CostEntryRow.amount costEntries) (Js.int 0) in
      let totalElectricityCost :=
        Js.mul (Js.mul (Js.int totalLights) electricityCostPerLightPerDay)
               (Js.int days) in
      Eff.ret (Js.add totalCosts totalElectricityCost)
  end.

Definition totalHarvest (l : list HarvestData.t) : Js.number :=
  fold_left (fun total strain =>
               Js.add (Js.add (Js.add total (HarvestData.bigs_lbs strain))
                              (HarvestData.smalls_lbs strain))
                      (HarvestData.micros_lbs strain)) l (Js.int 0).

Definition totalRevenue (l : list HarvestData.t) : Js.number :=
  fold_left (fun total strain =>
               Js.add
                 (Js.add
                    (Js.add total
                       (Js.mul (HarvestData.bigs_lbs strain)
                               (HarvestData.bigs_price_per_lb strain)))
                    (Js.mul (HarvestData.smalls_lbs strain)
                            (HarvestData.smalls_price_per_lb strain)))
                 (Js.mul (HarvestData.micros_lbs strain)
                         (HarvestData.micros_price_per_lb strain)))
            l (Js.int 0).

(** [selectedBatchForHarvest?.lights_assigned || 1]. *)
Definition totalLights (selected : option Batch.t) : Z :=
  Js.or_Z (match selected with
           | Some b => Batch.lights_assigned b
           | None => None
           end) 1.

Definition calculateHarvestSummary (o : outcome) : Act HarvestSummary.t :=
  u <- state ;;
  let harvest := totalHarvest (harvestData u) in
  let revenue := totalRevenue (harvestData u) in
  let lights := totalLights (selectedBatchForHarvest u) in
  let yieldPerLight := Js.div_count harvest lights in
  let revenuePerLight := Js.div_count revenue lights in
  costToGrow <-
    match selectedBatchForHarvest u with
    | Some b =>
        calculateCostToGrow o (Batch.id b) (Js.or_string (Batch.room_id b) "")
                            (Batch.start_date b)
    | None => Eff.ret (Js.int 0)
    end ;;
  let profitLoss := Js.sub revenue costToGrow in
  let costPerLb :=
    if Js.gtb harvest (Js.int 0) then Js.div costToGrow harvest
    else Js.Finite (Js.int 0) in
  let netIncomePerLb :=
    if Js.gtb harvest (Js.int 0) then Js.div profitLoss harvest
    else Js.Finite (Js.int 0) in
  let netIncomeSalesRatio :=
    if Js.gtb revenue (Js.int 0)
    then Js.scale (Js.int 100) (Js.div profitLoss revenue)
    else Js.Finite (Js.int 0) in
  let summary :=
    HarvestSummary.mk harvest yieldPerLight revenue revenuePerLight
                      costToGrow profitLoss costPerLb netIncomePerLb
                      netIncomeSalesRatio (harvestData u) in
  set (setHarvestSummary (Some summary)) ;;
  Eff.ret summary.

(** The calls of [handleSaveHarvestData], in the order they are made. *)
Record SaveCalls : Type := mkSaveCalls {
  save_costs : outcome;
  save_fetch : outcome;
  save_delete_details : outcome;
  save_delete_summaries : outcome;
  save_insert_summary : outcome;
  save_insert_details : outcome;
  save_update_batch : outcome
}.

Definition harvestDetails (summaryId : nat) (l : list HarvestData.t)
  : list HarvestDetailRow.t :=
  map (fun strain =>
         HarvestDetailRow.mk summaryId (HarvestData.strain_id strain)
                             (HarvestData.strain_name strain)
                             (HarvestData.bigs_lbs strain)
                             (HarvestData.smalls_lbs strain)
                             (HarvestData.micros_lbs strain)) l.

Definition mark_harvested (batchId : string) (u : Ui) : Ui :=
  setBatches (map (fun batch => if String.eqb (Batch.id batch) batchId
                                then Batch.with_status harvested batch
                                else batch)
                  (batches u)) u.

Definition handleSaveHarvestData (o : SaveCalls) : Act unit :=
  u <- state ;;
  match selectedBatchForHarvest u with
  | None => Eff.ret tt
  | Some selected =>
      summary <- calculateHarvestSummary (save_costs o) ;;
      existing <- query (save_fetch o) (select_summary_ids (Batch.id selected)) ;;
      match existing with
      | Data (k :: ks) =>
          command_ (save_delete_details o) (delete_details_in (k :: ks)) ;;
          Eff.ret tt
      | _ => Eff.ret tt
      end ;;
      command_ (save_delete_summaries o)
               (delete_summaries_of (Batch.id selected)) ;;
      today <- now ;;
      inserted <-
        command (save_insert_summary o)
          (insert_summary (Batch.id selected)
             (HarvestSummary.total_harvest_lbs summary)
             (HarvestSummary.yield_per_light summary)
             (Js.or_Z (Batch.lights_assigned selected) 0)
             (Js.iso_day today)) ;;
      match inserted with
      | Error => alert "Error saving harvest summary. Please try again."
      | Data harvestSummaryData =>
          r <- command_ (save_insert_details o)
                 (insert_details
                    (harvestDetails (HarvestSummaryRow.id harvestSummaryData)
                                    (harvestData u))) ;;
          match r with
          | Error => alert "Error saving harvest details. Please try again."
          | Data _ =>
              r' <- command_ (save_update_batch o)
                      (update_batch_status (Batch.id selected) harvested) ;;
              match r' with
              | Error =>
                  alert "Error updating batch status. Please try again."
              | Data _ =>
                  set (mark_harvested (Batch.id selected)) ;;
                  set (setHarvestDataSaved true) ;;
                  set (mark_harvested (Batch.id selected))
              end
          end
      end
  end.

End Batches.

(** ** The facility page *)

Module Facility.
Import Store.
Local Open Scope eff_scope.

(** A batch as embedded in its room by [loadRooms]. *)
Module NestedBatch.
Record t : Type := mk {
  batch_code : option string;
  status : Status;
  start_date : Z;
  expected_harvest : option Z
}.
End NestedBatch.

Module RoomJoin.
Record t : Type := mk {
  row : RoomRow.t;
  batches : option (list NestedBatch.t)
}.
End RoomJoin.

(** A room of the page state, with the fields derived at load time. *)
Module Room.
Record t : Type := mk {
  id : string;
  name : string;
  lights : option Z;
  current_batch : option string;
  has_current_batch : option bool;
  batch_start_date : option Z;
  batch_end_date : option Z
}.
End Room.

(** The state variable [rooms]; the strain list and the add-room form
    take no part in deletion. *)
Record Ui : Type := mkUi {
  rooms : list Room.t
}.

Definition W : Type := World Ui.
Definition Act (A : Type) : Type := Eff.M W A.

Definition set (f : Ui -> Ui) : Act unit := Eff.modify (set_ui f).
Definition state : Act Ui := fun w => (ui w, w).

Definition batches_of (d : Db) (roomId : string) : list NestedBatch.t :=
  map (fun b => NestedBatch.mk (BatchRow.batch_code b) (BatchRow.status b)
                               (BatchRow.start_date b)
                               (BatchRow.expected_harvest b))
      (filter (fun b => opt_eqb (BatchRow.room_id b) roomId) (Store.batches d)).

(** The select of [loadRooms], with [batches(...)] embedded; the
    [order] clause is not modelled. *)
Definition select_rooms (d : Db) : list RoomJoin.t :=
  map (fun r => RoomJoin.mk r (Some (batches_of d (RoomRow.id r))))
      (Store.rooms d).

Definition is_active (batch : NestedBatch.t) : bool :=
  Status_eqb (NestedBatch.status batch) active.

(** The per-room callback of [data.map] in [loadRooms]. *)
Definition process_room (room : RoomJoin.t) : Room.t :=
  let activeBatch :=
    match RoomJoin.batches room with
    | Some l => Js.find is_active l
    | None => None
    end in
  Room.mk (RoomRow.id (RoomJoin.row room)) (RoomRow.name (RoomJoin.row room))
          (RoomRow.lights (RoomJoin.row room))
          (match activeBatch with
           | Some b => match NestedBatch.batch_code b with
                       | Some c => if String.eqb c "" then None else Some c
                       | None => None
                       end
           | None => None
           end)
          (Some (match activeBatch with Some _ => true | None => false end))
          (option_map NestedBatch.start_date activeBatch)
          (match activeBatch with
           | Some b => NestedBatch.expected_harvest b
           | None => None
           end).

Definition loadRooms (o : outcome) : Act unit :=
  r <- query o select_rooms ;;
  match r with
  | Error => Eff.ret tt
  | Data data => set (fun _ => mkUi (map process_room data))
  end.

(** The calls of [handleDeleteRoom]. *)
Record DeleteCalls : Type := mkDeleteCalls {
  del_room : outcome;
  del_reload : outcome
}.

Definition handleDeleteRoom (o : DeleteCalls) (id : string) : Act unit :=
  u <- state ;;
  match Js.find (fun r => String.eqb (Room.id r) id) (rooms u) with
  | Some room =>
      match Room.has_current_batch room with
      | Some true => Eff.ret tt
      | _ =>
          r <- command_ (del_room o) (delete_room id) ;;
          match r with
          | Error => alert "Error deleting room. Please try again."
          | Data _ => loadRooms (del_reload o)
          end
      end
  | None => Eff.ret tt
  end.

End Facility.

(** ** Notions the properties are stated with *)

Module Spec.
Import Store.

(** The sum of a list of numbers as a [reduce] from 0 adds it up: one
    term at a time, in list order, each addition rounded. *)
Definition running_sum (l : list Js.number) : Js.number :=
  fold_left Js.add l (Js.int 0).

(** The sum of a list of rationals, exactly. *)
Definition exact_sum (l : list Q) : Q := fold_right Qplus 0 l.

(** The weights of a harvest entry and its three revenues, in the order
    the totals take them. *)
Definition weights (s : Batches.HarvestData.t) : list Js.number :=
  [Batches.HarvestData.bigs_lbs s; Batches.HarvestData.smalls_lbs s;
   Batches.HarvestData.micros_lbs s].

Definition revenues (s : Batches.HarvestData.t) : list Js.number :=
  [Js.mul (Batches.HarvestData.bigs_lbs s)
          (Batches.HarvestData.bigs_price_per_lb s);
   Js.mul (Batches.HarvestData.smalls_lbs s)
          (Batches.HarvestData.smalls_price_per_lb s);
   Js.mul (Batches.HarvestData.micros_lbs s)
          (Batches.HarvestData.micros_price_per_lb s)].

(** The sum of a list of integers. *)
Definition Zsum (l : list Z) : Z := fold_right Z.add 0%Z l.

Definition not_digit (c : ascii) : bool := negb (Js.is_digit c).

(** [d] is the first run of digits of [s]: a non-empty block of digits,
    preceded by no digit and followed by none. *)
Definition FirstDigitRun (s d : string) : Prop :=
  exists pre post : string,
    s = pre ++ d ++ post
    /\ Js.all_chars not_digit pre = true
    /\ d <> ""
    /\ Js.all_chars Js.is_digit d = true
    /\ match post with
       | EmptyString => True
       | String c _ => Js.is_digit c = false
       end.

Definition NoDigit (s : string) : Prop := Js.all_chars not_digit s = true.

(** The strain identifiers of a strain list are pairwise distinct. *)
Definition distinct_strains (l : list Batches.BatchStrain.t) : Prop :=
  NoDup (map Batches.BatchStrain.strain_id l).

(** One user action on the batches page, seen from the strain list:
    adding a strain, removing one, submitting the form, or anything
    else (field edits, loads, status changes, harvest recording), none
    of which writes the list. *)
Inductive form_step : Batches.W -> Batches.W -> Prop :=
  | step_add : forall w,
      form_step w (Eff.exec Batches.handleAddStrainToBatch w)
  | step_remove : forall w index,
      form_step w (Eff.exec (Batches.removeStrainFromBatch index) w)
  | step_submit : forall w o,
      form_step w (Eff.exec (Batches.handleAddBatch o) w)
  | step_other : forall w w',
      Batches.batchStrains (ui w') = Batches.batchStrains (ui w) ->
      form_step w w'.

(** The worlds reached from one whose strain list is empty. *)
Inductive reachable : Batches.W -> Prop :=
  | reach_init : forall w, Batches.batchStrains (ui w) = [] -> reachable w
  | reach_step : forall w w', reachable w -> form_step w w' -> reachable w'.

(** The serial key of [harvest_summaries] is ahead of every key in use. *)
Definition keys_below_next (d : Db) : Prop :=
  (forall s, In s (harvest_summaries d) ->
             (HarvestSummaryRow.id s < next_summary_id d)%nat)
  /\ (forall r, In r (harvest_details d) ->
                (HarvestDetailRow.harvest_summary_id r < next_summary_id d)%nat).

(** The harvest summaries of a batch, and the detail rows under them. *)
Definition summaries_of (batchId : string) (d : Db) : list HarvestSummaryRow.t :=
  filter (fun s => String.eqb (HarvestSummaryRow.batch_id s) batchId)
         (harvest_summaries d).

Definition details_of (batchId : string) (d : Db) : list HarvestDetailRow.t :=
  filter (fun r => mem_nat (HarvestDetailRow.harvest_summary_id r)
                           (select_summary_ids batchId d))
         (harvest_details d).

(** The calls of a save that write harvest rows are all accepted. *)
Definition harvest_rows_persist (o : Batches.SaveCalls) : Prop :=
  Batches.save_fetch o = Accepted
  /\ Batches.save_delete_details o = Accepted
  /\ Batches.save_delete_summaries o = Accepted
  /\ Batches.save_insert_summary o = Accepted
  /\ Batches.save_insert_details o = Accepted.

(** A room has a batch with status [active]. *)
Definition has_active_batch (roomId : string) (d : Db) : Prop :=
  exists b, In b (Store.batches d)
            /\ BatchRow.room_id b = Some roomId
            /\ BatchRow.status b = active.

(** The cost figure that enters the summary. *)
Definition costToGrow_of (o : outcome) (w : Batches.W) : Js.number :=
  match Batches.selectedBatchForHarvest (ui w) with
  | Some b =>
      Eff.eval (Batches.calculateCostToGrow o (Batches.Batch.id b)
                  (Js.or_string (Batches.Batch.room_id b) "")
                  (Batches.Batch.start_date b)) w
  | None => Js.int 0
  end.

(** The summary [calculateHarvestSummary] builds, as a function of the
    world it runs in. *)
Definition summary_of (o : outcome) (w : Batches.W) : Batches.HarvestSummary.t :=
  let u := ui w in
  let harvest := Batches.totalHarvest (Batches.harvestData u) in
  let revenue := Batches.totalRevenue (Batches.harvestData u) in
  let lights := Batches.totalLights (Batches.selectedBatchForHarvest u) in
  let cost := costToGrow_of o w in
  Batches.HarvestSummary.mk harvest (Js.div_count harvest lights)
    revenue (Js.div_count revenue lights) cost (Js.sub revenue cost)
    (if Js.gtb harvest (Js.int 0) then Js.div cost harvest
     else Js.Finite (Js.int 0))
    (if Js.gtb harvest (Js.int 0) then Js.div (Js.sub revenue cost) harvest
     else Js.Finite (Js.int 0))
    (if Js.gtb revenue (Js.int 0)
     then Js.scale (Js.int 100) (Js.div (Js.sub revenue cost) revenue)
     else Js.Finite (Js.int 0))
    (Batches.harvestData u).

(** The store after the cleanup steps of a save of batch [batchId]. *)
Definition cleanup (o : Batches.SaveCalls) (batchId : string) (d : Db) : Db :=
  let d1 :=
    match Batches.save_fetch o, select_summary_ids batchId d with
    | Accepted, k :: ks =>
        match Batches.save_delete_details o with
        | Accepted => delete_details_in (k :: ks) d
        | Refused => d
        end
    | _, _ => d
    end in
  match Batches.save_delete_summaries o with
  | Accepted => delete_summaries_of batchId d1
  | Refused => d1
  end.

(** The store after [handleSaveHarvestData] ran for the batch [b]. *)
Definition saved (o : Batches.SaveCalls) (w : Batches.W) (b : Batches.Batch.t)
  : Db :=
  let d2 := cleanup o (Batches.Batch.id b) (db w) in
  let summary := summary_of (Batches.save_costs o) w in
  match Batches.save_insert_summary o with
  | Refused => d2
  | Accepted =>
      let (row, d3) :=
        insert_summary (Batches.Batch.id b)
          (Batches.HarvestSummary.total_harvest_lbs summary)
          (Batches.HarvestSummary.yield_per_light summary)
          (Js.or_Z (Batches.Batch.lights_assigned b) 0)
          (Js.iso_day (clock w)) d2 in
      match Batches.save_insert_details o with
      | Refused => d3
      | Accepted =>
          let d4 :=
            insert_details
              (Batches.harvestDetails (HarvestSummaryRow.id row)
                                      (Batches.harvestData (ui w))) d3 in
          match Batches.save_update_batch o with
          | Refused => d4
          | Accepted => update_batch_status (Batches.Batch.id b) harvested d4
          end
      end
  end.

End Spec.

Ltac run :=
  unfold Batches.state, Batches.set, Batches.now, Store.alert, Store.query,
    Store.command_, Store.command;
  unfold Eff.exec, Eff.eval, Eff.bind, Eff.ret, Eff.modify.

(** ** Sample data *)

Module Examples.
Import Store.

Definition clock0 : Js.Clock := Js.mkClock 1762128000000 2026.

Definition room7 : RoomRow.t := RoomRow.mk "room7" "Flower Room 7" (Some 10%Z).
Definition veg : RoomRow.t := RoomRow.mk "veg" "Veg Room" None.
Definition kush : StrainRow.t := StrainRow.mk "s1" "Kush".
Definition haze : StrainRow.t := StrainRow.mk "s2" "Haze".

(** The add-batch form with a room chosen, a strain list and the three
    strain fields. *)
Definition form (roomId : string) (l : list Batches.BatchStrain.t)
  (selected : string) (lights : option Z) (pct : option Js.number)
  : Batches.Ui :=
  Batches.mkUi [] [room7; veg] [kush; haze]
    (Batches.NewBatch.mk roomId "" (Some 20000%Z) None planned)
    l selected lights pct false None [] None false false.

Definition world (u : Batches.Ui) (d : Db) : Batches.W :=
  mkWorld u d clock0 [].

(** A list naming the same strain twice, in a room of 10 lights. *)
Definition w_repeat : Batches.W :=
  world (form "room7"
           [Batches.BatchStrain.mk "s1" "Kush" 1 (Js.int 10);
            Batches.BatchStrain.mk "s1" "Kush" 1 (Js.int 10)] "" None None)
        Store.empty.

(** One strain on 5 lights in the room whose capacity is null. *)
Definition w_unknown : Batches.W :=
  world (form "veg" [Batches.BatchStrain.mk "s1" "Kush" 5 (Js.int 50)]
              "" None None)
        Store.empty.

(** An empty list with the strain fields filled, and the list after
    the strain is added. *)
Definition w_start : Batches.W :=
  world (form "room7" [] "s1" (Some 5%Z) (Some (Js.int 50))) Store.empty.

Definition w_one : Batches.W := Eff.exec Batches.handleAddStrainToBatch w_start.

Definition all_loaded : Batches.LoadCalls :=
  Batches.mkLoadCalls Accepted Accepted.

Definition add_ok : Batches.AddCalls :=
  Batches.mkAddCalls Accepted (Some "b1") Accepted all_loaded.

(** Two batches of room 7 already carry a code of the year. *)
Definition db_two_codes : Db :=
  set_batches
    [BatchRow.mk "b1" (Some "room7") (Some "s1") (Some "R7-2026-01") 20000
                 None active;
     BatchRow.mk "b2" (Some "room7") (Some "s2") (Some "R7-2026-02") 20100
                 None planned]
    Store.empty.

(** The form of [w_one] submitted, every call accepted: batch ["b1"]
    is stored and loaded. *)
Definition w_submitted : Batches.W :=
  Eff.exec (Batches.handleAddBatch add_ok) w_one.

Definition b1 : Batches.Batch.t :=
  Batches.Batch.mk "b1" (Some "room7") (Some "s1") (Some "R7-2026-01") 20000
    None planned None (Some "") (Some 5%Z) (Some (Js.int 50))
    (Some [Batches.Assignment.mk "s1" 5 (Js.int 50) None None]).

Definition update_ok : Batches.UpdateCalls :=
  Batches.mkUpdateCalls Accepted all_loaded.

(** [harvested] chosen for batch ["b1"]: the harvest dialog is open. *)
Definition w_dialog : Batches.W :=
  Eff.exec (Batches.handleUpdateBatchStatus update_ok "b1" harvested)
           w_submitted.

Definition save_ok : Batches.SaveCalls :=
  Batches.mkSaveCalls Accepted Accepted Accepted Accepted Accepted Accepted
                      Accepted.

Definition save_no_details : Batches.SaveCalls :=
  Batches.mkSaveCalls Accepted Accepted Accepted Accepted Accepted Refused
                      Accepted.

(** One harvest entry with weights 10, 5, 2 and prices 20, 10, 5, and
    no batch selected. *)
Definition w_harvest : Batches.W :=
  world (Batches.setHarvestData
           [Batches.HarvestData.mk "s1" "Kush" (Js.int 10) (Js.int 5) (Js.int 2)
                                   (Js.int 20) (Js.int 10) (Js.int 5)]
           (form "room7" [] "" None None))
        Store.empty.

(** A selected batch whose lights are zero and no harvest entry. *)
Definition w_no_lights : Batches.W :=
  world (Batches.setSelectedBatchForHarvest
           (Some (Batches.Batch.mk "b0" None None None 20000 None active
                    None None (Some 0%Z) None None))
           (form "room7" [] "" None None))
        Store.empty.

(** Cost entries: one of the batch, one of the room, one dated before
    the start, one of another room. *)
Definition db_costs : Db :=
  mkDb [] [] [] []
       [CostEntryRow.mk (Some "b1") None 20001 (Js.int 100);
        CostEntryRow.mk None (Some "room7") 20002 (Js.lit 505 1);
        CostEntryRow.mk (Some "b1") None 19999 (Js.int 7);
        CostEntryRow.mk None (Some "veg") 20001 (Js.int 9)]
       [] [] 0.

Definition w_costs : Batches.W :=
  world (form "room7" [] "" None None) db_costs.

(** A save whose delete of the earlier summaries is refused. *)
Definition save_no_cleanup : Batches.SaveCalls :=
  Batches.mkSaveCalls Accepted Accepted Accepted Refused Accepted Accepted
                      Accepted.

(** The facility page: room 7 holds an active batch, the veg room a
    harvested one. *)
Definition db_facility : Db :=
  mkDb [room7; veg] [kush; haze]
       [BatchRow.mk "b1" (Some "room7") (Some "s1") (Some "R7-2026-01") 20000
                    None active;
        BatchRow.mk "b2" (Some "veg") (Some "s2") (Some "R1-2026-01") 19000
                    None harvested]
       [] [] [] [] 0.

Definition w_facility : Facility.W :=
  mkWorld (Facility.mkUi []) db_facility clock0 [].

Definition delete_ok : Facility.DeleteCalls :=
  Facility.mkDeleteCalls Accepted Accepted.

(** Two harvest entries of a tenth of a pound in each grade, every
    grade at 3 a pound, and no batch selected. *)
Definition w_tenths : Batches.W :=
  world (Batches.setHarvestData
           [Batches.HarvestData.mk "s1" "Kush" (Js.lit 1 1) (Js.lit 1 1)
                                   (Js.lit 1 1) (Js.int 3) (Js.int 3) (Js.int 3);
            Batches.HarvestData.mk "s2" "Haze" (Js.lit 1 1) (Js.lit 1 1)
                                   (Js.lit 1 1) (Js.int 3) (Js.int 3) (Js.int 3)]
           (form "room7" [] "" None None))
        Store.empty.



End Examples.

(** ** The rest of the two pages *)

(** Values the remaining functions need. *)
Module JsMore.

(** What [new Date(dateString)] shows through [getMonth()],
    [getDate()] and [getFullYear()]. *)
Record DateParts : Type := mkDateParts {
  getMonth : nat;
  getDate : Z;
  getFullYear : Z
}.

(** [.maybeSingle()]: no row is a null, one row is that row, more rows
    are an error. *)
Definition maybeSingle {A : Type} (rows : list A)
  : Store.response (option A) :=
  match rows with
  | [] => Store.Data None
  | [row] => Store.Data (Some row)
  | _ :: _ :: _ => Store.Error
  end.

(** [.single()]: anything but exactly one row is an error. *)
Definition single {A : Type} (rows : list A) : Store.response A :=
  match rows with
  | [row] => Store.Data row
  | _ => Store.Error
  end.

End JsMore.

Module BatchesRest.
Import Store Batches.
Local Open Scope eff_scope.

(** The text of a status, as the filter buttons and the store spell it. *)
Definition status_text (s : Status) : string :=
  match s with
  | planned => "planned"
  | active => "active"
  | harvested => "harvested"
  | archived => "archived"
  end.

(** [getFilteredBatches], with the state variable [activeFilter], which
    [Ui] leaves out, passed in. *)
Definition getFilteredBatches (activeFilter : string) (u : Ui) : list Batch.t :=
  if String.eqb activeFilter "all" then batches u
  else filter (fun batch => String.eqb (status_text (Batch.status batch))
                                       activeFilter)
              (batches u).

(** [calculateDaysRemaining]. *)
Definition calculateDaysRemaining (expectedHarvest : option Z)
  : Act (option Z) :=
  match expectedHarvest with
  | None => Eff.ret None
  | Some harvestDate =>
      today <- now ;;
      let diffTime :=
        (harvestDate * Js.ms_per_day - Js.getTime today)%Z in
      Eff.ret (Some (Qceiling (inject_Z diffTime / inject_Z Js.ms_per_day)))
  end.

(** [getOrdinalSuffix], local to [formatDate]; [%] is the remainder
    that takes the sign of the dividend. *)
Definition getOrdinalSuffix (day : Z) : string :=
  if (day >? 3)%Z && (day <? 21)%Z then "th"
  else
    match Z.rem day 10 with
    | 1%Z => "st"
    | 2%Z => "nd"
    | 3%Z => "rd"
    | _ => "th"
    end.

Definition monthNames : list string :=
  ["Jan"; "Feb"; "Mar"; "Apr"; "May"; "Jun";
   "Jul"; "Aug"; "Sep"; "Oct"; "Nov"; "Dec"].

(** [formatDate]: [None] is the null or empty date text, [Some parts]
    what the parsed date shows.  An index outside [monthNames] prints
    as [undefined]. *)
Definition formatDate (dateString : option JsMore.DateParts) : string :=
  match dateString with
  | None => "—"
  | Some date =>
      let month :=
        match nth_error monthNames (JsMore.getMonth date) with
        | Some name => name
        | None => "undefined"
        end in
      let day := JsMore.getDate date in
      let year := JsMore.getFullYear date in
      month ++ " " ++ Js.String_of_Z day ++ getOrdinalSuffix day ++ " "
      ++ Js.String_of_Z year
  end.

(** The capacity the lights input works with: that of the chosen room,
    when a room is chosen, found, and its lights are neither null nor
    zero; otherwise the input is unbounded. *)
Definition bounded_capacity (u : Ui) : option Z :=
  if String.eqb (NewBatch.room_id (newBatch u)) "" then None
  else
    match find_room u (NewBatch.room_id (newBatch u)) with
    | Some room =>
        match RoomRow.lights room with
        | Some lights => if (lights =? 0)%Z then None else Some lights
        | None => None
        end
    | None => None
    end.

(** The [onChange] handler of the lights input of the add-batch form. *)
Definition lightsOnChange (inputValue : option Z) : Act unit :=
  u <- state ;;
  let lights := Js.or_Z inputValue 0 in
  match bounded_capacity u with
  | Some capacity =>
      let maxLights := (capacity - usedLights (batchStrains u))%Z in
      if (lights >? maxLights)%Z then
        set (setLightsForStrain (Some maxLights)) ;;
        set (setPercentageForStrain
               (Some (Js.toFixed1
                        (Js.mul (Js.quot (Js.int maxLights) (Js.int capacity))
                                (Js.int 100)))))
      else
        set (setLightsForStrain inputValue) ;;
        set (setPercentageForStrain
               (Some (Js.toFixed1
                        (Js.mul (Js.quot (Js.int lights) (Js.int capacity))
                                (Js.int 100)))))
  | None => set (setLightsForStrain inputValue)
  end.

(** [from("batches").delete().eq("id", batchId)].  What the schema does
    to the rows that refer to the batch is not modelled. *)
Definition delete_batch (batchId : string) (d : Db) : Db :=
  set_batches (filter (fun b => negb (String.eqb (BatchRow.id b) batchId))
                      (Store.batches d)) d.

(** The calls of [handleDeleteBatch]. *)
Record DeleteCalls : Type := mkDeleteCalls {
  del_batch : outcome;
  del_reload : LoadCalls
}.

(** [handleDeleteBatch]; [confirmed] is the answer to [confirm(...)]. *)
Definition handleDeleteBatch (confirmed : bool) (o : DeleteCalls)
  (batchId : string) : Act unit :=
  if confirmed then
    r <- command_ (del_batch o) (delete_batch batchId) ;;
    match r with
    | Error => alert "Error deleting batch. Please try again."
    | Data _ => loadBatches (del_reload o)
    end
  else Eff.ret tt.

(** The six numeric fields of a harvest entry. *)
Module HarvestField.
Inductive t : Type :=
  | bigs_lbs | smalls_lbs | micros_lbs
  | bigs_price_per_lb | smalls_price_per_lb | micros_price_per_lb.
End HarvestField.

(** [{ ...data, [field]: value }]. *)
Definition with_field (field : HarvestField.t) (value : Js.number)
  (data : HarvestData.t) : HarvestData.t :=
  let sid := HarvestData.strain_id data in
  let name := HarvestData.strain_name data in
  let b := HarvestData.bigs_lbs data in
  let s := HarvestData.smalls_lbs data in
  let m := HarvestData.micros_lbs data in
  let bp := HarvestData.bigs_price_per_lb data in
  let sp := HarvestData.smalls_price_per_lb data in
  let mp := HarvestData.micros_price_per_lb data in
  match field with
  | HarvestField.bigs_lbs => HarvestData.mk sid name value s m bp sp mp
  | HarvestField.smalls_lbs => HarvestData.mk sid name b value m bp sp mp
  | HarvestField.micros_lbs => HarvestData.mk sid name b s value bp sp mp
  | HarvestField.bigs_price_per_lb =>
      HarvestData.mk sid name b s m value sp mp
  | HarvestField.smalls_price_per_lb =>
      HarvestData.mk sid name b s m bp value mp
  | HarvestField.micros_price_per_lb =>
      HarvestData.mk sid name b s m bp sp value
  end.

Definition updateHarvestData (strainId : string) (field : HarvestField.t)
  (value : Js.number) : Act unit :=
  set (fun prev =>
         setHarvestData
           (map (fun data =>
                   if String.eqb (HarvestData.strain_id data) strainId
                   then with_field field value data else data)
                (harvestData prev)) prev).

(** [from("harvest_summaries").select(...).eq("batch_id", batchId)]. *)
Definition select_summaries (batchId : string) (d : Db)
  : list HarvestSummaryRow.t :=
  filter (fun s => String.eqb (HarvestSummaryRow.batch_id s) batchId)
         (harvest_summaries d).

(** [from("harvest_details").select("*").eq("harvest_summary_id", k)]. *)
Definition select_details (summaryId : nat) (d : Db)
  : list HarvestDetailRow.t :=
  filter (fun r => Nat.eqb (HarvestDetailRow.harvest_summary_id r) summaryId)
         (harvest_details d).

(** A read ending in [maybeSingle()] or [single()]: refused, or
    answered through the row count. *)
Definition query_rows {A B : Type} (o : outcome) (q : Db -> list A)
  (pick : list A -> response B) : Act (response B) :=
  fun w =>
    match o with
    | Accepted => (pick (q (db w)), w)
    | Refused => (Error, w)
    end.

(** The calls of [loadExistingHarvestData], in the order they are made. *)
Record ViewCalls : Type := mkViewCalls {
  view_check : outcome;
  view_summary : outcome;
  view_details : outcome;
  view_costs : outcome
}.

(** A detail row as a harvest entry: the prices are not stored. *)
Definition harvestDataFromDB (details : list HarvestDetailRow.t)
  : list HarvestData.t :=
  map (fun detail =>
         HarvestData.mk (HarvestDetailRow.strain_id detail)
                        (HarvestDetailRow.strain_name detail)
                        (Js.or_num (HarvestDetailRow.bigs_lbs detail) (Js.int 0))
                        (Js.or_num (HarvestDetailRow.smalls_lbs detail)
                                   (Js.int 0))
                        (Js.or_num (HarvestDetailRow.micros_lbs detail)
                                   (Js.int 0))
                        (Js.int 0) (Js.int 0) (Js.int 0)) details.

Definition loadExistingHarvestData (o : ViewCalls) (batch : Batch.t)
  : Act bool :=
  existing <- query_rows (view_check o) (select_summaries (Batch.id batch))
                         JsMore.maybeSingle ;;
  match existing with
  | Error => Eff.ret false
  | Data None => Eff.ret false
  | Data (Some _) =>
      loaded <- query_rows (view_summary o)
                           (select_summaries (Batch.id batch)) JsMore.single ;;
      match loaded with
      | Error => Eff.ret false
      | Data summaryData =>
          r <- query (view_details o)
                     (select_details (HarvestSummaryRow.id summaryData)) ;;
          match r with
          | Error => Eff.ret false
          | Data detailsData =>
              let fromDB := harvestDataFromDB detailsData in
              set (setHarvestData fromDB) ;;
              let total := HarvestSummaryRow.total_harvest_lbs summaryData in
              let yield := HarvestSummaryRow.yield_per_light summaryData in
              costToGrow <-
                calculateCostToGrow (view_costs o) (Batch.id batch)
                  (Js.or_string (Batch.room_id batch) "")
                  (Batch.start_date batch) ;;
              let revenue := Js.mul (totalHarvest fromDB) (Js.int 100) in
              let profitLoss := Js.sub revenue costToGrow in
              let costPerLb :=
                if Js.gtb total (Js.int 0) then Js.div costToGrow total
                else Js.Finite (Js.int 0) in
              let netIncomePerLb :=
                if Js.gtb total (Js.int 0) then Js.div profitLoss total
                else Js.Finite (Js.int 0) in
              let netIncomeSalesRatio :=
                if Js.gtb revenue (Js.int 0)
                then Js.scale (Js.int 100) (Js.div profitLoss revenue)
                else Js.Finite (Js.int 0) in
              let updatedSummary :=
                HarvestSummary.mk total yield revenue
                  (Js.scale (Js.int 100) yield) costToGrow profitLoss
                  costPerLb netIncomePerLb netIncomeSalesRatio fromDB in
              set (setHarvestSummary (Some updatedSummary)) ;;
              set (setHarvestDataSaved true) ;;
              set (setViewingExistingHarvest true) ;;
              Eff.ret true
          end
      end
  end.

(** The [onClick] handler of the status badge of a harvested batch. *)
Definition harvestedBadgeOnClick (o : ViewCalls) (batch : Batch.t)
  : Act unit :=
  set (setSelectedBatchForHarvest (Some batch)) ;;
  success <- loadExistingHarvestData o batch ;;
  if success then set (setShowHarvestModal true)
  else alert "No harvest data found for this batch.".

End BatchesRest.

(** ** Further notions the properties are stated with *)

Module SpecMore.
Import Store.

(** The batch code [handleAddBatch] stores: the one of the form, or
    else the generated one. *)
Definition batch_code_for (o : Batches.AddCalls) (w : Batches.W) : string :=
  let form := Batches.newBatch (ui w) in
  if negb (String.eqb (Batches.NewBatch.batch_code form) "") then
    Batches.NewBatch.batch_code form
  else
    match Batches.find_room (ui w) (Batches.NewBatch.room_id form) with
    | Some room =>
        Eff.eval (Batches.generateBatchCode (Batches.add_codes o)
                    (RoomRow.name room) (RoomRow.id room)) w
    | None => ""
    end.

(** The store after the inserts of an accepted [handleAddBatch]. *)
Definition added (o : Batches.AddCalls) (w : Batches.W) (key : string)
  (row : BatchRow.t) : Db :=
  match Batches.add_strains o with
  | Accepted =>
      insert_batch_strains
        (Batches.strainAssignments key (Batches.batchStrains (ui w)))
        (insert_batch row (db w))
  | Refused => insert_batch row (db w)
  end.

(** The value of one of the six numeric fields of a harvest entry. *)
Definition field_value (field : BatchesRest.HarvestField.t)
  (data : Batches.HarvestData.t) : Js.number :=
  match field with
  | BatchesRest.HarvestField.bigs_lbs => Batches.HarvestData.bigs_lbs data
  | BatchesRest.HarvestField.smalls_lbs => Batches.HarvestData.smalls_lbs data
  | BatchesRest.HarvestField.micros_lbs => Batches.HarvestData.micros_lbs data
  | BatchesRest.HarvestField.bigs_price_per_lb =>
      Batches.HarvestData.bigs_price_per_lb data
  | BatchesRest.HarvestField.smalls_price_per_lb =>
      Batches.HarvestData.smalls_price_per_lb data
  | BatchesRest.HarvestField.micros_price_per_lb =>
      Batches.HarvestData.micros_price_per_lb data
  end.

Definition is_price (field : BatchesRest.HarvestField.t) : bool :=
  match field with
  | BatchesRest.HarvestField.bigs_price_per_lb
  | BatchesRest.HarvestField.smalls_price_per_lb
  | BatchesRest.HarvestField.micros_price_per_lb => true
  | _ => false
  end.

(** A harvest entry with nothing weighed and nothing priced. *)
Definition blank_entry (data : Batches.HarvestData.t) : Prop :=
  forall field, field_value field data = Js.int 0.

(** The suffix of an English ordinal: [th] for 11, 12 and 13 in the
    last two digits, otherwise by the last digit. *)
Definition english_suffix (n : Z) : string :=
  if ((n mod 100 =? 11) || (n mod 100 =? 12) || (n mod 100 =? 13))%Z
  then "th"
  else if (n mod 10 =? 1)%Z then "st"
  else if (n mod 10 =? 2)%Z then "nd"
  else if (n mod 10 =? 3)%Z then "rd"
  else "th".

(** Numbers up to [bound] on which the two suffixes agree. *)
Definition suffixes_agree_upto (bound : nat) : bool :=
  forallb (fun n => String.eqb (BatchesRest.getOrdinalSuffix (Z.of_nat n))
                               (english_suffix (Z.of_nat n)))
          (seq 0 (S bound)).

(** A harvest entry as it comes back from the store: the weights kept,
    the prices gone. *)
Definition without_prices (data : Batches.HarvestData.t)
  : Batches.HarvestData.t :=
  Batches.HarvestData.mk (Batches.HarvestData.strain_id data)
    (Batches.HarvestData.strain_name data)
    (Js.or_num (Batches.HarvestData.bigs_lbs data) (Js.int 0))
    (Js.or_num (Batches.HarvestData.smalls_lbs data) (Js.int 0))
    (Js.or_num (Batches.HarvestData.micros_lbs data) (Js.int 0))
    (Js.int 0) (Js.int 0) (Js.int 0).

(** The calls of a view that read the stored harvest are accepted. *)
Definition harvest_rows_read (o : BatchesRest.ViewCalls) : Prop :=
  BatchesRest.view_check o = Accepted
  /\ BatchesRest.view_summary o = Accepted
  /\ BatchesRest.view_details o = Accepted.

(** The message [handleSaveHarvestData] ends with: the one of the
    first of its three writes that is refused, if any. *)
Definition save_error (o : Batches.SaveCalls) : option string :=
  match Batches.save_insert_summary o, Batches.save_insert_details o,
        Batches.save_update_batch o with
  | Refused, _, _ => Some "Error saving harvest summary. Please try again."
  | Accepted, Refused, _ =>
      Some "Error saving harvest details. Please try again."
  | Accepted, Accepted, Refused =>
      Some "Error updating batch status. Please try again."
  | Accepted, Accepted, Accepted => None
  end.

End SpecMore.

(** ** Further sample runs *)

Module ExamplesMore.
Import Store.

(** A third batch for room 7, stored under the key ["b3"]. *)
Definition add_b3 : Batches.AddCalls :=
  Batches.mkAddCalls Accepted (Some "b3") Accepted Examples.all_loaded.

(** The form of [Examples.w_one] over a store that holds two batches
    of room 7 with a code of the year. *)
Definition w_third : Batches.W :=
  Examples.world (ui Examples.w_one) Examples.db_two_codes.

Definition view_ok : BatchesRest.ViewCalls :=
  BatchesRest.mkViewCalls Accepted Accepted Accepted Accepted.

(** The harvest dialog of batch ["b1"] with 10 lbs of bigs at 20 a
    pound entered. *)
Definition w_weighed : Batches.W :=
  Eff.exec (BatchesRest.updateHarvestData "s1"
              BatchesRest.HarvestField.bigs_price_per_lb (Js.int 20))
    (Eff.exec (BatchesRest.updateHarvestData "s1"
                 BatchesRest.HarvestField.bigs_lbs (Js.int 10))
              Examples.w_dialog).

(** That harvest saved, and a second save whose summary insert is
    refused. *)
Definition w_saved : Batches.W :=
  Eff.exec (Batches.handleSaveHarvestData Examples.save_ok) w_weighed.

Definition save_no_summary : Batches.SaveCalls :=
  Batches.mkSaveCalls Accepted Accepted Accepted Accepted Refused Accepted
                      Accepted.

(** The second of November 2026. *)
Definition nov2 : JsMore.DateParts := JsMore.mkDateParts 10 2 2026.




End ExamplesMore.

(** ** Properties *)

Import Store.

(** *** Strings *)

Lemma append_assoc (a b c : string) : (a ++ b) ++ c = a ++ (b ++ c).
Proof.
  induction a as [|x a IH]; simpl; [reflexivity | now rewrite IH].
Qed.

Lemma prefix_append (p s : string) : String.prefix p (p ++ s) = true.
Proof.
  induction p as [|c p IH]; simpl.
  - destruct s; reflexivity.
  - destruct (ascii_dec c c) as [_|n]; [exact IH | now elim n].
Qed.

Lemma take_digits_split (s : string) :
  exists post,
    s = Js.take_digits s ++ post
    /\ Js.all_chars Js.is_digit (Js.take_digits s) = true
    /\ match post with
       | EmptyString => True
       | String c _ => Js.is_digit c = false
       end.
Proof.
  induction s as [|c s (post & Hs & Hd & Hp)]; simpl.
  - exists ""; auto.
  - destruct (Js.is_digit c) eqn:Hc; simpl.
    + exists post. rewrite Hc, Hd. repeat split; auto. now rewrite <- Hs.
    + exists (String c s). repeat split; auto.
Qed.

Lemma match_digits_spec (s : string) :
  match Js.match_digits s with
  | Some d => Spec.FirstDigitRun s d
  | None => Spec.NoDigit s
  end.
Proof.
  induction s as [|c s IH]; simpl.
  - reflexivity.
  - destruct (Js.is_digit c) eqn:Hc.
    + destruct (take_digits_split s) as (post & Hs & Hd & Hp).
      exists "", post. simpl. rewrite Hc, Hd.
      repeat split; auto; [now rewrite <- Hs | discriminate].
    + destruct (Js.match_digits s) as [d|].
      * destruct IH as (pre & post & Hs & Hpre & Hne & Hd & Hp).
        exists (String c pre), post. simpl.
        unfold Spec.not_digit at 1. rewrite Hc, Hpre, Hs.
        repeat split; auto.
      * unfold Spec.NoDigit in *. simpl.
        unfold Spec.not_digit at 1. now rewrite Hc, IH.
Qed.

(** *** Batch codes *)

(** C5.  [generateBatchCode] only reads.  The code it returns is
    ["R" ++ digits ++ "-" ++ year ++ "-" ++ seq], where [digits] is
    the first run of digits of the room name, or ["1"] when the name
    has no digit, and [seq] is one more than the number of batch codes
    of that room starting with ["R" ++ digits ++ "-" ++ year ++ "-"],
    padded with zeros to two characters, or ["01"] when the lookup is
    refused.  For the room name ["Flower Room 7"] the code is
    ["R7-" ++ year ++ "-01"] when no code matches and
    ["R7-" ++ year ++ "-03"] when two do. *)
Theorem generateBatchCode_spec :
  forall (roomId : string) (w : Batches.W),
    let year := Js.String_of_Z (Js.getFullYear (clock w)) in
    (forall (o : outcome) (roomName : string),
      exists digits : string,
        (Spec.FirstDigitRun roomName digits
         \/ (Spec.NoDigit roomName /\ digits = "1"))
        /\ Batches.generateBatchCode o roomName roomId w
           = ("R" ++ digits ++ "-" ++ year ++ "-"
              ++ match o with
                 | Accepted =>
                     Js.padStart0 2
                       (Js.String_of_nat
                          (List.length
                             (filter
                                (fun b =>
                                   opt_eqb (BatchRow.room_id b) roomId
                                   && like_prefix (BatchRow.batch_code b)
                                        ("R" ++ digits ++ "-" ++ year ++ "-"))
                                (Store.batches (db w))) + 1))
                 | Refused => "01"
                 end, w))
    /\ (select_batch_codes roomId ("R7-" ++ year ++ "-") (db w) = [] ->
        Eff.eval (Batches.generateBatchCode Accepted "Flower Room 7" roomId) w
        = "R7-" ++ year ++ "-01")
    /\ (List.length (select_batch_codes roomId ("R7-" ++ year ++ "-") (db w))
        = 2%nat ->
        Eff.eval (Batches.generateBatchCode Accepted "Flower Room 7" roomId) w
        = "R7-" ++ year ++ "-03").
Proof.
  intros roomId w year. split; [|split].
  - intros o roomName.
    pose proof (match_digits_spec roomName) as Hm.
    unfold Batches.generateBatchCode, Batches.now, query, Eff.bind, Eff.ret.
    unfold select_batch_codes. fold year.
    destruct (Js.match_digits roomName) as [d|].
    + exists d. split; [now left|].
      destruct o; [rewrite length_map|]; reflexivity.
    + exists "1". split; [now right|].
      destruct o; [rewrite length_map|]; reflexivity.
  - intros H.
    unfold Batches.generateBatchCode, Batches.now, query, Eff.bind, Eff.ret,
      Eff.eval.
    fold year. simpl. simpl in H. rewrite H. reflexivity.
  - intros H.
    unfold Batches.generateBatchCode, Batches.now, query, Eff.bind, Eff.ret,
      Eff.eval.
    fold year. simpl. simpl in H. rewrite H. reflexivity.
Qed.

(** *** Cost to grow and harvest summary *)

Lemma calculateCostToGrow_reads (o : outcome) (batchId roomId : string)
  (startDate : Z) (w : Batches.W) :
  snd (Batches.calculateCostToGrow o batchId roomId startDate w) = w.
Proof.
  unfold Batches.calculateCostToGrow. run. destruct o; reflexivity.
Qed.

Lemma calculateHarvestSummary_run (o : outcome) (w : Batches.W) :
  Batches.calculateHarvestSummary o w
  = (Spec.summary_of o w,
     set_ui (Batches.setHarvestSummary (Some (Spec.summary_of o w))) w).
Proof.
  unfold Batches.calculateHarvestSummary, Spec.summary_of, Spec.costToGrow_of. run.
  destruct (Batches.selectedBatchForHarvest (ui w)) as [b|]; [|reflexivity].
  pose proof (calculateCostToGrow_reads o (Batches.Batch.id b)
                (Js.or_string (Batches.Batch.room_id b) "")
                (Batches.Batch.start_date b) w) as Hw.
  destruct (Batches.calculateCostToGrow o (Batches.Batch.id b)
              (Js.or_string (Batches.Batch.room_id b) "")
              (Batches.Batch.start_date b) w) as [c w1].
  simpl in Hw. subst w1. reflexivity.
Qed.

Lemma reduce_num_sum {A : Type} (f : A -> Js.number) (l : list A) :
  Js.reduce_num f l = Spec.running_sum (map f l).
Proof.
  unfold Js.reduce_num, Spec.running_sum. generalize (Js.int 0).
  induction l as [|x l IH]; intros acc; simpl; [reflexivity | apply IH].
Qed.

Lemma totalHarvest_sum (l : list Batches.HarvestData.t) :
  Batches.totalHarvest l = Spec.running_sum (flat_map Spec.weights l).
Proof.
  unfold Batches.totalHarvest, Spec.running_sum. generalize (Js.int 0).
  induction l as [|x l IH]; intros acc; simpl; [reflexivity | apply IH].
Qed.

Lemma totalRevenue_sum (l : list Batches.HarvestData.t) :
  Batches.totalRevenue l = Spec.running_sum (flat_map Spec.revenues l).
Proof.
  unfold Batches.totalRevenue, Spec.running_sum. generalize (Js.int 0).
  induction l as [|x l IH]; intros acc; simpl; [reflexivity | apply IH].
Qed.

(** C6, counterexample.  With two entries of a tenth of a pound in
    each grade, the total weight of the summary is 0.6, while the sum
    over the entries of bigs + smalls + micros is 0.6000000000000001
    when added up in doubles, and is no double at all when added up
    exactly. *)
Lemma harvest_totals_not_per_strain :
  let w := Examples.w_tenths in
  let summary := Eff.eval (Batches.calculateHarvestSummary Accepted) w in
  let total := Batches.HarvestSummary.total_harvest_lbs summary in
  total = Js.lit 6 1
  /\ Spec.running_sum
       (map (fun s => Js.add (Js.add (Batches.HarvestData.bigs_lbs s)
                                     (Batches.HarvestData.smalls_lbs s))
                             (Batches.HarvestData.micros_lbs s))
            (Batches.harvestData (ui w)))
     = Js.lit 6000000000000001 16
  /\ total <> Js.lit 6000000000000001 16
  /\ ~ Js.to_Q total
       == Spec.exact_sum
            (map (fun s => Js.to_Q (Batches.HarvestData.bigs_lbs s)
                           + Js.to_Q (Batches.HarvestData.smalls_lbs s)
                           + Js.to_Q (Batches.HarvestData.micros_lbs s))
                 (Batches.harvestData (ui w))).
Proof.
  intros w summary total.
  split; [vm_compute; reflexivity|].
  split; [vm_compute; reflexivity|].
  split; [vm_compute; discriminate|].
  intros H. vm_compute in H. discriminate H.
Qed.

(** C6, amended.  The summary's total harvested weight is the running
    sum, from 0 and in entry order, of bigs, smalls and micros of each
    entry, one weight at a time; its total revenue is the running sum
    of bigs * bigs price, smalls * smalls price and micros * micros
    price of each entry.  Every product and every addition is rounded
    to a double.  One entry with weights 10, 5, 2 and prices 20, 10, 5
    gives weight 17 and revenue 260. *)
Theorem harvest_totals :
  forall (o : outcome) (w : Batches.W),
    let summary := Eff.eval (Batches.calculateHarvestSummary o) w in
    Batches.HarvestSummary.total_harvest_lbs summary
    = Spec.running_sum (flat_map Spec.weights (Batches.harvestData (ui w)))
    /\ Batches.HarvestSummary.total_revenue summary
       = Spec.running_sum
           (flat_map Spec.revenues (Batches.harvestData (ui w)))
    /\ (forall strainId strainName,
          Batches.harvestData (ui w)
          = [Batches.HarvestData.mk strainId strainName
               (Js.int 10) (Js.int 5) (Js.int 2)
               (Js.int 20) (Js.int 10) (Js.int 5)] ->
          Batches.HarvestSummary.total_harvest_lbs summary = Js.int 17
          /\ Batches.HarvestSummary.total_revenue summary = Js.int 260).
Proof.
  intros o w summary. subst summary. unfold Eff.eval.
  rewrite calculateHarvestSummary_run. simpl.
  split; [apply totalHarvest_sum | split; [apply totalRevenue_sum |]].
  intros strainId strainName H. rewrite H.
  split; vm_compute; reflexivity.
Qed.

Lemma opt_eqb_true (x : option string) (y : string) :
  opt_eqb x y = true <-> x = Some y.
Proof.
  destruct x as [s|]; simpl.
  - rewrite String.eqb_eq. split; congruence.
  - split; discriminate.
Qed.

Lemma or_Z_zero (n : Z) : Js.or_Z (Some n) 0 = n.
Proof.
  unfold Js.or_Z. destruct (Z.eqb_spec n 0); congruence.
Qed.

Lemma daysActive_ceil (today : Js.Clock) (startDate : Z) :
  let elapsed := (Js.getTime today - startDate * Js.ms_per_day)%Z in
  let D := Batches.daysActive today startDate in
  ((D - 1) * Js.ms_per_day < elapsed <= D * Js.ms_per_day)%Z.
Proof.
  intros elapsed D. subst D. unfold Batches.daysActive. fold elapsed.
  generalize elapsed. clear. intros e.
  unfold Js.ms_per_day.
  change (1000 * 60 * 60 * 24)%Z with 86400000%Z.
  unfold Qceiling, Qfloor, Qdiv, Qmult, Qinv, Qopp, inject_Z. simpl.
  rewrite Z.mul_1_r.
  Z.to_euclidean_division_equations. lia.
Qed.

(** Adding to a zero gives the other term, except that the sum of the
    two zeros of opposite sign is the positive one. *)
Lemma add_zero_l (x : Js.number) :
  x <> S754_zero true -> Js.add (Js.int 0) x = x.
Proof.
  intros H. destruct x as [[|]| | |]; try reflexivity. now elim H.
Qed.

Lemma add_zero_r (x : Js.number) (s : bool) :
  Js.is_zero x = false -> Js.add x (S754_zero s) = x.
Proof.
  destruct x as [|[|]| |]; try reflexivity; discriminate.
Qed.

(** C4, counterexample.  For batch [b1] in room 7 (10 lights), 395
    days after the start, with entries of 100 and 50.5 fetched, the
    cost to grow is 10815.499999999998: neither the double that
    [100 + 50.5 + 10 * 2.70 * 395] evaluates to nor the exact value
    10815.5 of that formula. *)
Lemma calculateCostToGrow_not_270 :
  let w := Examples.w_costs in
  let cost :=
    Eff.eval (Batches.calculateCostToGrow Accepted "b1" "room7" 20000) w in
  Batches.find_room (ui w) "room7" = Some Examples.room7
  /\ RoomRow.lights Examples.room7 = Some 10%Z
  /\ Batches.daysActive (clock w) 20000 = 395%Z
  /\ map CostEntryRow.amount
         (select_cost_entries "b1" "room7" 20000 (Js.iso_day (clock w)) (db w))
     = [Js.int 100; Js.lit 505 1]
  /\ cost = Js.nearest 10815499999999998 1000000000000
  /\ cost <> Js.add (Js.add (Js.int 100) (Js.lit 505 1))
                    (Js.mul (Js.mul (Js.int 10) (Js.lit 270 2)) (Js.int 395))
  /\ ~ Js.to_Q cost == 100 + 50.5 + 10 * 2.70 * 395.
Proof.
  intros w cost.
  split; [reflexivity|]. split; [reflexivity|].
  split; [vm_compute; reflexivity|]. split; [vm_compute; reflexivity|].
  split; [vm_compute; reflexivity|].
  split; [vm_compute; discriminate|].
  intros H. vm_compute in H. discriminate H.
Qed.

(** C4, amended.  For a room with [N] lights, [calculateCostToGrow]
    returns the running sum of the amounts of the fetched cost entries
    (those of the batch or of the room dated from the start date to
    today; 0 when that sum is falsy) plus [N * rate * D], multiplied
    from the left in doubles, where [D] is the elapsed time since the
    start date in days, rounded up, and [rate] is what [0.15 * 1 * 18]
    evaluates to, 2.6999999999999997, the double just below 2.70.
    With no entry fetched the result is [N * rate * D]; when the fetch
    is refused it is 0.  Nothing is written. *)
Theorem calculateCostToGrow_spec :
  forall (batchId roomId : string) (startDate N : Z) (room : RoomRow.t)
         (w : Batches.W),
    Batches.find_room (ui w) roomId = Some room ->
    RoomRow.lights room = Some N ->
    let D := Batches.daysActive (clock w) startDate in
    let elapsed := (Js.getTime (clock w) - startDate * Js.ms_per_day)%Z in
    let fetched :=
      select_cost_entries batchId roomId startDate (Js.iso_day (clock w))
                          (db w) in
    let rate := Batches.electricityCostPerLightPerDay in
    let electricity := Js.mul (Js.mul (Js.int N) rate) (Js.int D) in
    ((D - 1) * Js.ms_per_day < elapsed <= D * Js.ms_per_day)%Z
    /\ (forall e, In e fetched <->
                  In e (cost_entries (db w))
                  /\ (CostEntryRow.batch_id e = Some batchId
                      \/ CostEntryRow.room_id e = Some roomId)
                  /\ (startDate <= CostEntryRow.date e
                      <= Js.iso_day (clock w))%Z)
    /\ Eff.eval (Batches.calculateCostToGrow Accepted batchId roomId startDate) w
       = Js.add (Js.or_num (Spec.running_sum (map CostEntryRow.amount fetched))
                           (Js.int 0))
                electricity
    /\ (rate = Js.nearest 26999999999999997 10000000000000000
        /\ rate <> Js.lit 270 2
        /\ Js.gtb (Js.lit 270 2) rate = true)
    /\ (fetched = [] ->
        electricity <> S754_zero true ->
        Eff.eval (Batches.calculateCostToGrow Accepted batchId roomId startDate) w
        = electricity)
    /\ Eff.eval (Batches.calculateCostToGrow Refused batchId roomId startDate) w
       = Js.int 0
    /\ (forall o,
          Eff.exec (Batches.calculateCostToGrow o batchId roomId startDate) w
          = w).
Proof.
  intros batchId roomId startDate N room w Hroom Hlights D elapsed fetched
    rate electricity.
  assert (Hval :
    Eff.eval (Batches.calculateCostToGrow Accepted batchId roomId startDate) w
    = Js.add (Js.or_num (Spec.running_sum (map CostEntryRow.amount fetched))
                        (Js.int 0))
             electricity).
  { unfold Batches.calculateCostToGrow. run. cbn [fst].
    rewrite Hroom, Hlights, or_Z_zero, reduce_num_sum. reflexivity. }
  split; [apply daysActive_ceil|].
  split.
  { intros e. unfold fetched, select_cost_entries.
    rewrite filter_In, !andb_true_iff, orb_true_iff, !opt_eqb_true,
      !Z.leb_le.
    tauto. }
  split; [exact Hval|].
  split.
  { split; [vm_compute; reflexivity|].
    split; [vm_compute; discriminate | vm_compute; reflexivity]. }
  split.
  { intros Hnone Hnz. rewrite Hval, Hnone. now apply add_zero_l. }
  split.
  { unfold Batches.calculateCostToGrow. run. reflexivity. }
  intros o. unfold Eff.exec. apply calculateCostToGrow_reads.
Qed.

Lemma gtb_nonzero (x : Js.number) :
  Js.gtb x (Js.int 0) = true -> Js.is_zero x = false.
Proof.
  destruct x as [[|]| | |]; try reflexivity; discriminate.
Qed.

Lemma gtb_zero (x : Js.number) :
  Js.is_zero x = true -> Js.gtb x (Js.int 0) = false.
Proof.
  destruct x as [[|]| | |]; try reflexivity; discriminate.
Qed.

Lemma totalLights_nonzero (selected : option Batches.Batch.t) :
  Batches.totalLights selected <> 0%Z.
Proof.
  unfold Batches.totalLights, Js.or_Z.
  destruct selected as [b|]; [|discriminate].
  destruct (Batches.Batch.lights_assigned b) as [v|]; [|discriminate].
  destruct (Z.eqb_spec v 0); [discriminate | assumption].
Qed.

Lemma guarded_div_finite (c a b : Js.number) :
  exists q,
    (if Js.gtb c (Js.int 0) then Js.div a c else Js.Finite b) = Js.Finite q.
Proof.
  destruct (Js.gtb c (Js.int 0)) eqn:E; [|now exists b].
  unfold Js.div. rewrite (gtb_nonzero _ E). now eexists.
Qed.

(** C7.  No quotient of the harvest summary has a zero divisor: the
    five of them are finite.  Yield per light and revenue per light
    divide by the batch's lights, never zero, and by 1 when no batch is
    selected or its lights are unset or zero; cost per lb and net
    income per lb are 0 when the total weight is zero; the net income
    to sales ratio is 0 when the total revenue is zero. *)
Theorem harvest_divisions_guarded :
  forall (o : outcome) (w : Batches.W),
    let summary := Eff.eval (Batches.calculateHarvestSummary o) w in
    let harvest := Batches.HarvestSummary.total_harvest_lbs summary in
    let revenue := Batches.HarvestSummary.total_revenue summary in
    (exists lights : Z,
        lights <> 0%Z
        /\ Batches.HarvestSummary.yield_per_light summary
           = Js.Finite (Js.quot harvest (Js.int lights))
        /\ Batches.HarvestSummary.revenue_per_light summary
           = Js.Finite (Js.quot revenue (Js.int lights)))
    /\ (exists c n r,
          Batches.HarvestSummary.cost_per_lb summary = Js.Finite c
          /\ Batches.HarvestSummary.net_income_per_lb summary = Js.Finite n
          /\ Batches.HarvestSummary.net_income_sales_ratio summary
             = Js.Finite r)
    /\ (match Batches.selectedBatchForHarvest (ui w) with
        | Some b => Batches.Batch.lights_assigned b = None
                    \/ Batches.Batch.lights_assigned b = Some 0%Z
        | None => True
        end ->
        Batches.HarvestSummary.yield_per_light summary
        = Js.Finite (Js.quot harvest (Js.int 1))
        /\ Batches.HarvestSummary.revenue_per_light summary
           = Js.Finite (Js.quot revenue (Js.int 1)))
    /\ (Js.is_zero harvest = true ->
        Batches.HarvestSummary.cost_per_lb summary = Js.Finite (Js.int 0)
        /\ Batches.HarvestSummary.net_income_per_lb summary
           = Js.Finite (Js.int 0))
    /\ (Js.is_zero revenue = true ->
        Batches.HarvestSummary.net_income_sales_ratio summary
        = Js.Finite (Js.int 0)).
Proof.
  intros o w summary harvest revenue. subst harvest revenue summary.
  unfold Eff.eval. rewrite calculateHarvestSummary_run. simpl.
  set (harvest := Batches.totalHarvest (Batches.harvestData (ui w))).
  set (revenue := Batches.totalRevenue (Batches.harvestData (ui w))).
  set (cost := Spec.costToGrow_of o w).
  pose proof (totalLights_nonzero (Batches.selectedBatchForHarvest (ui w)))
    as Hl.
  split; [|split; [|split; [|split]]].
  - exists (Batches.totalLights (Batches.selectedBatchForHarvest (ui w))).
    unfold Js.div_count. apply Z.eqb_neq in Hl. rewrite Hl.
    apply Z.eqb_neq in Hl. auto.
  - destruct (guarded_div_finite harvest cost (Js.int 0)) as (c & Hc).
    destruct (guarded_div_finite harvest (Js.sub revenue cost) (Js.int 0))
      as (n & Hn).
    destruct (Js.gtb revenue (Js.int 0)) eqn:E.
    + exists c, n, (Js.mul (Js.quot (Js.sub revenue cost) revenue) (Js.int 100)).
      unfold Js.div at 3. rewrite (gtb_nonzero _ E). auto.
    + exists c, n, (Js.int 0). auto.
  - intros Hunset.
    assert (Batches.totalLights (Batches.selectedBatchForHarvest (ui w)) = 1%Z)
      as ->.
    { unfold Batches.totalLights.
      destruct (Batches.selectedBatchForHarvest (ui w)) as [b|];
        [|reflexivity].
      destruct Hunset as [-> | ->]; reflexivity. }
    split; reflexivity.
  - intros Hz. rewrite (gtb_zero _ Hz). auto.
  - intros Hz. rewrite (gtb_zero _ Hz). reflexivity.
Qed.

(** *** The strain list and its validation *)

Lemma loadBatches_run (o : Batches.LoadCalls) (w : Batches.W) :
  exists l, Batches.loadBatches o w = (tt, set_ui (Batches.setBatches l) w).
Proof.
  unfold Batches.loadBatches. run.
  destruct (Batches.load_full o).
  - eexists. reflexivity.
  - destruct (Batches.load_basic o).
    + eexists. reflexivity.
    + exists (Batches.batches (ui w)). destruct w as [[] ? ? ?]. reflexivity.
Qed.

Lemma generateBatchCode_reads o n r (w : Batches.W) :
  snd (Batches.generateBatchCode o n r w) = w.
Proof. unfold Batches.generateBatchCode. run. destruct o; reflexivity. Qed.

Lemma validateBatchStrains_run (w : Batches.W) :
  exists msgs,
    Batches.validateBatchStrains w
    = (match msgs with [] => true | _ => false end,
       mkWorld (ui w) (db w) (clock w) (alerts w ++ msgs))
    /\ (List.length msgs <= 1)%nat.
Proof.
  unfold Batches.validateBatchStrains. run.
  destruct (Batches.batchStrains (ui w)) as [|s l].
  - eexists [_]. split; [reflexivity | simpl; lia].
  - destruct (Batches.find_room (ui w) _) as [room|].
    + match goal with |- context [if ?c then _ else _] => destruct c end.
      * eexists [_]. split; [reflexivity | simpl; lia].
      * match goal with |- context [if ?c then _ else _] => destruct c end.
        -- eexists [_]. split; [reflexivity | simpl; lia].
        -- exists []. rewrite app_nil_r. destruct w. split; [reflexivity | simpl; lia].
    + exists []. rewrite app_nil_r. destruct w. split; [reflexivity | simpl; lia].
Qed.

Lemma world_eta {U} (w : World U) :
  mkWorld (ui w) (db w) (clock w) (alerts w) = w.
Proof. now destruct w. Qed.

Lemma validate_true_run (w : Batches.W) :
  Eff.eval Batches.validateBatchStrains w = true ->
  Batches.validateBatchStrains w = (true, w)
  /\ Batches.batchStrains (ui w) <> [].
Proof.
  intros H. destruct (validateBatchStrains_run w) as (msgs & Hrun & _).
  unfold Eff.eval in H. rewrite Hrun in *. simpl in H.
  destruct msgs; [|discriminate].
  rewrite app_nil_r, world_eta. split; [reflexivity|].
  intros Hnil. revert Hrun.
  unfold Batches.validateBatchStrains. run. rewrite Hnil. simpl.
  discriminate.
Qed.

Lemma validate_false_run (w : Batches.W) :
  Eff.eval Batches.validateBatchStrains w = false ->
  exists msg,
    Batches.validateBatchStrains w
    = (false, mkWorld (ui w) (db w) (clock w) (alerts w ++ [msg])).
Proof.
  intros H. destruct (validateBatchStrains_run w) as (msgs & Hrun & Hlen).
  unfold Eff.eval in H. rewrite Hrun in *. simpl in H.
  destruct msgs as [|m [|m' rest]]; [discriminate | | simpl in Hlen; lia].
  now exists m.
Qed.

Lemma handleAddBatch_accept (o : Batches.AddCalls) (w : Batches.W)
  (start : Z) (key : string) :
  Batches.NewBatch.start_date (Batches.newBatch (ui w)) = Some start ->
  Batches.NewBatch.room_id (Batches.newBatch (ui w)) <> "" ->
  Eff.eval Batches.validateBatchStrains w = true ->
  Batches.add_batch o = Some key ->
  exists row loaded,
    BatchRow.id row = key
    /\ Eff.exec (Batches.handleAddBatch o) w
       = mkWorld
           (Batches.setBatchStrains []
              (Batches.setNewBatch Batches.NewBatch.blank
                 (Batches.setBatches loaded (ui w))))
           (match Batches.add_strains o with
            | Accepted =>
                insert_batch_strains
                  (Batches.strainAssignments key (Batches.batchStrains (ui w)))
                  (insert_batch row (db w))
            | Refused => insert_batch row (db w)
            end)
           (clock w) (alerts w).
Proof.
  intros Hstart Hroom Hvalid Hkey.
  destruct (validate_true_run w Hvalid) as (Hrun & Hne).
  apply String.eqb_neq in Hroom.
  unfold Batches.handleAddBatch, Eff.exec.
  unfold Eff.bind at 1. unfold Batches.state at 1.
  rewrite Hstart, Hroom.
  unfold Eff.bind at 1. rewrite Hrun. cbv beta iota.
  change (negb true) with false. cbv iota.
  unfold Eff.bind at 1.
  set (codeAct := if negb (Batches.NewBatch.batch_code _ =? "") then _ else _).
  assert (Hc : exists code, codeAct w = (code, w)).
  { subst codeAct. destruct (negb _); [eexists; reflexivity|].
    destruct (Batches.find_room _ _) as [room|]; [|eexists; reflexivity].
    pose proof (generateBatchCode_reads (Batches.add_codes o)
                  (RoomRow.name room) (RoomRow.id room) w) as Hg.
    destruct (Batches.generateBatchCode _ _ _ w) as [c w1]. simpl in Hg.
    subst. eexists; reflexivity. }
  cbv beta. destruct Hc as (code & ->).
  destruct (Batches.batchStrains (ui w)) as [|first rest] eqn:Hl;
    [congruence|].
  rewrite Hkey.
  run.
  destruct (Batches.add_strains o); cbv beta iota;
    match goal with
    | |- context [Batches.loadBatches ?lo ?w1] =>
        destruct (loadBatches_run lo w1) as (loaded & ->)
    end;
    eexists _, loaded; (split; [|reflexivity]); reflexivity.
Qed.

Lemma handleAddBatch_reject (o : Batches.AddCalls) (w : Batches.W) :
  Batches.NewBatch.start_date (Batches.newBatch (ui w)) = None
  \/ Batches.NewBatch.room_id (Batches.newBatch (ui w)) = ""
  \/ Eff.eval Batches.validateBatchStrains w = false
  \/ Batches.add_batch o = None ->
  exists msg,
    Eff.exec (Batches.handleAddBatch o) w
    = mkWorld (ui w) (db w) (clock w) (alerts w ++ [msg]).
Proof.
  intros H.
  unfold Batches.handleAddBatch, Eff.exec.
  unfold Eff.bind at 1. unfold Batches.state at 1.
  destruct (Batches.NewBatch.start_date (Batches.newBatch (ui w)))
    as [start|]; [|eexists; reflexivity].
  destruct (String.eqb_spec
              (Batches.NewBatch.room_id (Batches.newBatch (ui w))) "")
    as [Hroom|Hroom]; [eexists; reflexivity|].
  unfold Eff.bind at 1.
  destruct (Eff.eval Batches.validateBatchStrains w) eqn:Hvalid.
  - destruct H as [H|[H|[H|H]]]; try congruence.
    destruct (validate_true_run w Hvalid) as (Hrun & Hne).
    rewrite Hrun. cbv beta iota. change (negb true) with false. cbv iota.
    unfold Eff.bind at 1.
    set (codeAct := if negb (Batches.NewBatch.batch_code _ =? "") then _ else _).
    assert (Hc : exists code, codeAct w = (code, w)).
    { subst codeAct. destruct (negb _); [eexists; reflexivity|].
      destruct (Batches.find_room _ _) as [room|]; [|eexists; reflexivity].
      pose proof (generateBatchCode_reads (Batches.add_codes o)
                    (RoomRow.name room) (RoomRow.id room) w) as Hg.
      destruct (Batches.generateBatchCode _ _ _ w) as [c w1]. simpl in Hg.
      subst. eexists; reflexivity. }
    destruct Hc as (code & ->). rewrite H.
    destruct (Batches.batchStrains (ui w)); eexists; reflexivity.
  - destruct (validate_false_run w Hvalid) as (msg & ->).
    exists msg. reflexivity.
Qed.

Lemma handleAddBatch_list (o : Batches.AddCalls) (w : Batches.W) :
  let l' := Batches.batchStrains (ui (Eff.exec (Batches.handleAddBatch o) w)) in
  l' = Batches.batchStrains (ui w) \/ l' = [].
Proof.
  intros l'. subst l'.
  destruct (Batches.NewBatch.start_date (Batches.newBatch (ui w)))
    as [start|] eqn:Hs.
  2:{ destruct (handleAddBatch_reject o w) as (msg & ->); auto. }
  destruct (String.eqb_spec
              (Batches.NewBatch.room_id (Batches.newBatch (ui w))) "")
    as [Hroom|Hroom].
  { destruct (handleAddBatch_reject o w) as (msg & ->); auto. }
  destruct (Eff.eval Batches.validateBatchStrains w) eqn:Hvalid.
  2:{ destruct (handleAddBatch_reject o w) as (msg & ->); auto. }
  destruct (Batches.add_batch o) as [key|] eqn:Hkey.
  2:{ destruct (handleAddBatch_reject o w) as (msg & ->); auto. }
  destruct (handleAddBatch_accept o w start key Hs Hroom Hvalid Hkey)
    as (row & loaded & _ & ->).
  right. reflexivity.
Qed.

Lemma handleAddStrainToBatch_list (w : Batches.W) :
  let l := Batches.batchStrains (ui w) in
  let l' := Batches.batchStrains (ui (Eff.exec Batches.handleAddStrainToBatch w)) in
  l' = l
  \/ exists s, l' = (l ++ [s])%list
               /\ Batches.BatchStrain.strain_id s = Batches.selectedStrain (ui w)
               /\ Js.some (fun x => String.eqb (Batches.BatchStrain.strain_id x)
                                               (Batches.selectedStrain (ui w))) l
                  = false.
Proof.
  intros l l'. subst l l'.
  unfold Batches.handleAddStrainToBatch. run.
  destruct (Batches.lightsForStrain (ui w)) as [lights|]; [|now left].
  destruct (Batches.percentageForStrain (ui w)) as [pct|]; [|now left].
  destruct (String.eqb _ ""); [now left|].
  destruct (Batches.no_lights_left (ui w)); [now left|].
  destruct (Js.find _ (Batches.strains (ui w))) as [strain|]; [|now left].
  destruct (Js.some _ _) eqn:Hsome; [now left|].
  right. eexists. split; [reflexivity | split; reflexivity].
Qed.

Lemma filter_at_incl {A : Type} (p : nat -> bool) (l : list A) :
  forall i x, In x (Js.filter_at p i l) -> In x l.
Proof.
  induction l as [|y l IH]; intros i x; simpl; [auto|].
  destruct (p i); simpl; intros H.
  - destruct H as [H|H]; [now left | right; eauto].
  - right; eauto.
Qed.

Lemma filter_at_NoDup {A B : Type} (f : A -> B) (p : nat -> bool) (l : list A) :
  forall i, NoDup (map f l) -> NoDup (map f (Js.filter_at p i l)).
Proof.
  induction l as [|y l IH]; intros i H; simpl; [constructor|].
  inversion H as [|? ? Hnotin Hnd]; subst.
  destruct (p i); simpl; [|now apply IH].
  constructor; [|now apply IH].
  intros Hin. apply Hnotin. apply in_map_iff in Hin.
  destruct Hin as (x & Hx & Hin). apply in_map_iff.
  exists x. split; [assumption | eapply filter_at_incl; eassumption].
Qed.

Lemma distinct_snoc (l : list Batches.BatchStrain.t) (s : Batches.BatchStrain.t) :
  Spec.distinct_strains l ->
  Js.some (fun x => String.eqb (Batches.BatchStrain.strain_id x)
                               (Batches.BatchStrain.strain_id s)) l = false ->
  Spec.distinct_strains (l ++ [s])%list.
Proof.
  unfold Spec.distinct_strains, Js.some. intros Hnd Hsome.
  induction l as [|y l IH]; simpl in *.
  - constructor; [intros [] | constructor].
  - apply orb_false_iff in Hsome. destruct Hsome as (Hy & Hrest).
    inversion Hnd as [|? ? Hnotin Hnd']; subst.
    constructor; [|now apply IH].
    rewrite map_app, in_app_iff. simpl. intros [Hin|[Heq|[]]].
    + now apply Hnotin.
    + apply String.eqb_neq in Hy. congruence.
Qed.

Lemma reachable_distinct (w : Batches.W) :
  Spec.reachable w -> Spec.distinct_strains (Batches.batchStrains (ui w)).
Proof.
  induction 1 as [w Hinit | w w' Hreach IH Hstep].
  - rewrite Hinit. constructor.
  - destruct Hstep as [w | w index | w o | w w' Hsame].
    + destruct (handleAddStrainToBatch_list w) as [-> | (s & -> & Hid & Hsome)];
        [assumption|].
      apply distinct_snoc; [assumption | now rewrite Hid].
    + unfold Batches.removeStrainFromBatch. run. simpl.
      now apply filter_at_NoDup.
    + destruct (handleAddBatch_list o w) as [-> | ->];
        [assumption | constructor].
    + now rewrite Hsame.
Qed.

Lemma reduce_Z_sum {A : Type} (f : A -> Z) (l : list A) :
  Js.reduce_Z f l = Spec.Zsum (map f l).
Proof.
  unfold Js.reduce_Z.
  assert (H : forall acc, fold_left (fun sum x => (sum + f x)%Z) l acc
                          = (acc + Spec.Zsum (map f l))%Z).
  { induction l as [|x l IH]; intros acc; simpl; [lia|].
    rewrite IH. lia. }
  now rewrite H.
Qed.






Lemma w_one_reachable : Spec.reachable Examples.w_one.
Proof.
  apply (Spec.reach_step Examples.w_start).
  - apply Spec.reach_init. reflexivity.
  - apply Spec.step_add.
Defined.

(** C8.  The room [veg] has a null capacity, and the list (one strain
    on 5 lights and 50 percent, entered while room 7 was selected) is
    non-empty, repeats no strain and stays within 100.1 percent; the
    validator rejects it, comparing the 5 lights with a capacity of 0,
    where the guard of [handleAddStrainToBatch] skips the comparison
    for such a room. *)
Theorem validateBatchStrains_rejects_unknown_capacity :
  let w := Examples.w_unknown in
  let l := Batches.batchStrains (ui w) in
  Spec.reachable w
  /\ Batches.find_room (ui w)
       (Batches.NewBatch.room_id (Batches.newBatch (ui w)))
     = Some Examples.veg
  /\ RoomRow.lights Examples.veg = None
  /\ l <> []
  /\ Spec.distinct_strains l
  /\ Js.gtb (Spec.running_sum (map Batches.BatchStrain.percentage l))
            (Js.lit 1001 1) = false
  /\ Batches.validateBatchStrains w
     = (false,
        mkWorld (ui w) (db w) (clock w)
          ["Total lights assigned (5) cannot exceed room capacity (null)"])
  /\ Batches.no_lights_left (ui w) = false.
Proof.
  intros w l.
  split.
  { apply (Spec.reach_step Examples.w_one); [exact w_one_reachable|].
    apply Spec.step_other. reflexivity. }
  split; [reflexivity|]. split; [reflexivity|].
  split; [discriminate|].
  split; [repeat constructor; intros []|].
  split; [vm_compute; reflexivity|].
  split; [vm_compute; reflexivity | reflexivity].
Qed.

Lemma handleAddStrainToBatch_present (w : Batches.W) :
  Js.some (fun s => String.eqb (Batches.BatchStrain.strain_id s)
                               (Batches.selectedStrain (ui w)))
          (Batches.batchStrains (ui w)) = true ->
  Batches.batchStrains (ui (Eff.exec Batches.handleAddStrainToBatch w))
  = Batches.batchStrains (ui w).
Proof.
  intros Hsome.
  destruct (handleAddStrainToBatch_list w) as [H | (s & _ & _ & H)];
    [exact H | congruence].
Qed.

(** C10.  On every world reached from an empty strain list by adding
    and removing strains, submitting the form or any other action, the
    strain identifiers of the list are pairwise distinct; adding a
    strain already in the list leaves the list as it is; and whatever a
    submission stores in [batch_strains] is the assignments of that
    list, whose strains are distinct.  The validator itself accepts a
    list with a repeated strain. *)
Theorem strain_list_distinct :
  forall w : Batches.W,
    Spec.reachable w ->
    let l := Batches.batchStrains (ui w) in
    Spec.distinct_strains l
    /\ (Js.some (fun s => String.eqb (Batches.BatchStrain.strain_id s)
                                     (Batches.selectedStrain (ui w))) l = true ->
        Batches.batchStrains (ui (Eff.exec Batches.handleAddStrainToBatch w))
        = l)
    /\ (forall o,
          let stored := batch_strains (db (Eff.exec (Batches.handleAddBatch o) w)) in
          stored = batch_strains (db w)
          \/ exists key,
               Batches.add_batch o = Some key
               /\ stored = (batch_strains (db w)
                            ++ Batches.strainAssignments key l)%list
               /\ map BatchStrainRow.strain_id (Batches.strainAssignments key l)
                  = map Batches.BatchStrain.strain_id l
               /\ NoDup (map BatchStrainRow.strain_id
                             (Batches.strainAssignments key l)))
    /\ (forall o start key,
          Batches.NewBatch.start_date (Batches.newBatch (ui w)) = Some start ->
          Batches.NewBatch.room_id (Batches.newBatch (ui w)) <> "" ->
          Eff.eval Batches.validateBatchStrains w = true ->
          Batches.add_batch o = Some key ->
          Batches.add_strains o = Accepted ->
          batch_strains (db (Eff.exec (Batches.handleAddBatch o) w))
          = (batch_strains (db w) ++ Batches.strainAssignments key l)%list)
    /\ (exists w0,
          ~ Spec.distinct_strains (Batches.batchStrains (ui w0))
          /\ Eff.eval Batches.validateBatchStrains w0 = true).
Proof.
  intros w Hreach l.
  pose proof (reachable_distinct w Hreach) as Hd. fold l in Hd.
  assert (Hmap : forall key,
            map BatchStrainRow.strain_id (Batches.strainAssignments key l)
            = map Batches.BatchStrain.strain_id l).
  { intros key. unfold Batches.strainAssignments. rewrite map_map.
    reflexivity. }
  split; [exact Hd|].
  split; [apply handleAddStrainToBatch_present|].
  split.
  { intros o stored. subst stored.
    destruct (Batches.NewBatch.start_date (Batches.newBatch (ui w)))
      as [start|] eqn:Hs.
    2:{ destruct (handleAddBatch_reject o w) as (msg & ->); auto. }
    destruct (String.eqb_spec
                (Batches.NewBatch.room_id (Batches.newBatch (ui w))) "")
      as [Hroom|Hroom].
    { destruct (handleAddBatch_reject o w) as (msg & ->); auto. }
    destruct (Eff.eval Batches.validateBatchStrains w) eqn:Hvalid.
    2:{ destruct (handleAddBatch_reject o w) as (msg & ->); auto. }
    destruct (Batches.add_batch o) as [key|] eqn:Hkey.
    2:{ destruct (handleAddBatch_reject o w) as (msg & ->); auto. }
    destruct (handleAddBatch_accept o w start key Hs Hroom Hvalid Hkey)
      as (row & loaded & _ & ->).
    destruct (Batches.add_strains o); [|now left].
    right. exists key. fold l. rewrite Hmap. auto. }
  split.
  { intros o start key Hs Hroom Hvalid Hkey Hins.
    destruct (handleAddBatch_accept o w start key Hs Hroom Hvalid Hkey)
      as (row & loaded & _ & ->).
    rewrite Hins. reflexivity. }
  exists Examples.w_repeat. split; [|vm_compute; reflexivity].
  intros Hrep. inversion Hrep as [|x rest Hnotin _]. apply Hnotin. now left.
Qed.

(** *** Status changes and harvest recording *)

Lemma handleSaveHarvestData_run (o : Batches.SaveCalls) (w : Batches.W)
  (b : Batches.Batch.t) :
  Batches.selectedBatchForHarvest (ui w) = Some b ->
  let w' := Eff.exec (Batches.handleSaveHarvestData o) w in
  db w' = Spec.saved o w b
  /\ Batches.selectedBatchForHarvest (ui w') = Some b
  /\ Batches.harvestData (ui w') = Batches.harvestData (ui w)
  /\ clock w' = clock w.
Proof.
  intros Hsel w'. subst w'.
  unfold Batches.handleSaveHarvestData. run. rewrite Hsel.
  rewrite calculateHarvestSummary_run.
  unfold Spec.saved, Spec.cleanup.
  destruct o as [oc ofe odd ods ois oid oub].
  cbv beta iota delta [Batches.save_costs Batches.save_fetch
    Batches.save_delete_details Batches.save_delete_summaries
    Batches.save_insert_summary Batches.save_insert_details
    Batches.save_update_batch].
  destruct ofe, odd, ods, ois, oid, oub;
    simpl;
    destruct (select_summary_ids (Batches.Batch.id b) (db w)) as [|k ks];
    simpl; rewrite ?Hsel; repeat split; reflexivity.
Qed.

Lemma filter_none {A : Type} (p : A -> bool) (l : list A) :
  (forall x, In x l -> p x = false) -> filter p l = [].
Proof.
  induction l as [|x l IH]; intros H; simpl; [reflexivity|].
  rewrite (H x (or_introl eq_refl)). apply IH. intros y Hy. apply H. now right.
Qed.

Lemma filter_all {A : Type} (p : A -> bool) (l : list A) :
  (forall x, In x l -> p x = true) -> filter p l = l.
Proof.
  induction l as [|x l IH]; intros H; simpl; [reflexivity|].
  rewrite (H x (or_introl eq_refl)). f_equal. apply IH.
  intros y Hy. apply H. now right.
Qed.

Lemma cleanup_batches (o : Batches.SaveCalls) (batchId : string) (d : Db) :
  Store.batches (Spec.cleanup o batchId d) = Store.batches d.
Proof.
  unfold Spec.cleanup.
  destruct (Batches.save_fetch o), (select_summary_ids batchId d),
    (Batches.save_delete_details o), (Batches.save_delete_summaries o);
    reflexivity.
Qed.

Lemma saved_batches (o : Batches.SaveCalls) (w : Batches.W)
  (b : Batches.Batch.t) :
  Store.batches (Spec.saved o w b)
  = match Batches.save_insert_summary o, Batches.save_insert_details o,
          Batches.save_update_batch o with
    | Accepted, Accepted, Accepted =>
        Store.batches (update_batch_status (Batches.Batch.id b) harvested (db w))
    | _, _, _ => Store.batches (db w)
    end.
Proof.
  unfold Spec.saved.
  destruct (Batches.save_insert_summary o), (Batches.save_insert_details o),
    (Batches.save_update_batch o); simpl; now rewrite cleanup_batches.
Qed.

Lemma cleanup_keys (o : Batches.SaveCalls) (batchId : string) (d : Db) :
  Spec.keys_below_next d -> Spec.keys_below_next (Spec.cleanup o batchId d).
Proof.
  intros (Hs & Hd). unfold Spec.cleanup, Spec.keys_below_next.
  destruct (Batches.save_fetch o), (select_summary_ids batchId d),
    (Batches.save_delete_details o), (Batches.save_delete_summaries o);
    simpl; split; intros x Hx; try apply filter_In in Hx;
    try (apply Hs; tauto); try (apply Hd; tauto);
    try (destruct Hx as (Hx & _); apply filter_In in Hx; apply Hd; tauto).
Qed.

Lemma harvestDetails_key (k : nat) (l : list Batches.HarvestData.t) :
  forall r, In r (Batches.harvestDetails k l) ->
            HarvestDetailRow.harvest_summary_id r = k.
Proof.
  intros r Hr. unfold Batches.harvestDetails in Hr.
  apply in_map_iff in Hr. destruct Hr as (x & <- & _). reflexivity.
Qed.

Lemma saved_keys (o : Batches.SaveCalls) (w : Batches.W) (b : Batches.Batch.t) :
  Spec.keys_below_next (db w) -> Spec.keys_below_next (Spec.saved o w b).
Proof.
  intros H.
  pose proof (cleanup_keys o (Batches.Batch.id b) (db w) H) as (Hs & Hd).
  unfold Spec.saved.
  destruct (Batches.save_insert_summary o); [|now split].
  assert (Hs' : forall s,
    In s (harvest_summaries (Spec.cleanup o (Batches.Batch.id b) (db w))
          ++ [HarvestSummaryRow.mk
                (next_summary_id (Spec.cleanup o (Batches.Batch.id b) (db w)))
                (Batches.Batch.id b)
                (Batches.HarvestSummary.total_harvest_lbs
                   (Spec.summary_of (Batches.save_costs o) w))
                (Batches.HarvestSummary.yield_per_light
                   (Spec.summary_of (Batches.save_costs o) w))
                (Js.or_Z (Batches.Batch.lights_assigned b) 0)
                (Js.iso_day (clock w))])%list ->
    (HarvestSummaryRow.id s
     < S (next_summary_id (Spec.cleanup o (Batches.Batch.id b) (db w))))%nat).
  { intros s Hin. apply in_app_iff in Hin. destruct Hin as [Hin|[<-|[]]].
    - apply Hs in Hin. lia.
    - simpl. lia. }
  assert (Hd' : forall r,
    In r (harvest_details (Spec.cleanup o (Batches.Batch.id b) (db w))) ->
    (HarvestDetailRow.harvest_summary_id r
     < S (next_summary_id (Spec.cleanup o (Batches.Batch.id b) (db w))))%nat).
  { intros r Hin. apply Hd in Hin. lia. }
  cbv zeta. unfold insert_summary.
  destruct (Batches.save_insert_details o); [|now split].
  assert (Hd'' : forall r,
    In r (harvest_details (Spec.cleanup o (Batches.Batch.id b) (db w))
          ++ Batches.harvestDetails
               (next_summary_id (Spec.cleanup o (Batches.Batch.id b) (db w)))
               (Batches.harvestData (ui w)))%list ->
    (HarvestDetailRow.harvest_summary_id r
     < S (next_summary_id (Spec.cleanup o (Batches.Batch.id b) (db w))))%nat).
  { intros r Hin. apply in_app_iff in Hin. destruct Hin as [Hin|Hin].
    - now apply Hd'.
    - apply harvestDetails_key in Hin. lia. }
  destruct (Batches.save_update_batch o); now split.
Qed.

Lemma saved_rows (o : Batches.SaveCalls) (w : Batches.W) (b : Batches.Batch.t) :
  Spec.harvest_rows_persist o ->
  let d := db w in
  let batchId := Batches.Batch.id b in
  let summary := Spec.summary_of (Batches.save_costs o) w in
  let row :=
    HarvestSummaryRow.mk (next_summary_id d) batchId
      (Batches.HarvestSummary.total_harvest_lbs summary)
      (Batches.HarvestSummary.yield_per_light summary)
      (Js.or_Z (Batches.Batch.lights_assigned b) 0)
      (Js.iso_day (clock w)) in
  harvest_summaries (Spec.saved o w b)
  = (filter (fun s => negb (String.eqb (HarvestSummaryRow.batch_id s) batchId))
            (harvest_summaries d) ++ [row])%list
  /\ harvest_details (Spec.saved o w b)
     = (filter (fun r => negb (mem_nat (HarvestDetailRow.harvest_summary_id r)
                                       (select_summary_ids batchId d)))
               (harvest_details d)
        ++ Batches.harvestDetails (next_summary_id d)
                                  (Batches.harvestData (ui w)))%list
  /\ next_summary_id (Spec.saved o w b) = S (next_summary_id d).
Proof.
  intros (Hf & Hdd & Hds & His & Hid) d batchId summary row.
  unfold Spec.saved, Spec.cleanup. rewrite Hf, Hdd, Hds, His, Hid.
  fold d batchId.
  assert (Hdet :
    harvest_details
      match select_summary_ids batchId d with
      | [] => d
      | k :: ks => delete_details_in (k :: ks) d
      end
    = filter (fun r => negb (mem_nat (HarvestDetailRow.harvest_summary_id r)
                                     (select_summary_ids batchId d)))
             (harvest_details d)).
  { destruct (select_summary_ids batchId d) as [|k ks]; [|reflexivity].
    symmetry. apply filter_all. reflexivity. }
  assert (Hsum :
    harvest_summaries
      match select_summary_ids batchId d with
      | [] => d
      | k :: ks => delete_details_in (k :: ks) d
      end = harvest_summaries d
    /\ next_summary_id
         match select_summary_ids batchId d with
         | [] => d
         | k :: ks => delete_details_in (k :: ks) d
         end = next_summary_id d).
  { destruct (select_summary_ids batchId d); split; reflexivity. }
  destruct Hsum as (Hsum & Hnext).
  destruct (Batches.save_update_batch o); simpl;
    rewrite Hdet, Hsum, Hnext; repeat split; reflexivity.
Qed.

Lemma filter_filter_neg {A : Type} (p : A -> bool) (l : list A) :
  filter p (filter (fun x => negb (p x)) l) = [].
Proof.
  apply filter_none. intros x Hx. apply filter_In in Hx.
  destruct Hx as (_ & Hx). now apply negb_true_iff in Hx.
Qed.

Lemma saved_replaces (o : Batches.SaveCalls) (w : Batches.W)
  (b : Batches.Batch.t) :
  Spec.harvest_rows_persist o ->
  Spec.keys_below_next (db w) ->
  exists row,
    HarvestSummaryRow.id row = next_summary_id (db w)
    /\ HarvestSummaryRow.batch_id row = Batches.Batch.id b
    /\ Spec.summaries_of (Batches.Batch.id b) (Spec.saved o w b) = [row]
    /\ Spec.details_of (Batches.Batch.id b) (Spec.saved o w b)
       = Batches.harvestDetails (HarvestSummaryRow.id row)
                                (Batches.harvestData (ui w)).
Proof.
  intros Hp (Hks & Hkd).
  destruct (saved_rows o w b Hp) as (Hs & Hd & _).
  eexists. split; [|split; [|split]].
  3:{ unfold Spec.summaries_of. rewrite Hs, filter_app, filter_filter_neg.
      simpl. rewrite String.eqb_refl. reflexivity. }
  1,2: reflexivity.
  unfold Spec.details_of, select_summary_ids.
  rewrite Hs, filter_app, filter_filter_neg. simpl.
  rewrite String.eqb_refl. simpl. rewrite Hd, filter_app.
  rewrite filter_none, filter_all; [reflexivity| |].
  - intros r Hr. apply harvestDetails_key in Hr. rewrite Hr.
    unfold mem_nat. simpl. now rewrite Nat.eqb_refl.
  - intros r Hr. apply filter_In in Hr. destruct Hr as (Hr & _).
    apply Hkd in Hr. unfold mem_nat. simpl.
    rewrite orb_false_r. apply Nat.eqb_neq. lia.
Qed.

Lemma stored_status_update (batchId : string) (s prior : Status) (d : Db) :
  stored_status batchId d = Some prior ->
  stored_status batchId (update_batch_status batchId s d) = Some s.
Proof.
  unfold stored_status, update_batch_status. simpl.
  induction (Store.batches d) as [|b l IH]; simpl; [discriminate|].
  destruct (String.eqb (BatchRow.id b) batchId) eqn:E; simpl.
  - now rewrite E.
  - now rewrite E.
Qed.

Lemma handleUpdateBatchStatus_direct (o : Batches.UpdateCalls)
  (batchId : string) (s : Status) (w : Batches.W) :
  s <> harvested ->
  db (Eff.exec (Batches.handleUpdateBatchStatus o batchId s) w)
  = match Batches.upd_status o with
    | Accepted => update_batch_status batchId s (db w)
    | Refused => db w
    end.
Proof.
  intros Hs.
  assert (Hrun : Eff.exec (Batches.handleUpdateBatchStatus o batchId s) w
                 = Eff.exec (Batches.update_status_directly o batchId s) w).
  { unfold Batches.handleUpdateBatchStatus, Eff.exec, Eff.bind, Batches.state.
    destruct s; try reflexivity. now elim Hs. }
  rewrite Hrun. unfold Batches.update_status_directly. run.
  destruct (Batches.upd_status o); [|reflexivity].
  cbv beta iota.
  match goal with
  | |- context [Batches.loadBatches ?lo ?w1] =>
      destruct (loadBatches_run lo w1) as (loaded & ->)
  end.
  reflexivity.
Qed.

(** C2.  Selecting [harvested] for a loaded batch writes nothing to the
    store: it selects the batch and opens the harvest dialog.  A save
    in which the summary insert or the detail insert is refused leaves
    the status of every batch as it was; a save that changes the
    [batches] table has had both inserts accepted, and the summary row
    of the batch and its detail rows are in the store; with the
    inserts and the status update accepted the batch is stored as
    [harvested].  Selecting any other status writes it to the batch
    whatever the status before. *)
Theorem harvested_status_is_gated :
  (forall (o : Batches.UpdateCalls) (w : Batches.W) (batchId : string)
          (batch : Batches.Batch.t),
      Batches.find_batch (ui w) batchId = Some batch ->
      let w' := Eff.exec (Batches.handleUpdateBatchStatus o batchId harvested) w in
      db w' = db w
      /\ Batches.selectedBatchForHarvest (ui w') = Some batch
      /\ Batches.showHarvestModal (ui w') = true)
  /\ (forall (o : Batches.SaveCalls) (w : Batches.W) (batch : Batches.Batch.t),
        Batches.selectedBatchForHarvest (ui w) = Some batch ->
        let w' := Eff.exec (Batches.handleSaveHarvestData o) w in
        (Batches.save_insert_summary o = Refused
         \/ Batches.save_insert_details o = Refused ->
         forall batchId,
           stored_status batchId (db w') = stored_status batchId (db w))
        /\ (Store.batches (db w') <> Store.batches (db w) ->
            Batches.save_insert_summary o = Accepted
            /\ Batches.save_insert_details o = Accepted
            /\ exists row,
                 In row (harvest_summaries (db w'))
                 /\ HarvestSummaryRow.batch_id row = Batches.Batch.id batch
                 /\ incl (Batches.harvestDetails (HarvestSummaryRow.id row)
                                                 (Batches.harvestData (ui w)))
                         (harvest_details (db w')))
        /\ (Batches.save_insert_summary o = Accepted ->
            Batches.save_insert_details o = Accepted ->
            Batches.save_update_batch o = Accepted ->
            forall prior,
              stored_status (Batches.Batch.id batch) (db w) = Some prior ->
              stored_status (Batches.Batch.id batch) (db w') = Some harvested))
  /\ (forall (o : Batches.UpdateCalls) (w : Batches.W) (batchId : string)
             (s : Status),
        s <> harvested ->
        Batches.upd_status o = Accepted ->
        let w' := Eff.exec (Batches.handleUpdateBatchStatus o batchId s) w in
        db w' = update_batch_status batchId s (db w)
        /\ forall prior,
             stored_status batchId (db w) = Some prior ->
             stored_status batchId (db w') = Some s).
Proof.
  split; [|split].
  - intros o w batchId batch Hfind w'. subst w'.
    unfold Batches.handleUpdateBatchStatus, Batches.initializeHarvestData.
    run. rewrite Hfind. simpl. auto.
  - intros o w batch Hsel w'.
    destruct (handleSaveHarvestData_run o w batch Hsel) as (Hdb & _).
    fold w' in Hdb.
    pose proof (saved_batches o w batch) as Hb. rewrite <- Hdb in Hb.
    split; [|split].
    + intros Hrefused batchId. unfold stored_status. rewrite Hb.
      destruct Hrefused as [-> | ->];
        [|destruct (Batches.save_insert_summary o)]; reflexivity.
    + intros Hchanged.
      destruct (Batches.save_insert_summary o) eqn:His; [|congruence].
      destruct (Batches.save_insert_details o) eqn:Hid; [|congruence].
      destruct (Batches.save_update_batch o) eqn:Hub; [|congruence].
      split; [reflexivity | split; [reflexivity|]].
      rewrite Hdb. unfold Spec.saved. rewrite His, Hid, Hub. simpl.
      eexists. split; [apply in_or_app; right; left; reflexivity|].
      split; [reflexivity|]. simpl.
      intros r Hr. apply in_or_app. now right.
    + intros His Hid Hub prior Hprior.
      unfold stored_status. rewrite Hb, His, Hid, Hub.
      exact (stored_status_update _ harvested prior (db w) Hprior).
  - intros o w batchId s Hs Hacc w'. subst w'.
    rewrite (handleUpdateBatchStatus_direct o batchId s w Hs), Hacc.
    split; [reflexivity|]. intros prior. apply stored_status_update.
Qed.

(** C3.  After two saves of harvest data for the same batch, the
    second with its cleanup and inserts accepted, the batch has exactly
    one harvest summary row, and the detail rows under it are one per
    harvest entry, those of the entries; the second save removed the
    detail rows under the earlier summaries of the batch and those
    summaries, and put the fresh rows after what remained. *)
Theorem resave_replaces_harvest_rows :
  forall (o1 o2 : Batches.SaveCalls) (w : Batches.W) (batch : Batches.Batch.t),
    Spec.keys_below_next (db w) ->
    Batches.selectedBatchForHarvest (ui w) = Some batch ->
    Spec.harvest_rows_persist o2 ->
    let batchId := Batches.Batch.id batch in
    let w1 := Eff.exec (Batches.handleSaveHarvestData o1) w in
    let w2 := Eff.exec (Batches.handleSaveHarvestData o2) w1 in
    exists row,
      HarvestSummaryRow.batch_id row = batchId
      /\ Spec.summaries_of batchId (db w2) = [row]
      /\ Spec.details_of batchId (db w2)
         = Batches.harvestDetails (HarvestSummaryRow.id row)
                                  (Batches.harvestData (ui w))
      /\ map HarvestDetailRow.strain_id (Spec.details_of batchId (db w2))
         = map Batches.HarvestData.strain_id (Batches.harvestData (ui w))
      /\ (NoDup (map Batches.HarvestData.strain_id
                     (Batches.harvestData (ui w))) ->
          forall strainId,
            In strainId (map Batches.HarvestData.strain_id
                             (Batches.harvestData (ui w))) ->
            count_occ string_dec
              (map HarvestDetailRow.strain_id
                   (Spec.details_of batchId (db w2))) strainId = 1%nat)
      /\ harvest_summaries (db w2)
         = (filter (fun s => negb (String.eqb (HarvestSummaryRow.batch_id s)
                                              batchId))
                   (harvest_summaries (db w1)) ++ [row])%list
      /\ harvest_details (db w2)
         = (filter (fun r =>
                      negb (mem_nat (HarvestDetailRow.harvest_summary_id r)
                                    (select_summary_ids batchId (db w1))))
                   (harvest_details (db w1))
            ++ Batches.harvestDetails (HarvestSummaryRow.id row)
                                      (Batches.harvestData (ui w)))%list.
Proof.
  intros o1 o2 w batch Hkeys Hsel Hpersist batchId w1 w2.
  destruct (handleSaveHarvestData_run o1 w batch Hsel)
    as (Hdb1 & Hsel1 & Hdata1 & _).
  fold w1 in Hdb1, Hsel1, Hdata1.
  destruct (handleSaveHarvestData_run o2 w1 batch Hsel1) as (Hdb2 & _).
  fold w2 in Hdb2.
  assert (Hkeys1 : Spec.keys_below_next (db w1)).
  { rewrite Hdb1. now apply saved_keys. }
  destruct (saved_replaces o2 w1 batch Hpersist Hkeys1)
    as (row & Hid & Hbatch & Hsum & Hdet).
  destruct (saved_rows o2 w1 batch Hpersist) as (Hs & Hd & _).
  rewrite <- Hdb2 in Hsum, Hdet, Hs, Hd. rewrite Hdata1 in Hdet, Hd.
  exists row. fold batchId in Hbatch, Hsum, Hdet, Hs, Hd.
  split; [exact Hbatch|]. split; [exact Hsum|]. split; [exact Hdet|].
  assert (Hstrains :
    map HarvestDetailRow.strain_id (Spec.details_of batchId (db w2))
    = map Batches.HarvestData.strain_id (Batches.harvestData (ui w))).
  { rewrite Hdet. unfold Batches.harvestDetails. rewrite map_map.
    reflexivity. }
  split; [exact Hstrains|].
  split.
  { intros Hnodup strainId Hin. rewrite Hstrains.
    now apply NoDup_count_occ'. }
  split.
  { rewrite Hs. f_equal. f_equal.
    unfold Spec.summaries_of in Hsum. rewrite Hs in Hsum.
    fold batchId in Hsum.
    rewrite filter_app, filter_filter_neg in Hsum. simpl in Hsum.
    unfold batchId in Hsum at 1. rewrite String.eqb_refl in Hsum.
    now inversion Hsum. }
  rewrite Hd, Hid. reflexivity.
Qed.

(** *** Room deletion *)

Ltac run_facility :=
  unfold Facility.state, Facility.set, Store.alert, Store.query,
    Store.command_, Store.command;
  unfold Eff.exec, Eff.eval, Eff.bind, Eff.ret, Eff.modify.

Lemma loadRooms_db (o : outcome) (w : Facility.W) :
  db (Eff.exec (Facility.loadRooms o) w) = db w.
Proof.
  unfold Facility.loadRooms. run_facility. destruct o; reflexivity.
Qed.

Lemma loadRooms_rooms (w : Facility.W) :
  Facility.rooms (ui (Eff.exec (Facility.loadRooms Accepted) w))
  = map Facility.process_room (Facility.select_rooms (db w)).
Proof. reflexivity. Qed.

Lemma find_loaded_room (d : Db) (id : string) (rows : list RoomRow.t) :
  (exists r, In r rows /\ RoomRow.id r = id) ->
  exists r,
    RoomRow.id r = id
    /\ Js.find (fun x => String.eqb (Facility.Room.id x) id)
         (map Facility.process_room
            (map (fun r => Facility.RoomJoin.mk
                             r (Some (Facility.batches_of d (RoomRow.id r))))
                 rows))
       = Some (Facility.process_room
                 (Facility.RoomJoin.mk r (Some (Facility.batches_of d id)))).
Proof.
  unfold Js.find.
  induction rows as [|x rows IH]; intros (r & Hin & Hid); [now elim Hin|].
  simpl. destruct (String.eqb_spec (RoomRow.id x) id) as [Hx|Hx].
  - exists x. split; [assumption | now rewrite Hx].
  - apply IH. destruct Hin as [->|Hin]; [congruence | eauto].
Qed.

Lemma find_active_iff (d : Db) (id : string) :
  Js.find Facility.is_active (Facility.batches_of d id) <> None
  <-> Spec.has_active_batch id d.
Proof.
  unfold Js.find, Facility.batches_of, Spec.has_active_batch.
  induction (Store.batches d) as [|b l IH]; simpl.
  - split; [congruence | intros (b & [] & _)].
  - destruct (opt_eqb (BatchRow.room_id b) id) eqn:Hroom; simpl.
    + unfold Facility.is_active at 1. simpl.
      destruct (BatchRow.status b) eqn:Hst; simpl;
        try (rewrite IH; split;
             [ intros (x & Hx & Hr & Hs); exists x; tauto
             | intros (x & [<-|Hx] & Hr & Hs); [congruence | eauto] ]).
      split; [|discriminate]. intros _. exists b.
      apply opt_eqb_true in Hroom. auto.
    + rewrite IH. split.
      * intros (x & Hx & Hr & Hs). exists x. tauto.
      * intros (x & [<-|Hx] & Hr & Hs); [|eauto].
        apply opt_eqb_true in Hr. congruence.
Qed.

(** C9.  With the rooms loaded from the store, deleting a room whose
    batches include one with status [active] changes nothing: no
    delete reaches the store.  Deleting a room none of whose batches
    is [active] issues the delete, and once the store accepts it the
    room is gone.  The page decides through the flag it derived from
    the room's batches at load time. *)
Theorem room_deletion_guard :
  forall (w0 : Facility.W) (id : string),
    (exists r, In r (Store.rooms (db w0)) /\ RoomRow.id r = id) ->
    let w := Eff.exec (Facility.loadRooms Accepted) w0 in
    (exists room,
        Js.find (fun r => String.eqb (Facility.Room.id r) id)
                (Facility.rooms (ui w)) = Some room
        /\ (Facility.Room.has_current_batch room = Some true
            <-> Spec.has_active_batch id (db w)))
    /\ (Spec.has_active_batch id (db w) ->
        forall o, Eff.exec (Facility.handleDeleteRoom o id) w = w)
    /\ ((forall b, In b (Store.batches (db w)) ->
                   BatchRow.room_id b = Some id ->
                   BatchRow.status b <> active) ->
        forall o,
          let w' := Eff.exec (Facility.handleDeleteRoom o id) w in
          (Facility.del_room o = Accepted ->
           db w' = delete_room id (db w)
           /\ forall r, In r (Store.rooms (db w')) -> RoomRow.id r <> id)
          /\ (Facility.del_room o = Refused ->
              db w' = db w /\ alerts w' <> alerts w)).
Proof.
  intros w0 id Hexists w.
  assert (Hdb : db w = db w0) by apply loadRooms_db.
  destruct (find_loaded_room (db w0) id (Store.rooms (db w0)) Hexists)
    as (r & Hid & Hfind).
  assert (Hfind' :
    Js.find (fun x => String.eqb (Facility.Room.id x) id)
            (Facility.rooms (ui w))
    = Some (Facility.process_room
              (Facility.RoomJoin.mk r (Some (Facility.batches_of (db w0) id))))).
  { exact Hfind. }
  pose proof (find_active_iff (db w0) id) as Hact. rewrite <- Hdb in Hact at 2.
  assert (Hflag :
    Facility.Room.has_current_batch
      (Facility.process_room
         (Facility.RoomJoin.mk r (Some (Facility.batches_of (db w0) id))))
    = Some true <-> Spec.has_active_batch id (db w)).
  { etransitivity; [|exact Hact]. unfold Facility.process_room. simpl.
    destruct (Js.find Facility.is_active _); split; congruence. }
  split; [eexists; split; [exact Hfind' | exact Hflag]|].
  split.
  - intros Hactive o. apply Hflag in Hactive.
    unfold Facility.handleDeleteRoom. run_facility.
    rewrite Hfind', Hactive. reflexivity.
  - intros Hnone o w'.
    assert (Hflag' :
      Facility.Room.has_current_batch
        (Facility.process_room
           (Facility.RoomJoin.mk r (Some (Facility.batches_of (db w0) id))))
      = Some false).
    { destruct (Js.find Facility.is_active (Facility.batches_of (db w0) id))
        as [found|] eqn:E.
      - assert (Ha : Spec.has_active_batch id (db w)).
        { apply Hact. rewrite ?E. discriminate. }
        destruct Ha as (b & Hb & Hr & Hs). now elim (Hnone b Hb Hr).
      - unfold Facility.process_room.
        cbv beta iota delta [Facility.RoomJoin.batches
                             Facility.Room.has_current_batch].
        now rewrite E. }
    subst w'. unfold Facility.handleDeleteRoom. run_facility.
    rewrite Hfind', Hflag'.
    destruct (Facility.del_room o); split; try discriminate.
    + intros _. cbv beta iota.
      match goal with
      | |- context [Facility.loadRooms ?lo ?w1] =>
          pose proof (loadRooms_db lo w1) as Hl
      end.
      unfold Eff.exec in Hl. rewrite Hl. simpl.
      split; [reflexivity|].
      intros x Hx. apply filter_In in Hx. destruct Hx as (_ & Hx).
      apply negb_true_iff, String.eqb_neq in Hx. exact Hx.
    + intros _. simpl. split; [reflexivity|].
      intros Heq. apply (f_equal (@List.length string)) in Heq.
      rewrite length_app in Heq. simpl in Heq. lia.
Qed.

(** ** The properties on the sample data *)

Lemma generateBatchCode_sample :
  Eff.eval (Batches.generateBatchCode Accepted "Flower Room 7" "room7")
           Examples.w_start = "R7-2026-01"
  /\ Eff.eval (Batches.generateBatchCode Accepted "Flower Room 7" "room7")
              (Examples.world (ui Examples.w_start) Examples.db_two_codes)
     = "R7-2026-03".
Proof.
  split.
  - exact (proj1 (proj2 (generateBatchCode_spec "room7" Examples.w_start))
             eq_refl).
  - exact (proj2 (proj2 (generateBatchCode_spec "room7"
                           (Examples.world (ui Examples.w_start)
                                           Examples.db_two_codes)))
             eq_refl).
Defined.

Lemma harvest_totals_sample :
  let summary :=
    Eff.eval (Batches.calculateHarvestSummary Accepted) Examples.w_harvest in
  Batches.HarvestSummary.total_harvest_lbs summary = Js.int 17
  /\ Batches.HarvestSummary.total_revenue summary = Js.int 260.
Proof.
  exact (proj2 (proj2 (harvest_totals Accepted Examples.w_harvest))
           "s1" "Kush" eq_refl).
Defined.

Lemma harvest_divisions_sample :
  let summary :=
    Eff.eval (Batches.calculateHarvestSummary Accepted) Examples.w_no_lights in
  (Batches.HarvestSummary.yield_per_light summary
   = Js.Finite (Js.quot (Js.int 0) (Js.int 1))
   /\ Batches.HarvestSummary.revenue_per_light summary
      = Js.Finite (Js.quot (Js.int 0) (Js.int 1)))
  /\ (Batches.HarvestSummary.cost_per_lb summary = Js.Finite (Js.int 0)
      /\ Batches.HarvestSummary.net_income_per_lb summary
         = Js.Finite (Js.int 0))
  /\ Batches.HarvestSummary.net_income_sales_ratio summary
     = Js.Finite (Js.int 0).
Proof.
  pose proof (harvest_divisions_guarded Accepted Examples.w_no_lights)
    as (_ & _ & Hlights & Hweight & Hrevenue).
  split; [exact (Hlights (or_intror eq_refl))|].
  split; [exact (Hweight eq_refl) | exact (Hrevenue eq_refl)].
Defined.

Lemma calculateCostToGrow_sample :
  Batches.find_room (ui Examples.w_costs) "room7" = Some Examples.room7
  /\ RoomRow.lights Examples.room7 = Some 10%Z
  /\ Batches.daysActive (clock Examples.w_costs) 20000 = 395%Z
  /\ Eff.eval (Batches.calculateCostToGrow Accepted "b1" "room7" 20000)
              Examples.w_costs
     = Js.nearest 10815499999999998 1000000000000
  /\ Eff.eval (Batches.calculateCostToGrow Refused "b1" "room7" 20000)
              Examples.w_costs = Js.int 0.
Proof.
  pose proof (calculateCostToGrow_spec "b1" "room7" 20000 10 Examples.room7
                Examples.w_costs eq_refl eq_refl)
    as (_ & _ & Hvalue & _ & _ & Hrefused & _).
  split; [reflexivity|]. split; [reflexivity|].
  split; [vm_compute; reflexivity|].
  split; [|exact Hrefused].
  rewrite Hvalue. vm_compute. reflexivity.
Defined.


Lemma strain_list_distinct_sample :
  Spec.reachable Examples.w_one
  /\ Spec.distinct_strains (Batches.batchStrains (ui Examples.w_one))
  /\ batch_strains (db Examples.w_submitted)
     = [BatchStrainRow.mk "b1" "s1" 5 (Js.int 50)].
Proof.
  pose proof (strain_list_distinct Examples.w_one w_one_reachable)
    as (Hdistinct & _ & _ & Hstored & _).
  split; [exact w_one_reachable|]. split; [exact Hdistinct|].
  apply (Hstored Examples.add_ok 20000%Z "b1");
    [reflexivity | discriminate | reflexivity | reflexivity | reflexivity].
Defined.

Lemma harvested_status_sample :
  Batches.find_batch (ui Examples.w_submitted) "b1" = Some Examples.b1
  /\ db Examples.w_dialog = db Examples.w_submitted
  /\ stored_status "b1" (db Examples.w_dialog) = Some planned
  /\ stored_status "b1"
       (db (Eff.exec (Batches.handleSaveHarvestData Examples.save_no_details)
                     Examples.w_dialog)) = Some planned
  /\ stored_status "b1"
       (db (Eff.exec (Batches.handleSaveHarvestData Examples.save_ok)
                     Examples.w_dialog)) = Some harvested
  /\ stored_status "b1"
       (db (Eff.exec (Batches.handleUpdateBatchStatus Examples.update_ok
                        "b1" active) Examples.w_submitted)) = Some active.
Proof.
  destruct harvested_status_is_gated as (Hselect & Hsave & Hdirect).
  destruct (Hselect Examples.update_ok Examples.w_submitted "b1" Examples.b1
              eq_refl) as (Hdb & _).
  destruct (Hsave Examples.save_no_details Examples.w_dialog Examples.b1
              eq_refl) as (Hrefused & _).
  destruct (Hsave Examples.save_ok Examples.w_dialog Examples.b1 eq_refl)
    as (_ & _ & Hdone).
  destruct (Hdirect Examples.update_ok Examples.w_submitted "b1" active)
    as (_ & Hactive); [discriminate | reflexivity |].
  split; [reflexivity|]. split; [exact Hdb|]. split; [reflexivity|].
  split; [exact (Hrefused (or_intror eq_refl) "b1")|].
  split; [exact (Hdone eq_refl eq_refl eq_refl planned eq_refl)|].
  exact (Hactive planned eq_refl).
Defined.

Lemma resave_sample :
  let w2 :=
    Eff.exec (Batches.handleSaveHarvestData Examples.save_ok)
      (Eff.exec (Batches.handleSaveHarvestData Examples.save_ok)
                Examples.w_dialog) in
  Batches.selectedBatchForHarvest (ui Examples.w_dialog) = Some Examples.b1
  /\ (exists row,
         Spec.summaries_of "b1" (db w2) = [row]
         /\ Spec.details_of "b1" (db w2)
            = Batches.harvestDetails (HarvestSummaryRow.id row)
                (Batches.harvestData (ui Examples.w_dialog)))
  /\ count_occ string_dec
       (map HarvestDetailRow.strain_id (Spec.details_of "b1" (db w2))) "s1"
     = 1%nat.
Proof.
  assert (Hkeys : Spec.keys_below_next (db Examples.w_dialog)).
  { split; intros x []. }
  assert (Hpersist : Spec.harvest_rows_persist Examples.save_ok).
  { repeat split. }
  destruct (resave_replaces_harvest_rows Examples.save_ok Examples.save_ok
              Examples.w_dialog Examples.b1 Hkeys eq_refl Hpersist)
    as (row & _ & Hsummary & Hdetails & _ & Hone & _).
  split; [reflexivity|]. split; [exists row; split; assumption|].
  apply Hone.
  - repeat constructor. intros [].
  - left. reflexivity.
Defined.

Lemma room_deletion_sample :
  let w := Eff.exec (Facility.loadRooms Accepted) Examples.w_facility in
  Spec.has_active_batch "room7" (db w)
  /\ Eff.exec (Facility.handleDeleteRoom Examples.delete_ok "room7") w = w
  /\ db (Eff.exec (Facility.handleDeleteRoom Examples.delete_ok "veg") w)
     = delete_room "veg" (db w).
Proof.
  intros w.
  assert (Hactive : Spec.has_active_batch "room7" (db w)).
  { eexists. split; [left; reflexivity | split; reflexivity]. }
  split; [exact Hactive|]. split.
  - destruct (room_deletion_guard Examples.w_facility "room7")
      as (_ & Hguard & _).
    + exists Examples.room7. split; [left; reflexivity | reflexivity].
    + exact (Hguard Hactive Examples.delete_ok).
  - destruct (room_deletion_guard Examples.w_facility "veg")
      as (_ & _ & Hdelete).
    + exists Examples.veg. split; [right; left; reflexivity | reflexivity].
    + destruct (Hdelete) with (o := Examples.delete_ok) as ((Hdb & _) & _);
        [|reflexivity | exact Hdb].
      intros b [<- | [<- | []]]; simpl; intros Hroom; discriminate.
Defined.

(** A refused cleanup is only logged: the save goes on, and the batch
    ends with the summary row of each save. *)
Example resave_after_refused_cleanup :
  let w2 :=
    Eff.exec (Batches.handleSaveHarvestData Examples.save_no_cleanup)
      (Eff.exec (Batches.handleSaveHarvestData Examples.save_ok)
                Examples.w_dialog) in
  map HarvestSummaryRow.id (Spec.summaries_of "b1" (db w2)) = [0%nat; 1%nat]
  /\ stored_status "b1" (db w2) = Some harvested.
Proof. split; reflexivity. Qed.

(** *** Loading the batches *)

Lemma loadBatches_db (o : Batches.LoadCalls) (w : Batches.W) :
  db (Eff.exec (Batches.loadBatches o) w) = db w
  /\ alerts (Eff.exec (Batches.loadBatches o) w) = alerts w.
Proof.
  unfold Eff.exec. destruct (loadBatches_run o w) as (l & ->). split; reflexivity.
Qed.

Lemma process_batch_aggregates (d : Db) (b : BatchRow.t) :
  let rows :=
    filter (fun r => String.eqb (BatchStrainRow.batch_id r) (BatchRow.id b))
           (batch_strains d) in
  let loaded :=
    Batches.process_batch
      (Batches.BatchJoin.mk b (Batches.join_room d b) (Batches.join_strain d b)
                            (Some (Batches.join_assignments d b))) in
  Batches.Batch.id loaded = BatchRow.id b
  /\ Batches.Batch.status loaded = BatchRow.status b
  /\ (rows <> [] ->
      Batches.Batch.lights_assigned loaded
      = Some (Spec.Zsum (map BatchStrainRow.lights_assigned rows))
      /\ Batches.Batch.strain_percentage loaded
         = Some (Spec.running_sum
                   (map (fun r => Js.or_num (BatchStrainRow.percentage r)
                                            (Js.int 0)) rows)))
  /\ (rows = [] ->
      Batches.Batch.lights_assigned loaded
      = Some (Js.or_Z (match Batches.join_room d b with
                       | Some room => RoomRow.lights room
                       | None => None
                       end) 0)
      /\ Batches.Batch.strain_percentage loaded = Some (Js.int 100)).
Proof.
  intros rows loaded. subst loaded.
  unfold Batches.process_batch, Batches.join_assignments. fold rows.
  cbv beta iota delta [Batches.BatchJoin.batch_strains Batches.BatchJoin.row
                       Batches.BatchJoin.rooms Batches.BatchJoin.strains].
  destruct rows as [|r rows'] eqn:Hrows.
  - cbv beta iota zeta.
    split; [reflexivity|]. split; [reflexivity|].
    split; [intros Hne; now elim Hne|]. intros _. split; reflexivity.
  - cbn [map]. cbv beta iota zeta.
    cbn [Batches.Batch.id Batches.Batch.status Batches.Batch.lights_assigned
         Batches.Batch.strain_percentage].
    split; [reflexivity|]. split; [reflexivity|]. split; [|discriminate].
    intros _. split.
    + f_equal.
      rewrite (reduce_Z_sum
                 (fun x => Js.or_Z (Some (Batches.Assignment.lights_assigned x)) 0)).
      cbn [map Spec.Zsum fold_right Batches.Assignment.lights_assigned].
      rewrite or_Z_zero, map_map. f_equal. f_equal.
      apply map_ext. intros a. apply or_Z_zero.
    + f_equal.
      rewrite (reduce_num_sum
                 (fun x => Js.or_num (Batches.Assignment.percentage x)
                                     (Js.int 0))).
      cbn [map Batches.Assignment.percentage]. rewrite map_map. reflexivity.
Qed.




(** *** Editing the strain list *)

Lemma filter_at_keep {A : Type} (k : nat) (l : list A) :
  forall i, (k < i)%nat ->
            Js.filter_at (fun j => negb (Nat.eqb j k)) i l = l.
Proof.
  induction l as [|x l IH]; intros i Hi; simpl; [reflexivity|].
  destruct (Nat.eqb_spec i k) as [->|_]; [lia|].
  simpl. f_equal. apply IH. lia.
Qed.

Lemma filter_at_remove {A : Type} (l : list A) :
  forall i n,
    Js.filter_at (fun j => negb (Nat.eqb j (i + n))) i l
    = (firstn n l ++ skipn (S n) l)%list.
Proof.
  induction l as [|x l IH]; intros i n; simpl.
  - now rewrite firstn_nil.
  - destruct n as [|n].
    + rewrite Nat.add_0_r, Nat.eqb_refl. simpl.
      apply filter_at_keep. lia.
    + destruct (Nat.eqb_spec i (i + S n)) as [E|_]; [lia|].
      simpl. f_equal.
      replace (i + S n)%nat with (S i + n)%nat by lia. apply IH.
Qed.

Lemma removeStrainFromBatch_run (w : Batches.W) (index : nat) :
  Eff.exec (Batches.removeStrainFromBatch index) w
  = set_ui (Batches.setBatchStrains
              (firstn index (Batches.batchStrains (ui w))
               ++ skipn (S index) (Batches.batchStrains (ui w)))%list) w.
Proof.
  unfold Batches.removeStrainFromBatch. run. cbv beta iota.
  pose proof (filter_at_remove (Batches.batchStrains (ui w)) 0 index) as H.
  simpl in H. now rewrite H.
Qed.

(** X3.  [removeStrainFromBatch] takes out the entry at the index and
    nothing else: the list becomes the entries before it followed by
    those after it, one shorter when the index is in range, and the
    same list when it is not. *)
Theorem removeStrainFromBatch_spec :
  forall (w : Batches.W) (index : nat),
    let l := Batches.batchStrains (ui w) in
    let w' := Eff.exec (Batches.removeStrainFromBatch index) w in
    w' = set_ui (Batches.setBatchStrains
                   (firstn index l ++ skipn (S index) l)%list) w
    /\ (forall s, nth_error l index = Some s ->
                  l = (firstn index l ++ s :: skipn (S index) l)%list
                  /\ S (List.length (Batches.batchStrains (ui w')))
                     = List.length l)
    /\ (nth_error l index = None -> Batches.batchStrains (ui w') = l).
Proof.
  intros w index l w'.
  assert (Hrun : w' = set_ui (Batches.setBatchStrains
                     (firstn index l ++ skipn (S index) l)%list) w)
    by apply removeStrainFromBatch_run.
  split; [exact Hrun|]. rewrite Hrun.
  cbn [ui set_ui Batches.batchStrains Batches.setBatchStrains].
  split.
  - intros s Hs.
    assert (Hsplit : l = (firstn index l ++ s :: skipn (S index) l)%list).
    { rewrite <- (firstn_skipn index l) at 1. f_equal.
      clear -Hs. revert index Hs.
      induction l as [|x l IH]; intros [|i] Hs; simpl in *;
        try discriminate.
      - now inversion Hs.
      - now apply IH. }
    split; [exact Hsplit|].
    rewrite Hsplit at 3. rewrite !length_app. simpl. lia.
  - intros Hnone. apply nth_error_None in Hnone.
    rewrite firstn_all2 by exact Hnone.
    rewrite skipn_all2 by lia. apply app_nil_r.
Qed.

Lemma no_lights_left_bounded (u : Batches.Ui) :
  Batches.no_lights_left u
  = match BatchesRest.bounded_capacity u with
    | Some c => (c - Batches.usedLights (Batches.batchStrains u) <=? 0)%Z
    | None => false
    end.
Proof.
  unfold Batches.no_lights_left, BatchesRest.bounded_capacity.
  destruct (String.eqb _ ""); [reflexivity|].
  destruct (Batches.find_room _ _) as [room|]; [|reflexivity].
  destruct (RoomRow.lights room) as [c|]; [|reflexivity].
  destruct (c =? 0)%Z; reflexivity.
Qed.

(** What [handleAddStrainToBatch] does when nothing stops it. *)
Lemma handleAddStrainToBatch_adds (w : Batches.W) (lights : Z)
  (pct : Js.number) (strain : StrainRow.t) :
  Batches.lightsForStrain (ui w) = Some lights ->
  Batches.percentageForStrain (ui w) = Some pct ->
  Batches.selectedStrain (ui w) <> "" ->
  Batches.no_lights_left (ui w) = false ->
  Js.find (fun s => String.eqb (StrainRow.id s) (Batches.selectedStrain (ui w)))
          (Batches.strains (ui w)) = Some strain ->
  Js.some (fun s => String.eqb (Batches.BatchStrain.strain_id s)
                               (Batches.selectedStrain (ui w)))
          (Batches.batchStrains (ui w)) = false ->
  Eff.exec Batches.handleAddStrainToBatch w
  = set_ui (fun u =>
              Batches.setPercentageForStrain None
                (Batches.setLightsForStrain None
                   (Batches.setSelectedStrain ""
                      (Batches.setBatchStrains
                         (Batches.batchStrains u
                          ++ [Batches.BatchStrain.mk
                                (Batches.selectedStrain u)
                                (StrainRow.name strain) lights pct])%list
                         u)))) w.
Proof.
  intros Hl Hp Hsel Hleft Hfind Hsome.
  apply String.eqb_neq in Hsel.
  unfold Batches.handleAddStrainToBatch. run.
  rewrite Hl, Hp, Hsel, Hleft, Hfind, Hsome. reflexivity.
Qed.

(** X4.  With the three fields filled, a strain of the catalogue
    selected that the list does not hold yet, and lights left, adding
    puts an entry with the selected strain, its name and the numbers
    of the fields at the end of the list, clears the fields, and shows
    no message; removing the last entry then gives the list back. *)
Theorem add_then_remove_strain :
  forall (w : Batches.W) (lights : Z) (pct : Js.number)
         (strain : StrainRow.t),
    Batches.lightsForStrain (ui w) = Some lights ->
    Batches.percentageForStrain (ui w) = Some pct ->
    Batches.selectedStrain (ui w) <> "" ->
    Batches.no_lights_left (ui w) = false ->
    Js.find (fun s => String.eqb (StrainRow.id s)
                                 (Batches.selectedStrain (ui w)))
            (Batches.strains (ui w)) = Some strain ->
    Js.some (fun s => String.eqb (Batches.BatchStrain.strain_id s)
                                 (Batches.selectedStrain (ui w)))
            (Batches.batchStrains (ui w)) = false ->
    let l := Batches.batchStrains (ui w) in
    let w' := Eff.exec Batches.handleAddStrainToBatch w in
    Batches.batchStrains (ui w')
    = (l ++ [Batches.BatchStrain.mk (Batches.selectedStrain (ui w))
                                    (StrainRow.name strain) lights pct])%list
    /\ Batches.selectedStrain (ui w') = ""
    /\ Batches.lightsForStrain (ui w') = None
    /\ Batches.percentageForStrain (ui w') = None
    /\ alerts w' = alerts w
    /\ db w' = db w
    /\ Batches.batchStrains
         (ui (Eff.exec (Batches.removeStrainFromBatch (List.length l)) w'))
       = l.
Proof.
  intros w lights pct strain Hl Hp Hsel Hleft Hfind Hsome l w'.
  assert (Hrun := handleAddStrainToBatch_adds w lights pct strain
                    Hl Hp Hsel Hleft Hfind Hsome).
  fold w' in Hrun.
  rewrite removeStrainFromBatch_run. rewrite Hrun.
  cbn [ui set_ui db alerts Batches.batchStrains Batches.setBatchStrains
       Batches.setSelectedStrain Batches.setLightsForStrain
       Batches.setPercentageForStrain Batches.selectedStrain
       Batches.lightsForStrain Batches.percentageForStrain].
  fold l. repeat (split; [reflexivity|]).
  rewrite skipn_all2 by (rewrite length_app; simpl; lia).
  rewrite firstn_app, Nat.sub_diag, firstn_all, firstn_O.
  now rewrite !app_nil_r.
Qed.

(** X5.  [handleAddStrainToBatch] never writes to the store, and it
    changes the page state only when the three fields are filled, no
    guard stops it, the strain is in the catalogue and not yet in the
    list.  With all the lights of a room of bounded capacity assigned
    it says so and changes nothing; for a strain missing from the
    catalogue it does nothing at all. *)
Theorem handleAddStrainToBatch_refusals :
  forall w : Batches.W,
    let u := ui w in
    let w' := Eff.exec Batches.handleAddStrainToBatch w in
    let filled :=
      Batches.lightsForStrain u <> None
      /\ Batches.percentageForStrain u <> None
      /\ Batches.selectedStrain u <> "" in
    db w' = db w
    /\ (ui w' <> ui w ->
        filled
        /\ Batches.no_lights_left u = false
        /\ Js.find (fun s => String.eqb (StrainRow.id s)
                                        (Batches.selectedStrain u))
                   (Batches.strains u) <> None
        /\ Js.some (fun s => String.eqb (Batches.BatchStrain.strain_id s)
                                        (Batches.selectedStrain u))
                   (Batches.batchStrains u) = false)
    /\ (forall C,
          BatchesRest.bounded_capacity u = Some C ->
          (C <= Batches.usedLights (Batches.batchStrains u))%Z ->
          filled ->
          w' = mkWorld u (db w) (clock w)
                 (alerts w
                  ++ ["No lights available. All lights have been assigned to strains."]))
    /\ (filled ->
        Batches.no_lights_left u = false ->
        Js.find (fun s => String.eqb (StrainRow.id s)
                                     (Batches.selectedStrain u))
                (Batches.strains u) = None ->
        w' = w).
Proof.
  intros w u w' filled. subst w' filled u.
  unfold Batches.handleAddStrainToBatch. run.
  destruct (Batches.lightsForStrain (ui w)) as [lights|] eqn:Hl.
  2:{ split; [reflexivity|]. split; [intros H; now elim H|].
      split; [intros C _ _ (H & _); now elim H | intros (H & _); now elim H]. }
  destruct (Batches.percentageForStrain (ui w)) as [pct|] eqn:Hp.
  2:{ split; [reflexivity|]. split; [intros H; now elim H|].
      split; [intros C _ _ (_ & H & _); now elim H
             | intros (_ & H & _); now elim H]. }
  destruct (String.eqb_spec (Batches.selectedStrain (ui w)) "") as [Hs|Hs].
  { split; [reflexivity|]. split; [intros H; now elim H|].
    split; [intros C _ _ (_ & _ & H); now elim H
           | intros (_ & _ & H); now elim H]. }
  rewrite no_lights_left_bounded.
  destruct (BatchesRest.bounded_capacity (ui w)) as [c|] eqn:Hc.
  - destruct (Z.leb_spec (c - Batches.usedLights (Batches.batchStrains (ui w))) 0)
      as [Hle|Hgt].
    + split; [reflexivity|]. split; [intros H; now elim H|].
      split; [reflexivity | discriminate].
    + destruct (Js.find _ (Batches.strains (ui w))) as [strain|] eqn:Hf.
      * destruct (Js.some _ _) eqn:Hsome.
        -- split; [reflexivity|]. split; [intros H; now elim H|].
           split; [|discriminate].
           intros C HC Hle _. inversion HC; subst. lia.
        -- split; [reflexivity|]. split.
           ++ intros _. repeat split; try discriminate; assumption.
           ++ split; [|discriminate].
              intros C HC Hle _. inversion HC; subst. lia.
      * split; [reflexivity|]. split; [intros H; now elim H|].
        split; [|intros; now destruct w].
        intros C HC Hle _. inversion HC; subst. lia.
  - destruct (Js.find _ (Batches.strains (ui w))) as [strain|] eqn:Hf.
    + destruct (Js.some _ _) eqn:Hsome.
      * split; [reflexivity|]. split; [intros H; now elim H|].
        split; [discriminate | discriminate].
      * split; [reflexivity|]. split.
        -- intros _. repeat split; try discriminate; assumption.
        -- split; discriminate.
    + split; [reflexivity|]. split; [intros H; now elim H|].
      split; [discriminate | intros; now destruct w].
Qed.




(** *** Submitting the form *)

Lemma handleAddBatch_run (o : Batches.AddCalls) (w : Batches.W)
  (start : Z) (key : string) (first : Batches.BatchStrain.t)
  (rest : list Batches.BatchStrain.t) :
  Batches.NewBatch.start_date (Batches.newBatch (ui w)) = Some start ->
  Batches.NewBatch.room_id (Batches.newBatch (ui w)) <> "" ->
  Eff.eval Batches.validateBatchStrains w = true ->
  Batches.add_batch o = Some key ->
  Batches.batchStrains (ui w) = first :: rest ->
  let form := Batches.newBatch (ui w) in
  let row :=
    BatchRow.mk key (Some (Batches.NewBatch.room_id form))
      (Some (Batches.BatchStrain.strain_id first))
      (Some (SpecMore.batch_code_for o w)) start
      (Batches.NewBatch.expected_harvest form)
      (Batches.NewBatch.status form) in
  Eff.exec (Batches.handleAddBatch o) w
  = set_ui (Batches.setBatchStrains [])
      (set_ui (Batches.setNewBatch Batches.NewBatch.blank)
         (Eff.exec (Batches.loadBatches (Batches.add_reload o))
            (set_db (SpecMore.added o w key row) w))).
Proof.
  intros Hstart Hroom Hvalid Hkey Hl form row.
  destruct (validate_true_run w Hvalid) as (Hrun & Hne).
  apply String.eqb_neq in Hroom.
  unfold Batches.handleAddBatch, Eff.exec.
  unfold Eff.bind at 1. unfold Batches.state at 1.
  rewrite Hstart, Hroom.
  unfold Eff.bind at 1. rewrite Hrun. cbv beta iota.
  change (negb true) with false. cbv iota.
  unfold Eff.bind at 1.
  set (codeAct := if negb (Batches.NewBatch.batch_code _ =? "") then _ else _).
  assert (Hc : codeAct w = (SpecMore.batch_code_for o w, w)).
  { subst codeAct. unfold SpecMore.batch_code_for. cbv zeta.
    destruct (negb _); [reflexivity|].
    destruct (Batches.find_room _ _) as [room|]; [|reflexivity].
    pose proof (generateBatchCode_reads (Batches.add_codes o)
                  (RoomRow.name room) (RoomRow.id room) w) as Hg.
    unfold Eff.eval.
    destruct (Batches.generateBatchCode _ _ _ w) as [c w1]. simpl in Hg.
    subst. reflexivity. }
  cbv beta. rewrite Hc, Hl, Hkey. fold form. fold row.
  unfold SpecMore.added. rewrite Hl. run.
  destruct (Batches.add_strains o); cbv beta iota;
    match goal with
    | |- snd (let (_, _) := Batches.loadBatches ?lo ?w1 in _)
         = set_ui _ (set_ui _ (snd (Batches.loadBatches _ ?w3))) =>
        change w3 with w1; destruct (Batches.loadBatches lo w1) as [[] w2]
    end; reflexivity.
Qed.

Lemma validate_true_nonempty (w : Batches.W) :
  Eff.eval Batches.validateBatchStrains w = true ->
  exists first rest, Batches.batchStrains (ui w) = first :: rest.
Proof.
  intros H. destruct (validate_true_run w H) as (_ & Hne).
  destruct (Batches.batchStrains (ui w)) as [|first rest];
    [now elim Hne | eauto].
Qed.


Lemma loadBatches_clock (o : Batches.LoadCalls) (w : Batches.W) :
  clock (Eff.exec (Batches.loadBatches o) w) = clock w.
Proof.
  unfold Eff.exec. destruct (loadBatches_run o w) as (l & ->). reflexivity.
Qed.

Lemma added_batches (o : Batches.AddCalls) (w : Batches.W) (key : string)
  (row : BatchRow.t) :
  Store.batches (SpecMore.added o w key row)
  = (Store.batches (db w) ++ [row])%list.
Proof.
  unfold SpecMore.added. destruct (Batches.add_strains o); reflexivity.
Qed.

(** X8.  Batch codes of a room advance with the batches stored: when a
    submission with an empty code field is accepted for a room that
    has [n] codes of the year, the batch is stored under sequence
    number [n + 1], and the next code generated for that room carries
    [n + 2]. *)
Theorem batch_codes_advance :
  forall (o : Batches.AddCalls) (w : Batches.W) (start : Z) (key : string)
         (room : RoomRow.t),
    Batches.NewBatch.start_date (Batches.newBatch (ui w)) = Some start ->
    Batches.NewBatch.room_id (Batches.newBatch (ui w)) <> "" ->
    Eff.eval Batches.validateBatchStrains w = true ->
    Batches.add_batch o = Some key ->
    Batches.add_codes o = Accepted ->
    Batches.NewBatch.batch_code (Batches.newBatch (ui w)) = "" ->
    Batches.find_room (ui w)
      (Batches.NewBatch.room_id (Batches.newBatch (ui w))) = Some room ->
    let digits :=
      match Js.match_digits (RoomRow.name room) with
      | Some d => d
      | None => "1"
      end in
    let prefix :=
      ("R" ++ digits) ++ "-" ++ Js.String_of_Z (Js.getFullYear (clock w))
      ++ "-" in
    let n := List.length (select_batch_codes (RoomRow.id room) prefix (db w)) in
    let w' := Eff.exec (Batches.handleAddBatch o) w in
    (exists row,
        Store.batches (db w') = (Store.batches (db w) ++ [row])%list
        /\ BatchRow.id row = key
        /\ BatchRow.batch_code row
           = Some (prefix ++ Js.padStart0 2 (Js.String_of_nat (n + 1))))
    /\ Eff.eval (Batches.generateBatchCode Accepted (RoomRow.name room)
                   (RoomRow.id room)) w'
       = prefix ++ Js.padStart0 2 (Js.String_of_nat (n + 2)).
Proof.
  intros o w start key room Hstart Hroom Hvalid Hkey Hcodes Hblank Hfind
         digits prefix n w'.
  destruct (validate_true_nonempty w Hvalid) as (first & rest & Hl).
  pose proof (handleAddBatch_run o w start key first rest
                Hstart Hroom Hvalid Hkey Hl) as Hrun.
  cbv zeta in Hrun. fold w' in Hrun.
  set (row := BatchRow.mk key _ _ _ _ _ _) in Hrun.
  set (w_ins := set_db (SpecMore.added o w key row) w) in Hrun.
  destruct (loadBatches_db (Batches.add_reload o) w_ins) as (Hdb & _).
  pose proof (loadBatches_clock (Batches.add_reload o) w_ins) as Hclock.
  assert (Hdb' : Store.batches (db w') = (Store.batches (db w) ++ [row])%list).
  { rewrite Hrun. cbn [db set_ui]. rewrite Hdb. subst w_ins. cbn [db set_db].
    apply added_batches. }
  assert (Hclock' : clock w' = clock w).
  { rewrite Hrun. cbn [clock set_ui]. rewrite Hclock. reflexivity. }
  assert (Hcode : SpecMore.batch_code_for o w
                  = prefix ++ Js.padStart0 2 (Js.String_of_nat (n + 1))).
  { unfold SpecMore.batch_code_for. cbv zeta. rewrite Hblank, Hfind, Hcodes.
    cbn [String.eqb negb].
    unfold Batches.generateBatchCode. run. cbn [fst].
    fold digits. subst n prefix. unfold select_batch_codes.
    rewrite length_map, !append_assoc. reflexivity. }
  assert (Hid : RoomRow.id room
                = Batches.NewBatch.room_id (Batches.newBatch (ui w))).
  { unfold Batches.find_room, Js.find in Hfind.
    apply find_some in Hfind. destruct Hfind as (_ & Hfind).
    now apply String.eqb_eq in Hfind. }
  split.
  - exists row. split; [exact Hdb'|]. split; [reflexivity|].
    subst row. cbn [BatchRow.batch_code]. now rewrite Hcode.
  - unfold Batches.generateBatchCode. run. cbn [fst].
    rewrite Hclock'. fold digits. fold prefix.
    unfold select_batch_codes at 1. rewrite Hdb', filter_app, map_app, length_app.
    assert (Hmatch :
      filter (fun b => opt_eqb (BatchRow.room_id b) (RoomRow.id room)
                       && like_prefix (BatchRow.batch_code b) prefix) [row]
      = [row]).
    { cbn [filter]. subst row. cbn [BatchRow.room_id BatchRow.batch_code].
      rewrite Hcode. cbn [opt_eqb like_prefix].
      rewrite Hid, String.eqb_refl, prefix_append. reflexivity. }
    rewrite Hmatch. cbn [map List.length].
    unfold n, select_batch_codes. rewrite !length_map, !append_assoc.
    replace (List.length
               (filter (fun b => opt_eqb (BatchRow.room_id b) (RoomRow.id room)
                                 && like_prefix (BatchRow.batch_code b) prefix)
                       (Store.batches (db w))) + 1 + 1)%nat
      with (List.length
              (filter (fun b => opt_eqb (BatchRow.room_id b) (RoomRow.id room)
                                && like_prefix (BatchRow.batch_code b) prefix)
                      (Store.batches (db w))) + 2)%nat by lia.
    symmetry. unfold prefix at 1. rewrite !append_assoc. reflexivity.
Qed.

(** *** The harvest dialog *)

Lemma initialData_blank (batch : Batches.Batch.t) :
  forall h, In h (Batches.initialData batch) -> SpecMore.blank_entry h.
Proof.
  intros h Hin field. unfold Batches.initialData in Hin.
  assert (Hmap : forall (l : list Batches.Assignment.t),
    In h (map (fun assignment =>
                 Batches.blank_harvest (Batches.Assignment.strain_id assignment)
                   (Js.or_string (Batches.Assignment.strains_name assignment)
                      (Js.or_string (Batches.Assignment.strain_name assignment)
                                    "Unknown Strain"))) l) ->
    SpecMore.field_value field h = Js.int 0).
  { intros l Hl. apply in_map_iff in Hl. destruct Hl as (a & <- & _).
    destruct field; reflexivity. }
  destruct (Batches.Batch.batch_strains batch) as [[|a rest]|].
  - destruct (Batches.truthy_name _); [|now elim Hin].
    destruct Hin as [<-|[]]. destruct field; reflexivity.
  - now apply (Hmap (a :: rest)).
  - destruct (Batches.truthy_name _); [|now elim Hin].
    destruct Hin as [<-|[]]. destruct field; reflexivity.
Qed.

Lemma blank_totals (l : list Batches.HarvestData.t) :
  (forall h, In h l -> SpecMore.blank_entry h) ->
  Batches.totalHarvest l = Js.int 0 /\ Batches.totalRevenue l = Js.int 0.
Proof.
  intros Hblank. unfold Batches.totalHarvest, Batches.totalRevenue.
  induction l as [|h l IH]; [split; reflexivity|].
  destruct IH as (IH1 & IH2); [intros x Hx; apply Hblank; now right|].
  assert (Hh := Hblank h (or_introl eq_refl)).
  pose proof (Hh BatchesRest.HarvestField.bigs_lbs) as Hb.
  pose proof (Hh BatchesRest.HarvestField.smalls_lbs) as Hs.
  pose proof (Hh BatchesRest.HarvestField.micros_lbs) as Hm.
  pose proof (Hh BatchesRest.HarvestField.bigs_price_per_lb) as Hbp.
  pose proof (Hh BatchesRest.HarvestField.smalls_price_per_lb) as Hsp.
  pose proof (Hh BatchesRest.HarvestField.micros_price_per_lb) as Hmp.
  cbn [SpecMore.field_value] in Hb, Hs, Hm, Hbp, Hsp, Hmp.
  cbn [fold_left]. rewrite Hb, Hs, Hm, Hbp, Hsp, Hmp.
  change (Js.add (Js.add (Js.add (Js.int 0) (Js.int 0)) (Js.int 0)) (Js.int 0))
    with (Js.int 0).
  change (Js.add
            (Js.add (Js.add (Js.int 0) (Js.mul (Js.int 0) (Js.int 0)))
                    (Js.mul (Js.int 0) (Js.int 0)))
            (Js.mul (Js.int 0) (Js.int 0)))
    with (Js.int 0).
  split; assumption.
Qed.

(** X9.  Selecting [harvested] for a loaded batch opens the harvest
    dialog on blank data: one entry per assignment of the batch, in
    order and under the assignment's strain, or, for a batch without
    assignments, one entry under its primary strain when it shows a
    strain name and none otherwise; every weight and price is zero, so
    the totals are zero; no summary is shown and nothing counts as
    saved. *)
Theorem harvest_dialog_opens_blank :
  forall (o : Batches.UpdateCalls) (w : Batches.W) (batchId : string)
         (batch : Batches.Batch.t),
    Batches.find_batch (ui w) batchId = Some batch ->
    let w' := Eff.exec (Batches.handleUpdateBatchStatus o batchId harvested) w in
    let entries := Batches.harvestData (ui w') in
    (forall h, In h entries -> SpecMore.blank_entry h)
    /\ (Batches.totalHarvest entries = Js.int 0
        /\ Batches.totalRevenue entries = Js.int 0)
    /\ (forall a rest,
          Batches.Batch.batch_strains batch = Some (a :: rest) ->
          map Batches.HarvestData.strain_id entries
          = map Batches.Assignment.strain_id (a :: rest))
    /\ (Batches.Batch.batch_strains batch = None
        \/ Batches.Batch.batch_strains batch = Some [] ->
        map Batches.HarvestData.strain_id entries
        = if Batches.truthy_name (Batches.Batch.strain_name batch)
          then [Js.or_string (Batches.Batch.strain_id batch) ""]
          else [])
    /\ Batches.harvestSummary (ui w') = None
    /\ Batches.harvestDataSaved (ui w') = false
    /\ Batches.viewingExistingHarvest (ui w') = false
    /\ alerts w' = alerts w.
Proof.
  intros o w batchId batch Hfind w' entries.
  assert (Hrun : entries = Batches.initialData batch
                 /\ Batches.harvestSummary (ui w') = None
                 /\ Batches.harvestDataSaved (ui w') = false
                 /\ Batches.viewingExistingHarvest (ui w') = false
                 /\ alerts w' = alerts w).
  { subst entries w'.
    unfold Batches.handleUpdateBatchStatus, Batches.initializeHarvestData.
    run. rewrite Hfind. repeat split; reflexivity. }
  destruct Hrun as (-> & Hsum & Hsaved & Hview & Halerts).
  split; [apply initialData_blank|].
  split; [apply blank_totals, initialData_blank|].
  split.
  { intros a rest Hb. unfold Batches.initialData. rewrite Hb.
    rewrite map_map. reflexivity. }
  split.
  { intros Hnone. unfold Batches.initialData.
    destruct Hnone as [-> | ->];
      destruct (Batches.truthy_name _); reflexivity. }
  auto.
Qed.

(** *** The batch table *)

Lemma find_batch_In (u : Batches.Ui) (b : Batches.Batch.t) :
  In b (Batches.batches u) ->
  exists found, Batches.find_batch u (Batches.Batch.id b) = Some found.
Proof.
  unfold Batches.find_batch, Js.find.
  induction (Batches.batches u) as [|x l IH]; intros Hin; [now elim Hin|].
  simpl. destruct (String.eqb_spec (Batches.Batch.id x) (Batches.Batch.id b))
    as [E|E]; [eauto|].
  destruct Hin as [->|Hin]; [now elim E | now apply IH].
Qed.

(** X10.  [getFilteredBatches] shows all the loaded batches under
    [all], and under a status exactly the loaded batches of that
    status, in their order; under any other text it shows none.  For
    every batch it shows, selecting [harvested] in its row writes
    nothing to the store. *)
Theorem getFilteredBatches_spec :
  forall (activeFilter : string) (w : Batches.W),
    let shown := BatchesRest.getFilteredBatches activeFilter (ui w) in
    (activeFilter = "all" -> shown = Batches.batches (ui w))
    /\ (forall s,
          activeFilter = BatchesRest.status_text s ->
          shown = filter (fun b => Status_eqb (Batches.Batch.status b) s)
                         (Batches.batches (ui w)))
    /\ (activeFilter <> "all" ->
        (forall s, activeFilter <> BatchesRest.status_text s) ->
        shown = [])
    /\ (forall b, In b shown -> In b (Batches.batches (ui w)))
    /\ (forall b o,
          In b shown ->
          db (Eff.exec (Batches.handleUpdateBatchStatus o (Batches.Batch.id b)
                          harvested) w) = db w).
Proof.
  intros activeFilter w shown. subst shown.
  unfold BatchesRest.getFilteredBatches.
  assert (Hin : forall b,
    In b (if activeFilter =? "all" then Batches.batches (ui w)
          else filter (fun batch =>
                         BatchesRest.status_text (Batches.Batch.status batch)
                         =? activeFilter) (Batches.batches (ui w))) ->
    In b (Batches.batches (ui w))).
  { intros b. destruct (activeFilter =? "all"); [auto|].
    intros H. now apply filter_In in H. }
  split; [intros ->; reflexivity|].
  split.
  { intros s ->.
    assert (Hne : (BatchesRest.status_text s =? "all") = false)
      by (destruct s; reflexivity).
    rewrite Hne. apply filter_ext. intros b.
    destruct (Batches.Batch.status b), s; reflexivity. }
  split.
  { intros Hall Hnone. apply String.eqb_neq in Hall. rewrite Hall.
    apply filter_none. intros b _. apply String.eqb_neq.
    intros E. now apply (Hnone (Batches.Batch.status b)). }
  split; [exact Hin|].
  intros b o Hb. apply Hin in Hb.
  destruct (find_batch_In (ui w) b Hb) as (found & Hfound).
  unfold Batches.handleUpdateBatchStatus, Batches.initializeHarvestData.
  run. rewrite Hfound. reflexivity.
Qed.

(** *** Editing the harvest entries *)

Lemma with_field_value (field field' : BatchesRest.HarvestField.t)
  (value : Js.number)
  (data : Batches.HarvestData.t) :
  Batches.HarvestData.strain_id (BatchesRest.with_field field value data)
  = Batches.HarvestData.strain_id data
  /\ Batches.HarvestData.strain_name (BatchesRest.with_field field value data)
     = Batches.HarvestData.strain_name data
  /\ SpecMore.field_value field (BatchesRest.with_field field value data)
     = value
  /\ (field' <> field ->
      SpecMore.field_value field' (BatchesRest.with_field field value data)
      = SpecMore.field_value field' data).
Proof.
  destruct field, field'; repeat split; try reflexivity;
    intros H; now elim H.
Qed.

(** X11.  [updateHarvestData] sets the given field to the given value
    in every entry of the given strain and touches nothing else: the
    entries keep their number, order, strains and names, the other
    five fields keep their values, and the entries of other strains
    are the same.  Setting a price leaves the total weight as it was. *)
Theorem updateHarvestData_spec :
  forall (w : Batches.W) (strainId : string)
         (field : BatchesRest.HarvestField.t) (value : Js.number),
    let old := Batches.harvestData (ui w) in
    let w' := Eff.exec (BatchesRest.updateHarvestData strainId field value) w in
    let new := Batches.harvestData (ui w') in
    w' = set_ui (Batches.setHarvestData new) w
    /\ map Batches.HarvestData.strain_id new
       = map Batches.HarvestData.strain_id old
    /\ map Batches.HarvestData.strain_name new
       = map Batches.HarvestData.strain_name old
    /\ (forall field', field' <> field ->
          map (SpecMore.field_value field') new
          = map (SpecMore.field_value field') old)
    /\ (forall h, In h new -> Batches.HarvestData.strain_id h = strainId ->
                  SpecMore.field_value field h = value)
    /\ (forall h, Batches.HarvestData.strain_id h <> strainId ->
                  (In h new <-> In h old))
    /\ (SpecMore.is_price field = true ->
        Batches.totalHarvest new = Batches.totalHarvest old).
Proof.
  intros w strainId field value old w' new.
  set (f := fun data =>
              if String.eqb (Batches.HarvestData.strain_id data) strainId
              then BatchesRest.with_field field value data else data).
  assert (Hnew : new = map f old) by reflexivity.
  split; [reflexivity|]. rewrite Hnew.
  split.
  { rewrite map_map. apply map_ext. intros h. unfold f.
    destruct (String.eqb _ _); [|reflexivity].
    apply (with_field_value field field value h). }
  split.
  { rewrite map_map. apply map_ext. intros h. unfold f.
    destruct (String.eqb _ _); [|reflexivity].
    apply (with_field_value field field value h). }
  split.
  { intros field' Hne. rewrite map_map. apply map_ext. intros h. unfold f.
    destruct (String.eqb _ _); [|reflexivity].
    now apply (with_field_value field field' value h). }
  split.
  { intros h Hin Hid. apply in_map_iff in Hin.
    destruct Hin as (x & <- & _). unfold f in *.
    destruct (String.eqb_spec (Batches.HarvestData.strain_id x) strainId)
      as [E|E].
    - apply (with_field_value field field value x).
    - now elim E. }
  split.
  { intros h Hid. rewrite in_map_iff. split.
    - intros (x & Hx & Hin). unfold f in Hx.
      destruct (String.eqb_spec (Batches.HarvestData.strain_id x) strainId)
        as [E|E]; [|now subst].
      subst h. elim Hid.
      rewrite <- E. apply (with_field_value field field value x).
    - intros Hin. exists h. split; [|exact Hin]. unfold f.
      apply String.eqb_neq in Hid. now rewrite Hid. }
  intros Hprice. unfold Batches.totalHarvest. clear Hnew.
  generalize (Js.int 0). induction old as [|h l IH]; intros acc; [reflexivity|].
  cbn [map fold_left]. rewrite IH. f_equal. unfold f.
  destruct (String.eqb _ _); [|reflexivity].
  destruct field; try discriminate Hprice; reflexivity.
Qed.

(** *** Deleting a batch *)

Lemma loadBatches_ids (o : Batches.LoadCalls) (w : Batches.W) :
  Batches.load_full o = Accepted \/ Batches.load_basic o = Accepted ->
  map Batches.Batch.id (Batches.batches (ui (Eff.exec (Batches.loadBatches o) w)))
  = map BatchRow.id (Store.batches (db w)).
Proof.
  intros Hload. unfold Batches.loadBatches. run.
  destruct (Batches.load_full o).
  - cbn. unfold Batches.select_batches_full. rewrite !map_map.
    apply map_ext. intros b. apply (process_batch_aggregates (db w) b).
  - destruct Hload as [Hload | ->]; [discriminate|].
    cbn. unfold Batches.select_batches_basic. rewrite !map_map.
    apply map_ext. reflexivity.
Qed.

(** X12.  [handleDeleteBatch] does nothing when the confirmation is
    declined.  A refused delete shows a message and changes neither
    the store nor the page.  An accepted delete removes from
    [batches] the rows with that id and no other row, and once the
    batches reload no loaded batch carries the id. *)
Theorem handleDeleteBatch_spec :
  forall (o : BatchesRest.DeleteCalls) (w : Batches.W) (batchId : string),
    Eff.exec (BatchesRest.handleDeleteBatch false o batchId) w = w
    /\ (BatchesRest.del_batch o = Refused ->
        Eff.exec (BatchesRest.handleDeleteBatch true o batchId) w
        = mkWorld (ui w) (db w) (clock w)
            (alerts w ++ ["Error deleting batch. Please try again."]))
    /\ (BatchesRest.del_batch o = Accepted ->
        let w' := Eff.exec (BatchesRest.handleDeleteBatch true o batchId) w in
        Store.batches (db w')
        = filter (fun b => negb (String.eqb (BatchRow.id b) batchId))
                 (Store.batches (db w))
        /\ stored_status batchId (db w') = None
        /\ (forall other, other <> batchId ->
              stored_status other (db w') = stored_status other (db w))
        /\ alerts w' = alerts w
        /\ (Batches.load_full (BatchesRest.del_reload o) = Accepted
            \/ Batches.load_basic (BatchesRest.del_reload o) = Accepted ->
            forall b, In b (Batches.batches (ui w')) ->
                      Batches.Batch.id b <> batchId)).
Proof.
  intros o w batchId. split; [reflexivity|]. split.
  - intros Hdel. unfold BatchesRest.handleDeleteBatch. run.
    rewrite Hdel. reflexivity.
  - intros Hdel w'.
    set (w1 := set_db (BatchesRest.delete_batch batchId (db w)) w).
    assert (Hrun : w' = Eff.exec (Batches.loadBatches (BatchesRest.del_reload o))
                                 w1).
    { subst w'. unfold BatchesRest.handleDeleteBatch. run.
      rewrite Hdel. reflexivity. }
    destruct (loadBatches_db (BatchesRest.del_reload o) w1) as (Hdb & Hal).
    rewrite <- Hrun in Hdb, Hal.
    assert (Hb : Store.batches (db w')
                 = filter (fun b => negb (String.eqb (BatchRow.id b) batchId))
                          (Store.batches (db w))).
    { rewrite Hdb. reflexivity. }
    split; [exact Hb|]. split.
    { unfold stored_status. rewrite Hb.
      destruct (List.find _ _) as [b|] eqn:E; [|reflexivity].
      apply find_some in E. destruct E as (E1 & E2).
      apply filter_In in E1. destruct E1 as (_ & E1).
      rewrite E2 in E1. discriminate. }
    split.
    { intros other Hother. unfold stored_status. rewrite Hb. f_equal.
      clear - Hother.
      induction (Store.batches (db w)) as [|b l IH]; [reflexivity|].
      simpl. destruct (String.eqb_spec (BatchRow.id b) batchId) as [E|E];
        simpl.
      - destruct (String.eqb_spec (BatchRow.id b) other) as [E'|E'];
          [congruence | exact IH].
      - destruct (String.eqb (BatchRow.id b) other); [reflexivity | exact IH]. }
    split; [exact Hal|].
    intros Hload b Hin Hid.
    assert (Hids : map Batches.Batch.id (Batches.batches (ui w'))
                   = map BatchRow.id (Store.batches (db w1))).
    { rewrite Hrun. now apply loadBatches_ids. }
    assert (Hmem : In batchId (map BatchRow.id (Store.batches (db w1)))).
    { rewrite <- Hids, <- Hid. now apply in_map. }
    apply in_map_iff in Hmem. destruct Hmem as (row & Hrow & Hin').
    subst w1. cbn in Hin'. apply filter_In in Hin'.
    destruct Hin' as (_ & Hneq). rewrite Hrow, String.eqb_refl in Hneq.
    discriminate.
Qed.

(** *** Viewing a stored harvest *)

Ltac run_view :=
  unfold BatchesRest.query_rows; run.

(** What [loadExistingHarvestData] does when the three reads are
    accepted and the batch has exactly one summary row. *)
Lemma loadExistingHarvestData_one (o : BatchesRest.ViewCalls) (w : Batches.W)
  (batch : Batches.Batch.t) (row : HarvestSummaryRow.t) :
  SpecMore.harvest_rows_read o ->
  BatchesRest.select_summaries (Batches.Batch.id batch) (db w) = [row] ->
  let fromDB :=
    BatchesRest.harvestDataFromDB
      (BatchesRest.select_details (HarvestSummaryRow.id row) (db w)) in
  let w' := Eff.exec (BatchesRest.loadExistingHarvestData o batch) w in
  Eff.eval (BatchesRest.loadExistingHarvestData o batch) w = true
  /\ db w' = db w
  /\ alerts w' = alerts w
  /\ Batches.harvestData (ui w') = fromDB
  /\ Batches.harvestDataSaved (ui w') = true
  /\ Batches.viewingExistingHarvest (ui w') = true
  /\ exists summary,
       Batches.harvestSummary (ui w') = Some summary
       /\ Batches.HarvestSummary.total_harvest_lbs summary
          = HarvestSummaryRow.total_harvest_lbs row
       /\ Batches.HarvestSummary.yield_per_light summary
          = HarvestSummaryRow.yield_per_light row
       /\ Batches.HarvestSummary.total_revenue summary
          = Js.mul (Batches.totalHarvest fromDB) (Js.int 100)
       /\ Batches.HarvestSummary.harvest_data summary = fromDB.
Proof.
  intros (Hc & Hs & Hd) Hrows fromDB w'. subst w' fromDB.
  unfold BatchesRest.loadExistingHarvestData. run_view.
  rewrite Hc, Hs, Hd, Hrows. cbn [JsMore.maybeSingle]. cbv beta iota.
  rewrite Hrows. cbn [JsMore.single]. cbv beta iota.
  match goal with
  | |- context [Batches.calculateCostToGrow ?a ?b ?c ?d ?w1] =>
      pose proof (calculateCostToGrow_reads a b c d w1) as Hcost;
      destruct (Batches.calculateCostToGrow a b c d w1) as [cost w2]
  end.
  simpl in Hcost. subst w2. cbn.
  repeat split; try reflexivity. eexists. repeat split; reflexivity.
Qed.

(** [loadExistingHarvestData] answers false and changes nothing unless
    the three reads are accepted and the batch has one summary row. *)
Lemma loadExistingHarvestData_none (o : BatchesRest.ViewCalls) (w : Batches.W)
  (batch : Batches.Batch.t) :
  ~ SpecMore.harvest_rows_read o
  \/ List.length (BatchesRest.select_summaries (Batches.Batch.id batch) (db w))
     <> 1%nat ->
  BatchesRest.loadExistingHarvestData o batch w = (false, w).
Proof.
  intros H. unfold BatchesRest.loadExistingHarvestData. run_view.
  destruct (BatchesRest.view_check o) eqn:Hc; [|reflexivity].
  destruct (BatchesRest.select_summaries (Batches.Batch.id batch) (db w))
    as [|row [|row' rows]] eqn:Hrows; cbn [JsMore.maybeSingle];
    try reflexivity.
  destruct (BatchesRest.view_summary o) eqn:Hs; [|reflexivity].
  rewrite Hrows. cbn [JsMore.single]. cbv beta iota.
  destruct (BatchesRest.view_details o) eqn:Hd; [|reflexivity].
  destruct H as [H|H]; [elim H; repeat split; assumption | now elim H].
Qed.

Lemma saved_summary_row (o : Batches.SaveCalls) (w : Batches.W)
  (b : Batches.Batch.t) :
  Spec.harvest_rows_persist o ->
  Spec.keys_below_next (db w) ->
  let summary := Spec.summary_of (Batches.save_costs o) w in
  let row :=
    HarvestSummaryRow.mk (next_summary_id (db w)) (Batches.Batch.id b)
      (Batches.HarvestSummary.total_harvest_lbs summary)
      (Batches.HarvestSummary.yield_per_light summary)
      (Js.or_Z (Batches.Batch.lights_assigned b) 0)
      (Js.iso_day (clock w)) in
  BatchesRest.select_summaries (Batches.Batch.id b) (Spec.saved o w b) = [row]
  /\ BatchesRest.select_details (next_summary_id (db w)) (Spec.saved o w b)
     = Batches.harvestDetails (next_summary_id (db w))
                              (Batches.harvestData (ui w)).
Proof.
  intros Hp (Hks & Hkd) summary row.
  destruct (saved_rows o w b Hp) as (Hs & Hd & _).
  unfold BatchesRest.select_summaries, BatchesRest.select_details.
  rewrite Hs, Hd, !filter_app. split.
  - rewrite filter_filter_neg. cbn [filter HarvestSummaryRow.batch_id].
    rewrite String.eqb_refl. reflexivity.
  - rewrite filter_none, filter_all; [reflexivity| |].
    + intros r Hr. apply harvestDetails_key in Hr. rewrite Hr.
      apply Nat.eqb_refl.
    + intros r Hr. apply filter_In in Hr. destruct Hr as (Hr & _).
      apply Hkd in Hr. apply Nat.eqb_neq. lia.
Qed.

(** X13.  A harvest that was saved can be viewed: after a save whose
    cleanup and inserts are accepted, [loadExistingHarvestData] with
    its reads accepted answers true and shows the saved entries with
    their weights (a weight that is zero or NaN read as 0) and with
    every price at zero, the total weight and the yield per light of
    the save, and as revenue 100 times the sum of the weights shown,
    whatever the prices of the save were.  It writes nothing to the
    store. *)
Theorem saved_harvest_is_viewed_without_prices :
  forall (os : Batches.SaveCalls) (ov : BatchesRest.ViewCalls)
         (w : Batches.W) (batch : Batches.Batch.t),
    Spec.keys_below_next (db w) ->
    Batches.selectedBatchForHarvest (ui w) = Some batch ->
    Spec.harvest_rows_persist os ->
    SpecMore.harvest_rows_read ov ->
    let entries := Batches.harvestData (ui w) in
    let w1 := Eff.exec (Batches.handleSaveHarvestData os) w in
    let w2 := Eff.exec (BatchesRest.loadExistingHarvestData ov batch) w1 in
    Eff.eval (BatchesRest.loadExistingHarvestData ov batch) w1 = true
    /\ db w2 = db w1
    /\ Batches.harvestData (ui w2) = map SpecMore.without_prices entries
    /\ Batches.viewingExistingHarvest (ui w2) = true
    /\ exists summary,
         Batches.harvestSummary (ui w2) = Some summary
         /\ Batches.HarvestSummary.total_harvest_lbs summary
            = Batches.totalHarvest entries
         /\ Batches.HarvestSummary.yield_per_light summary
            = Js.div_count (Batches.totalHarvest entries)
                           (Batches.totalLights (Some batch))
         /\ Batches.HarvestSummary.total_revenue summary
            = Js.mul (Batches.totalHarvest
                        (map SpecMore.without_prices entries))
                     (Js.int 100).
Proof.
  intros os ov w batch Hkeys Hsel Hpersist Hread entries w1 w2.
  destruct (handleSaveHarvestData_run os w batch Hsel) as (Hdb & _).
  fold w1 in Hdb.
  destruct (saved_summary_row os w batch Hpersist Hkeys) as (Hsum & Hdet).
  rewrite <- Hdb in Hsum, Hdet.
  set (row := HarvestSummaryRow.mk _ _ _ _ _ _) in Hsum.
  destruct (loadExistingHarvestData_one ov w1 batch row Hread Hsum)
    as (Hev & Hdb2 & _ & Hdata & _ & Hview & summary & Hs & Ht & Hy & Hr & _).
  fold w2 in Hdb2, Hdata, Hview, Hs.
  cbn [HarvestSummaryRow.id row] in Hdata, Hr. rewrite Hdet in Hdata, Hr.
  assert (Hmap : BatchesRest.harvestDataFromDB
                   (Batches.harvestDetails (next_summary_id (db w)) entries)
                 = map SpecMore.without_prices entries).
  { unfold BatchesRest.harvestDataFromDB, Batches.harvestDetails.
    rewrite map_map. reflexivity. }
  fold entries in Hdata, Hr. rewrite Hmap in Hdata, Hr.
  split; [exact Hev|]. split; [exact Hdb2|]. split; [exact Hdata|].
  split; [exact Hview|].
  exists summary. split; [exact Hs|].
  split; [rewrite Ht; reflexivity|].
  split; [rewrite Hy; subst row; unfold Spec.summary_of;
          cbn [HarvestSummaryRow.yield_per_light
               Batches.HarvestSummary.yield_per_light];
          rewrite Hsel; reflexivity|].
  exact Hr.
Qed.

(** X14.  [loadExistingHarvestData] answers true only when its three
    reads are accepted and the batch has exactly one harvest summary
    row; in every other case it changes nothing, and the click on the
    status badge of the batch ends with the message that no harvest
    data was found, the dialog staying as it was. *)
Theorem harvest_view_needs_one_summary :
  forall (o : BatchesRest.ViewCalls) (w : Batches.W) (batch : Batches.Batch.t),
    let rows := BatchesRest.select_summaries (Batches.Batch.id batch) (db w) in
    (Eff.eval (BatchesRest.loadExistingHarvestData o batch) w = true ->
     SpecMore.harvest_rows_read o /\ List.length rows = 1%nat)
    /\ (~ SpecMore.harvest_rows_read o \/ List.length rows <> 1%nat ->
        Eff.exec (BatchesRest.loadExistingHarvestData o batch) w = w
        /\ Eff.exec (BatchesRest.harvestedBadgeOnClick o batch) w
           = mkWorld (Batches.setSelectedBatchForHarvest (Some batch) (ui w))
               (db w) (clock w)
               (alerts w ++ ["No harvest data found for this batch."])).
Proof.
  intros o w batch rows. split.
  - intros Htrue.
    assert (Hread : SpecMore.harvest_rows_read o
                    /\ List.length rows = 1%nat
            \/ (~ SpecMore.harvest_rows_read o
                \/ List.length rows <> 1%nat)).
    { unfold SpecMore.harvest_rows_read.
      destruct (BatchesRest.view_check o), (BatchesRest.view_summary o),
        (BatchesRest.view_details o);
        try (right; left; intros (H1 & H2 & H3); discriminate).
      destruct (Nat.eq_dec (List.length rows) 1); [left | right; right]; auto. }
    destruct Hread as [H|H]; [exact H|].
    unfold Eff.eval in Htrue.
    rewrite (loadExistingHarvestData_none o w batch H) in Htrue.
    discriminate.
  - intros H. unfold Eff.exec.
    rewrite (loadExistingHarvestData_none o w batch H).
    split; [reflexivity|].
    unfold BatchesRest.harvestedBadgeOnClick. run.
    match goal with
    | |- context [BatchesRest.loadExistingHarvestData o batch ?w1] =>
        rewrite (loadExistingHarvestData_none o w1 batch H)
    end.
    reflexivity.
Qed.

(** *** Saving a harvest: the page and the store *)

Lemma mark_harvested_twice (batchId : string) (u : Batches.Ui) :
  Batches.batches (Batches.mark_harvested batchId
                     (Batches.setHarvestDataSaved true
                        (Batches.mark_harvested batchId u)))
  = Batches.batches (Batches.mark_harvested batchId u).
Proof.
  unfold Batches.mark_harvested. cbn. rewrite map_map.
  apply map_ext. intros b.
  destruct (String.eqb (Batches.Batch.id b) batchId) eqn:E.
  - destruct b; cbn in *. now rewrite E.
  - now rewrite E.
Qed.

(** The messages of [handleSaveHarvestData]: the one of the first
    refused write, if any. *)
Lemma handleSaveHarvestData_alerts :
  forall (o : Batches.SaveCalls) (w : Batches.W) (selected : Batches.Batch.t),
    Batches.selectedBatchForHarvest (ui w) = Some selected ->
    alerts (Eff.exec (Batches.handleSaveHarvestData o) w)
    = match SpecMore.save_error o with
      | None => alerts w
      | Some message => (alerts w ++ [message])%list
      end.
Proof.
  intros o w b Hsel.
  unfold Batches.handleSaveHarvestData. run. rewrite Hsel.
  rewrite calculateHarvestSummary_run.
  unfold SpecMore.save_error.
  destruct o as [oc ofe odd ods ois oid oub].
  cbv beta iota delta [Batches.save_costs Batches.save_fetch
    Batches.save_delete_details Batches.save_delete_summaries
    Batches.save_insert_summary Batches.save_insert_details
    Batches.save_update_batch].
  destruct ofe, odd, ods, ois, oid, oub;
    simpl;
    destruct (select_summary_ids (Batches.Batch.id b) (db w)) as [|k ks];
    reflexivity.
Qed.

(** X15.  What [handleSaveHarvestData] leaves on the page.  Without a
    selected batch it does nothing.  With one, the computed summary is
    shown; if the three writes (summary, details, batch status) are
    accepted the batch is shown as harvested and the data as saved,
    with no message; otherwise the list and the saved flag stay as
    they were and exactly one message is added, the one of the first
    refused write.  Refused cleanup calls and a refused cost fetch are
    never reported. *)
Theorem handleSaveHarvestData_page :
  forall (o : Batches.SaveCalls) (w : Batches.W),
    let w' := Eff.exec (Batches.handleSaveHarvestData o) w in
    match Batches.selectedBatchForHarvest (ui w) with
    | None => w' = w
    | Some selected =>
        Batches.harvestSummary (ui w')
        = Some (Eff.eval (Batches.calculateHarvestSummary (Batches.save_costs o))
                         w)
        /\ match SpecMore.save_error o with
           | None =>
               Batches.batches (ui w')
               = Batches.batches
                   (Batches.mark_harvested (Batches.Batch.id selected) (ui w))
               /\ Batches.harvestDataSaved (ui w') = true
               /\ alerts w' = alerts w
           | Some message =>
               Batches.batches (ui w') = Batches.batches (ui w)
               /\ Batches.harvestDataSaved (ui w')
                  = Batches.harvestDataSaved (ui w)
               /\ alerts w' = (alerts w ++ [message])%list
           end
    end.
Proof.
  intros o w w'. subst w'.
  destruct (Batches.selectedBatchForHarvest (ui w)) as [b|] eqn:Hsel.
  - unfold Batches.handleSaveHarvestData. run. rewrite Hsel.
    rewrite calculateHarvestSummary_run.
    unfold SpecMore.save_error.
    destruct o as [oc ofe odd ods ois oid oub].
    cbv beta iota delta [Batches.save_costs Batches.save_fetch
      Batches.save_delete_details Batches.save_delete_summaries
      Batches.save_insert_summary Batches.save_insert_details
      Batches.save_update_batch].
    destruct ofe, odd, ods, ois, oid, oub;
      simpl;
      destruct (select_summary_ids (Batches.Batch.id b) (db w)) as [|k ks];
      simpl; rewrite ?Hsel;
      repeat split; try reflexivity;
      try (rewrite map_map; apply map_ext; intros x;
           destruct (String.eqb (Batches.Batch.id x) (Batches.Batch.id b))
             eqn:E; [destruct x; cbn in *; now rewrite E | now rewrite E]).
  - unfold Batches.handleSaveHarvestData. run. rewrite Hsel. reflexivity.
Qed.


(** X16.  A save is not atomic: when the cleanup is accepted and the
    insert of the new summary is refused, the rows of the earlier
    harvest of the batch are gone from the store and nothing replaces
    them, while every other summary row, the batches table and the
    status of the batch are as before. *)
Theorem refused_insert_loses_harvest :
  forall (o : Batches.SaveCalls) (w : Batches.W) (selected : Batches.Batch.t),
    Batches.selectedBatchForHarvest (ui w) = Some selected ->
    Batches.save_fetch o = Accepted ->
    Batches.save_delete_details o = Accepted ->
    Batches.save_delete_summaries o = Accepted ->
    Batches.save_insert_summary o = Refused ->
    let batchId := Batches.Batch.id selected in
    let w' := Eff.exec (Batches.handleSaveHarvestData o) w in
    Spec.summaries_of batchId (db w') = []
    /\ (forall r, In r (harvest_details (db w')) <->
                  In r (harvest_details (db w))
                  /\ ~ In r (Spec.details_of batchId (db w)))
    /\ (forall s, HarvestSummaryRow.batch_id s <> batchId ->
                  (In s (harvest_summaries (db w'))
                   <-> In s (harvest_summaries (db w))))
    /\ Store.batches (db w') = Store.batches (db w)
    /\ alerts w'
       = (alerts w ++ ["Error saving harvest summary. Please try again."])%list.
Proof.
  intros o w b Hsel Hf Hdd Hds His batchId w'.
  destruct (handleSaveHarvestData_run o w b Hsel) as (Hdb & _).
  fold w' in Hdb.
  pose proof (handleSaveHarvestData_alerts o w b Hsel) as Halerts.
  fold w' in Halerts.
  unfold SpecMore.save_error in Halerts. rewrite His in Halerts.
  assert (Hsaved : Spec.saved o w b
                   = delete_summaries_of batchId
                       (match select_summary_ids batchId (db w) with
                        | [] => db w
                        | k :: ks => delete_details_in (k :: ks) (db w)
                        end)).
  { unfold Spec.saved, Spec.cleanup. rewrite His, Hf, Hdd, Hds.
    fold batchId.
    destruct (select_summary_ids batchId (db w)); reflexivity. }
  rewrite Hdb, Hsaved.
  split; [|split; [|split; [|split]]].
  - unfold Spec.summaries_of, delete_summaries_of. cbn.
    destruct (select_summary_ids batchId (db w)); cbn;
      apply filter_filter_neg.
  - intros r. unfold Spec.details_of.
    destruct (select_summary_ids batchId (db w)) as [|k ks] eqn:Hids; cbn.
    + split; [|tauto]. intros Hin. split; [exact Hin|].
      intros Hr. apply filter_In in Hr. destruct Hr as (_ & Hr).
      discriminate.
    + rewrite !filter_In, negb_true_iff.
      destruct ((HarvestDetailRow.harvest_summary_id r =? k)%nat
                || existsb (Nat.eqb (HarvestDetailRow.harvest_summary_id r)) ks);
        [split; [intros (_ & H); discriminate | intros (Hin & H); exfalso; apply H; split; [exact Hin | reflexivity]]
        |split; [intros (Hin & _); split; [exact Hin | intros (_ & H); discriminate] | intros (Hin & _); split; [exact Hin | reflexivity]]].
  - intros s Hs.
    destruct (select_summary_ids batchId (db w)); cbn;
      rewrite filter_In, negb_true_iff;
      (split; [tauto|]); intros Hin; (split; [exact Hin|]);
      apply String.eqb_neq; exact Hs.
  - destruct (select_summary_ids batchId (db w)); reflexivity.
  - exact Halerts.
Qed.

(** *** Days and dates *)

Lemma Qceiling_days (e : Z) :
  Qceiling (inject_Z e / inject_Z Js.ms_per_day)
  = (- ((- e) / Js.ms_per_day))%Z.
Proof.
  unfold Js.ms_per_day.
  change (1000 * 60 * 60 * 24)%Z with 86400000%Z.
  unfold Qceiling, Qfloor, Qdiv, Qmult, Qinv, Qopp, inject_Z. simpl.
  rewrite Z.mul_1_r. reflexivity.
Qed.

(** X17.  [calculateDaysRemaining] reads the clock and nothing else.
    Without a date it answers null; with one it answers the day number
    of the date minus the day number of today, whatever the time of
    day. *)
Theorem calculateDaysRemaining_spec :
  forall (expectedHarvest : option Z) (w : Batches.W),
    Eff.exec (BatchesRest.calculateDaysRemaining expectedHarvest) w = w
    /\ Eff.eval (BatchesRest.calculateDaysRemaining expectedHarvest) w
       = option_map (fun harvestDate => (harvestDate - Js.iso_day (clock w))%Z)
                    expectedHarvest.
Proof.
  intros [d|] w; [|split; reflexivity].
  split; [reflexivity|].
  unfold BatchesRest.calculateDaysRemaining. run. cbn [fst option_map].
  f_equal. rewrite Qceiling_days. unfold Js.iso_day.
  generalize (Js.getTime (clock w)). intros t.
  unfold Js.ms_per_day.
  change (1000 * 60 * 60 * 24)%Z with 86400000%Z.
  Z.to_euclidean_division_equations. lia.
Qed.

(** X18.  The days a batch has been active, as [calculateCostToGrow]
    counts them: the day number of today minus the start day, plus one
    unless the clock stands exactly at midnight.  So the count and the
    days remaining to the same date add up to one, or to zero at
    midnight. *)
Theorem daysActive_calendar :
  forall (w : Batches.W) (startDate : Z),
    let partial :=
      if (Js.getTime (clock w) mod Js.ms_per_day =? 0)%Z then 0%Z else 1%Z in
    Batches.daysActive (clock w) startDate
    = (Js.iso_day (clock w) - startDate + partial)%Z
    /\ Eff.eval (BatchesRest.calculateDaysRemaining (Some startDate)) w
       = Some (partial - Batches.daysActive (clock w) startDate)%Z.
Proof.
  intros w startDate partial.
  assert (H : Batches.daysActive (clock w) startDate
              = (Js.iso_day (clock w) - startDate + partial)%Z).
  { unfold Batches.daysActive. rewrite Qceiling_days.
    subst partial. unfold Js.iso_day.
    generalize (Js.getTime (clock w)). intros t.
    unfold Js.ms_per_day.
    change (1000 * 60 * 60 * 24)%Z with 86400000%Z.
    destruct (Z.eqb_spec (t mod 86400000) 0);
      Z.to_euclidean_division_equations; lia. }
  split; [exact H|].
  unfold BatchesRest.calculateDaysRemaining. run. cbn [fst].
  f_equal. rewrite H, Qceiling_days. unfold Js.iso_day.
  generalize (Js.getTime (clock w)). intros t.
  unfold Js.ms_per_day.
  change (1000 * 60 * 60 * 24)%Z with 86400000%Z.
  Z.to_euclidean_division_equations. lia.
Qed.

Lemma suffixes_agree (bound : nat) (day : Z) :
  SpecMore.suffixes_agree_upto bound = true ->
  (0 <= day <= Z.of_nat bound)%Z ->
  BatchesRest.getOrdinalSuffix day = SpecMore.english_suffix day.
Proof.
  intros Hall Hday. unfold SpecMore.suffixes_agree_upto in Hall.
  rewrite forallb_forall in Hall.
  specialize (Hall (Z.to_nat day)).
  rewrite Z2Nat.id in Hall by lia.
  apply String.eqb_eq, Hall, in_seq. lia.
Qed.

(** X19.  For a day of the month, and for every number from 0 to 110,
    [formatDate] prints the English ordinal suffix of the day, between
    the month name and the year; a month index outside the twelve
    names prints as [undefined].  The suffix is no longer the English
    one at 111, and the empty date prints as a dash. *)
Theorem formatDate_spec :
  forall (date : JsMore.DateParts),
    (0 <= JsMore.getDate date <= 110)%Z ->
    BatchesRest.formatDate (Some date)
    = nth (JsMore.getMonth date) BatchesRest.monthNames "undefined"
      ++ " " ++ Js.String_of_Z (JsMore.getDate date)
      ++ SpecMore.english_suffix (JsMore.getDate date)
      ++ " " ++ Js.String_of_Z (JsMore.getFullYear date)
    /\ BatchesRest.getOrdinalSuffix 111 <> SpecMore.english_suffix 111
    /\ BatchesRest.formatDate None = "—".
Proof.
  intros date Hday. split; [|split; [discriminate | reflexivity]].
  unfold BatchesRest.formatDate.
  rewrite (suffixes_agree 110 (JsMore.getDate date)) by
    (try (vm_compute; reflexivity); exact Hday).
  f_equal.
  generalize (JsMore.getMonth date). intros m.
  do 12 (destruct m as [|m]; [reflexivity|]).
  destruct m; reflexivity.
Qed.

(** *** The cost to grow when data is missing *)

(** X20.  [calculateCostToGrow] never changes the page or the store.
    When the fetch of the cost entries is refused the cost is 0, the
    electricity estimate included.  When the room is not among the
    loaded rooms, or its lights are null or zero, the cost is the sum
    of the fetched entries alone, 0 when that sum is zero or NaN. *)
Theorem calculateCostToGrow_fallbacks :
  forall (o : outcome) (batchId roomId : string) (startDate : Z)
         (w : Batches.W),
    Eff.exec (Batches.calculateCostToGrow o batchId roomId startDate) w = w
    /\ Eff.eval (Batches.calculateCostToGrow Refused batchId roomId startDate) w
       = Js.int 0
    /\ (match Batches.find_room (ui w) roomId with
        | Some room => RoomRow.lights room = None
                       \/ RoomRow.lights room = Some 0%Z
        | None => True
        end ->
        Js.is_finite (Js.int (Batches.daysActive (clock w) startDate)) = true ->
        Eff.eval (Batches.calculateCostToGrow Accepted batchId roomId startDate)
                 w
        = Js.or_num
            (Spec.running_sum
               (map CostEntryRow.amount
                    (select_cost_entries batchId roomId startDate
                       (Js.iso_day (clock w)) (db w))))
            (Js.int 0)).
Proof.
  intros o batchId roomId startDate w.
  split; [apply calculateCostToGrow_reads|].
  split; [reflexivity|].
  intros Hroom Hfin. unfold Batches.calculateCostToGrow. run. cbn [fst].
  rewrite reduce_num_sum.
  assert (Hl : Js.or_Z (match Batches.find_room (ui w) roomId with
                        | Some room => RoomRow.lights room
                        | None => None
                        end) 0 = 0%Z).
  { destruct (Batches.find_room (ui w) roomId) as [room|]; [|reflexivity].
    destruct Hroom as [-> | ->]; reflexivity. }
  rewrite Hl.
  change (Js.mul (Js.int 0) Batches.electricityCostPerLightPerDay)
    with (S754_zero false).
  set (x := Spec.running_sum _).
  destruct (Js.int (Batches.daysActive (clock w) startDate))
    as [s|s| |s m e]; try discriminate Hfin;
    destruct x as [[|]|[|]| |[|] m' e']; destruct s; reflexivity.
Qed.

(** *** The rooms of the facility page *)



Lemma handleDeleteRoom_run (o : Facility.DeleteCalls) (id : string)
  (w : Facility.W) :
  let proceeds :=
    match Js.find (fun r => String.eqb (Facility.Room.id r) id)
                  (Facility.rooms (ui w)) with
    | Some room =>
        match Facility.Room.has_current_batch room with
        | Some true => false
        | _ => true
        end
    | None => false
    end in
  Eff.exec (Facility.handleDeleteRoom o id) w
  = if proceeds then
      match Facility.del_room o with
      | Refused =>
          mkWorld (ui w) (db w) (clock w)
                  (alerts w ++ ["Error deleting room. Please try again."])
      | Accepted =>
          Eff.exec (Facility.loadRooms (Facility.del_reload o))
                   (set_db (delete_room id (db w)) w)
      end
    else w.
Proof.
  unfold Facility.handleDeleteRoom. run_facility.
  destruct (Js.find _ (Facility.rooms (ui w))) as [room|]; [|reflexivity].
  destruct (Facility.Room.has_current_batch room) as [[|]|];
    try reflexivity;
    destruct (Facility.del_room o); destruct w; reflexivity.
Qed.

(** X22.  [handleDeleteRoom] decides by the page's own room list, not
    by the store: for an id the page does not show, or a room the page
    flags as having a current batch, nothing happens; for any other
    room the delete is issued even when the store holds an active
    batch in it.  The delete removes only the rows of [rooms] with
    that id; the batches, also those of the room, stay.  After an
    accepted delete and an accepted reload the page shows no room with
    that id; after a refused reload the page still shows what it
    did. *)
Theorem handleDeleteRoom_spec :
  forall (o : Facility.DeleteCalls) (id : string) (w : Facility.W),
    let w' := Eff.exec (Facility.handleDeleteRoom o id) w in
    let found := Js.find (fun r => String.eqb (Facility.Room.id r) id)
                         (Facility.rooms (ui w)) in
    Store.batches (db w') = Store.batches (db w)
    /\ (forall r, In r (Store.rooms (db w')) -> In r (Store.rooms (db w)))
    /\ ((found = None
         \/ exists room, found = Some room
                         /\ Facility.Room.has_current_batch room = Some true) ->
        w' = w)
    /\ (forall room,
          found = Some room ->
          Facility.Room.has_current_batch room <> Some true ->
          Facility.del_room o = Accepted ->
          (forall r, In r (Store.rooms (db w')) <->
                     In r (Store.rooms (db w)) /\ RoomRow.id r <> id)
          /\ alerts w' = alerts w
          /\ (Facility.del_reload o = Accepted ->
              forall shown, In shown (Facility.rooms (ui w')) ->
                            Facility.Room.id shown <> id)
          /\ (Facility.del_reload o = Refused ->
              Facility.rooms (ui w') = Facility.rooms (ui w))).
Proof.
  intros o id w w' found.
  pose proof (handleDeleteRoom_run o id w) as Hrun.
  cbv zeta in Hrun. fold w' found in Hrun.
  assert (Hrows : forall r,
            In r (Store.rooms (delete_room id (db w)))
            <-> In r (Store.rooms (db w)) /\ RoomRow.id r <> id).
  { intros r. unfold delete_room. cbn. rewrite filter_In, negb_true_iff.
    rewrite String.eqb_neq. reflexivity. }
  split; [|split; [|split]].
  - rewrite Hrun. destruct found as [room|]; [|reflexivity].
    destruct (Facility.Room.has_current_batch room) as [[|]|];
      try reflexivity;
      (destruct (Facility.del_room o); [rewrite loadRooms_db|]; reflexivity).
  - intros r. rewrite Hrun. destruct found as [room|]; [|tauto].
    destruct (Facility.Room.has_current_batch room) as [[|]|];
      try tauto;
      (destruct (Facility.del_room o);
       [rewrite loadRooms_db; cbn [db set_db]; intros Hr;
        apply Hrows in Hr; tauto
       | cbn; tauto]).
  - intros [Hnone | (room & Hsome & Hflag)]; rewrite Hrun.
    + rewrite Hnone. reflexivity.
    + rewrite Hsome, Hflag. reflexivity.
  - intros room Hsome Hflag Hdel. rewrite Hrun, Hsome, Hdel.
    assert (Hgo : match Facility.Room.has_current_batch room with
                  | Some true => false
                  | _ => true
                  end = true).
    { destruct (Facility.Room.has_current_batch room) as [[|]|];
        [now elim Hflag | reflexivity | reflexivity]. }
    rewrite Hgo.
    split; [|split; [|split]].
    + intros r. rewrite loadRooms_db. apply Hrows.
    + destruct (Facility.del_reload o); reflexivity.
    + intros Hreload shown Hin Hid. rewrite Hreload, loadRooms_rooms in Hin.
      apply in_map_iff in Hin. destruct Hin as (j & <- & Hj).
      unfold Facility.select_rooms in Hj. apply in_map_iff in Hj.
      destruct Hj as (r & <- & Hr). cbn in Hid.
      apply Hrows in Hr. tauto.
    + intros Hreload. rewrite Hreload. reflexivity.
Qed.

(** *** Changing a status outside the harvest dialog *)

Lemma stored_status_other (batchId other : string) (s : Status) (d : Db) :
  other <> batchId ->
  stored_status other (update_batch_status batchId s d)
  = stored_status other d.
Proof.
  intros Hne. unfold stored_status, update_batch_status. cbn.
  induction (Store.batches d) as [|b l IH]; [reflexivity|].
  cbn [map List.find].
  destruct (String.eqb_spec (BatchRow.id b) batchId) as [Hb|Hb].
  - cbn [BatchRow.id with_status].
    destruct (String.eqb_spec (BatchRow.id b) other) as [Ho|Ho];
      [congruence | exact IH].
  - destruct (String.eqb (BatchRow.id b) other); [reflexivity | exact IH].
Qed.

(** X23.  The direct path of [handleUpdateBatchStatus], taken for every
    status but [harvested] and also for [harvested] when the page does
    not list the batch: a refused update changes nothing and adds one
    message; an accepted one rewrites the status of the batches with
    that id and of no other, adds and removes no batch, and leaves the
    harvest rows alone, so a status [harvested] can be stored without
    harvest rows and taken away again with the rows left in place. *)
Theorem handleUpdateBatchStatus_direct_path :
  forall (o : Batches.UpdateCalls) (w : Batches.W) (batchId : string)
         (s : Status),
    s <> harvested \/ Batches.find_batch (ui w) batchId = None ->
    let w' := Eff.exec (Batches.handleUpdateBatchStatus o batchId s) w in
    match Batches.upd_status o with
    | Refused =>
        w' = mkWorld (ui w) (db w) (clock w)
               (alerts w ++ ["Error updating batch status. Please try again."])
    | Accepted =>
        db w' = update_batch_status batchId s (db w)
        /\ alerts w' = alerts w
        /\ map BatchRow.id (Store.batches (db w'))
           = map BatchRow.id (Store.batches (db w))
        /\ harvest_summaries (db w') = harvest_summaries (db w)
        /\ harvest_details (db w') = harvest_details (db w)
        /\ (forall other, other <> batchId ->
              stored_status other (db w') = stored_status other (db w))
        /\ (forall b, In b (Store.batches (db w')) ->
              BatchRow.id b = batchId -> BatchRow.status b = s)
    end.
Proof.
  intros o w batchId s Hdirect w'.
  assert (Hrun : w' = Eff.exec (Batches.update_status_directly o batchId s) w).
  { subst w'. unfold Batches.handleUpdateBatchStatus. run.
    destruct Hdirect as [Hs | ->].
    - destruct s; try reflexivity. now elim Hs.
    - destruct s; reflexivity. }
  rewrite Hrun. unfold Batches.update_status_directly. run.
  destruct (Batches.upd_status o).
  - cbn [fst snd].
    pose proof (loadBatches_db (Batches.upd_reload o)
                  (set_db (update_batch_status batchId s (db w)) w))
      as (Hdb & Hal).
    unfold Eff.exec in Hdb, Hal. rewrite Hdb, Hal. cbn [db set_db alerts].
    split; [reflexivity|]. split; [reflexivity|].
    split; [|split; [reflexivity|split; [reflexivity|split]]].
    + unfold update_batch_status. cbn. rewrite map_map. apply map_ext.
      intros b. destruct (String.eqb (BatchRow.id b) batchId); reflexivity.
    + intros other Hne. now apply stored_status_other.
    + intros b Hin Hid. unfold update_batch_status in Hin. cbn in Hin.
      apply in_map_iff in Hin. destruct Hin as (x & Hx & _).
      destruct (String.eqb_spec (BatchRow.id x) batchId) as [Hxb|Hxb].
      * subst b. reflexivity.
      * subst b. contradiction.
  - destruct w; reflexivity.
Qed.

(** *** The lights input and the percentage field *)

(** X24.  In a room of bounded capacity [C] the lights input keeps the
    percentage field in step with the lights field: after every entry
    the percentage is the share of [C] of the lights now in the field,
    times 100, printed with one decimal.  Without a bounded capacity
    the entry goes to the lights field as typed and the percentage
    field is left alone. *)
Theorem lights_input_sets_share :
  forall (w : Batches.W) (inputValue : option Z),
    let w1 := Eff.exec (BatchesRest.lightsOnChange inputValue) w in
    match BatchesRest.bounded_capacity (ui w) with
    | Some C =>
        Batches.percentageForStrain (ui w1)
        = Some (Js.toFixed1
                  (Js.mul
                     (Js.quot
                        (Js.int (Js.or_Z (Batches.lightsForStrain (ui w1)) 0))
                        (Js.int C))
                     (Js.int 100)))
    | None =>
        Batches.percentageForStrain (ui w1) = Batches.percentageForStrain (ui w)
        /\ Batches.lightsForStrain (ui w1) = inputValue
    end.
Proof.
  intros w inputValue w1. subst w1.
  unfold BatchesRest.lightsOnChange. run.
  destruct (BatchesRest.bounded_capacity (ui w)) as [C|];
    [|split; reflexivity].
  destruct (_ >? _)%Z; cbn [snd ui set_ui Batches.percentageForStrain
    Batches.lightsForStrain Batches.setPercentageForStrain
    Batches.setLightsForStrain]; [|reflexivity].
  rewrite or_Z_zero. reflexivity.
Qed.

(** 23 lights of 80 are 28.749999999999996 percent in doubles, shown
    as 28.7; 4 lights of 6 are shown as 66.7. *)
Example share_of_lights :
  Js.mul (Js.quot (Js.int 23) (Js.int 80)) (Js.int 100)
  = Js.nearest 28749999999999996 1000000000000000
  /\ Js.toFixed1 (Js.mul (Js.quot (Js.int 23) (Js.int 80)) (Js.int 100))
     = Js.lit 287 1
  /\ Js.toFixed1 (Js.mul (Js.quot (Js.int 4) (Js.int 6)) (Js.int 100))
     = Js.lit 667 1.
Proof. repeat split; vm_compute; reflexivity. Qed.


(** *** Sample runs of the further properties *)


Lemma add_then_remove_sample :
  Batches.batchStrains (ui Examples.w_start) = []
  /\ Batches.batchStrains (ui Examples.w_one)
     = [Batches.BatchStrain.mk "s1" "Kush" 5 (Js.int 50)]
  /\ Batches.batchStrains
       (ui (Eff.exec (Batches.removeStrainFromBatch 0) Examples.w_one))
     = [].
Proof.
  destruct (add_then_remove_strain Examples.w_start 5 (Js.int 50)
              Examples.kush)
    as (Hadd & _ & _ & _ & _ & _ & Hback);
    [reflexivity | reflexivity | discriminate | reflexivity | reflexivity
     | reflexivity |].
  split; [reflexivity|]. split; [exact Hadd | exact Hback].
Defined.



Lemma batch_codes_sample :
  Eff.eval Batches.validateBatchStrains ExamplesMore.w_third = true
  /\ Eff.eval (Batches.generateBatchCode Accepted "Flower Room 7" "room7")
              ExamplesMore.w_third
     = "R7-2026-03"
  /\ Eff.eval (Batches.generateBatchCode Accepted "Flower Room 7" "room7")
              (Eff.exec (Batches.handleAddBatch ExamplesMore.add_b3)
                        ExamplesMore.w_third)
     = "R7-2026-04".
Proof.
  assert (Hv : Eff.eval Batches.validateBatchStrains ExamplesMore.w_third
               = true) by (vm_compute; reflexivity).
  split; [exact Hv|]. split; [reflexivity|].
  destruct (batch_codes_advance ExamplesMore.add_b3 ExamplesMore.w_third
              20000%Z "b3" Examples.room7)
    as (_ & Hnext);
    [reflexivity | discriminate | exact Hv | reflexivity | reflexivity
     | reflexivity | reflexivity |].
  exact Hnext.
Defined.

Lemma harvest_dialog_sample :
  Batches.find_batch (ui Examples.w_submitted) "b1" = Some Examples.b1
  /\ Batches.harvestSummary (ui Examples.w_dialog) = None
  /\ map Batches.HarvestData.strain_id
         (Batches.harvestData (ui Examples.w_dialog)) = ["s1"].
Proof.
  assert (Hfind : Batches.find_batch (ui Examples.w_submitted) "b1"
                  = Some Examples.b1) by (vm_compute; reflexivity).
  split; [exact Hfind|].
  destruct (harvest_dialog_opens_blank Examples.update_ok Examples.w_submitted
              "b1" Examples.b1 Hfind)
    as (_ & _ & Hids & _ & Hsummary & _).
  split; [exact Hsummary|].
  exact (Hids _ _ eq_refl).
Defined.

Lemma saved_harvest_sample :
  Batches.selectedBatchForHarvest (ui ExamplesMore.w_weighed)
  = Some Examples.b1
  /\ map Batches.HarvestData.bigs_price_per_lb
         (Batches.harvestData (ui ExamplesMore.w_weighed)) = [Js.int 20]
  /\ Eff.eval (BatchesRest.loadExistingHarvestData ExamplesMore.view_ok
                 Examples.b1) ExamplesMore.w_saved = true
  /\ map Batches.HarvestData.bigs_price_per_lb
         (Batches.harvestData
            (ui (Eff.exec (BatchesRest.loadExistingHarvestData
                             ExamplesMore.view_ok Examples.b1)
                          ExamplesMore.w_saved))) = [Js.int 0].
Proof.
  assert (Hkeys : Spec.keys_below_next (db ExamplesMore.w_weighed)).
  { split; intros x []. }
  assert (Hpersist : Spec.harvest_rows_persist Examples.save_ok).
  { repeat split. }
  assert (Hread : SpecMore.harvest_rows_read ExamplesMore.view_ok).
  { repeat split. }
  assert (Hsel : Batches.selectedBatchForHarvest (ui ExamplesMore.w_weighed)
                 = Some Examples.b1).
  { vm_compute. reflexivity. }
  destruct (saved_harvest_is_viewed_without_prices Examples.save_ok
              ExamplesMore.view_ok ExamplesMore.w_weighed Examples.b1
              Hkeys Hsel Hpersist Hread)
    as (Htrue & _ & Hdata & _).
  split; [exact Hsel|]. split; [vm_compute; reflexivity|].
  split; [exact Htrue|].
  etransitivity;
    [exact (f_equal (map Batches.HarvestData.bigs_price_per_lb) Hdata)|].
  vm_compute. reflexivity.
Defined.

Lemma refused_insert_sample :
  Batches.selectedBatchForHarvest (ui ExamplesMore.w_saved) = Some Examples.b1
  /\ List.length (Spec.summaries_of "b1" (db ExamplesMore.w_saved)) = 1%nat
  /\ Spec.summaries_of "b1"
       (db (Eff.exec (Batches.handleSaveHarvestData
                        ExamplesMore.save_no_summary)
                     ExamplesMore.w_saved)) = [].
Proof.
  assert (Hsel : Batches.selectedBatchForHarvest (ui ExamplesMore.w_saved)
                 = Some Examples.b1) by (vm_compute; reflexivity).
  split; [exact Hsel|]. split; [vm_compute; reflexivity|].
  exact (proj1 (refused_insert_loses_harvest ExamplesMore.save_no_summary
                  ExamplesMore.w_saved Examples.b1 Hsel eq_refl eq_refl
                  eq_refl eq_refl)).
Defined.

Lemma formatDate_sample :
  (0 <= JsMore.getDate ExamplesMore.nov2 <= 110)%Z
  /\ BatchesRest.formatDate (Some ExamplesMore.nov2) = "Nov 2nd 2026".
Proof.
  assert (Hday : (0 <= JsMore.getDate ExamplesMore.nov2 <= 110)%Z).
  { split; discriminate. }
  split; [exact Hday|].
  exact (proj1 (formatDate_spec ExamplesMore.nov2 Hday)).
Defined.

Lemma direct_status_sample :
  Batches.find_batch (ui Examples.w_submitted) "b9" = None
  /\ stored_status "b1"
       (db (Eff.exec (Batches.handleUpdateBatchStatus Examples.update_ok
                        "b9" harvested) Examples.w_submitted))
     = stored_status "b1" (db Examples.w_submitted)
  /\ harvest_summaries
       (db (Eff.exec (Batches.handleUpdateBatchStatus Examples.update_ok
                        "b9" harvested) Examples.w_submitted))
     = harvest_summaries (db Examples.w_submitted).
Proof.
  assert (Hnone : Batches.find_batch (ui Examples.w_submitted) "b9" = None)
    by (vm_compute; reflexivity).
  split; [exact Hnone|].
  destruct (handleUpdateBatchStatus_direct_path Examples.update_ok
              Examples.w_submitted "b9" harvested (or_intror Hnone))
    as (_ & _ & _ & Hsum & _ & Hother & _).
  split; [|exact Hsum].
  apply Hother. discriminate.
Defined.

